(** * Appointment negotiation core of the dental chatbot

    A shallow embedding of the Express backend ([server.js]: the
    [/api/chatbot/message] and [/api/chatbot/confirm] handlers with their
    helpers [upsertUser], [ensureSession] and [logMessage]), of the
    PostgreSQL schema they run against ([database/schema.sql]) and of the
    proposal bookkeeping of the React client ([App.jsx]:
    [confirmAppointment], [declineAppointment], [showConfirmationBar]).

    Handlers are programs of a small free monad whose events are the SQL
    statements and the call to the Python service, so that the same
    program text can be run sequentially (one request at a time) and
    interleaved statement by statement with other requests. *)

From Stdlib Require Import ZArith List String Ascii Bool Lia DecimalString.
Import ListNotations.

Local Open Scope string_scope.
Local Open Scope Z_scope.

(* ================================================================== *)
(** ** JavaScript values *)
(* ================================================================== *)

Module Js.

(** JSON-shaped JavaScript values, as [express.json()] hands them to a
    handler and as [res.json] sends them out.  Numbers are the integral
    ones; an object is its list of own properties, each key listed once.
    The order of the list is that in which the program wrote the
    properties and carries no meaning: the program reads properties by
    name, and a [JSONB] column keeps the properties of an object, not
    their order.  A string is the sequence of the bytes of its UTF-8
    form. *)
#[warnings="-register-all"]
Inductive JsVal : Type :=
| JUndefined
| JNull
| JBool (b : bool)
| JNum (n : Z)
| JStr (s : string)
| JArr (items : list JsVal)
| JObj (fields : list (string * JsVal)).

(** [ToBoolean]: what [if (v)], [!v], [a || b] and [c ? x : y] test. *)
Definition truthy (v : JsVal) : bool :=
  match v with
  | JUndefined | JNull => false
  | JBool b => b
  | JNum n => negb (n =? 0)
  | JStr s => negb (String.eqb s "")
  | JArr _ | JObj _ => true
  end.

Fixpoint lookup (k : string) (fs : list (string * JsVal)) : JsVal :=
  match fs with
  | [] => JUndefined
  | (k', v) :: fs' => if String.eqb k k' then v else lookup k fs'
  end.

(** Whether [k] is an own property. *)
Definition has_own (k : string) (fs : list (string * JsVal)) : bool :=
  existsb (fun kv => String.eqb k (fst kv)) fs.

(** [v?.k]: property read with optional chaining.  None of the keys the
    program reads is a property of a primitive or of an array, so every
    value that is not an object answers [undefined]. *)
Definition prop (v : JsVal) (k : string) : JsVal :=
  match v with
  | JObj fs => lookup k fs
  | _ => JUndefined
  end.

(** [v.k]: the plain property read, a [TypeError] ([None]) on [null] and
    [undefined]. *)
Definition get (v : JsVal) (k : string) : option JsVal :=
  match v with
  | JUndefined | JNull => None
  | _ => Some (prop v k)
  end.

(** [a || b] *)
Definition or (a b : JsVal) : JsVal := if truthy a then a else b.

(** [a ?? b] *)
Definition nullish (a b : JsVal) : JsVal :=
  match a with
  | JUndefined | JNull => b
  | _ => a
  end.



(** White space and line terminators of ECMAScript, as [trim] strips
    them: the code points 9 to 13 and 32, and, in their UTF-8 form,
    U+00A0, U+1680, U+2000 to U+200A, U+2028, U+2029, U+202F, U+205F,
    U+3000 and U+FEFF. *)
Definition is_space (c : ascii) : bool :=
  match nat_of_ascii c with
  | 9%nat | 10%nat | 11%nat | 12%nat | 13%nat | 32%nat => true
  | _ => false
  end.

Definition byte (c : ascii) : Z := Z.of_nat (nat_of_ascii c).

(** The white space of two and of three bytes. *)
Definition is_space2 (a b : ascii) : bool :=
  (byte a =? 194) && (byte b =? 160).

Definition is_space3 (a b c : ascii) : bool :=
  ((byte a =? 225) && (byte b =? 154) && (byte c =? 128))
  || ((byte a =? 226) && (byte b =? 128)
      && (((128 <=? byte c) && (byte c <=? 138))
          || (byte c =? 168) || (byte c =? 169) || (byte c =? 175)))
  || ((byte a =? 226) && (byte b =? 129) && (byte c =? 159))
  || ((byte a =? 227) && (byte b =? 128) && (byte c =? 128))
  || ((byte a =? 239) && (byte b =? 187) && (byte c =? 191)).

(** Strip the white space at the head of a list of bytes; [fuel] bounds
    the number of characters stripped. *)
Fixpoint strip (fwd : bool) (fuel : nat) (l : list ascii) : list ascii :=
  match fuel with
  | O => l
  | S fuel' =>
      match l with
      | a :: l1 =>
          if is_space a then strip fwd fuel' l1
          else
            match l1 with
            | b :: l2 =>
                if (if fwd then is_space2 a b else is_space2 b a)
                then strip fwd fuel' l2
                else
                  match l2 with
                  | c :: l3 =>
                      if (if fwd then is_space3 a b c else is_space3 c b a)
                      then strip fwd fuel' l3
                      else l
                  | [] => l
                  end
            | [] => l
            end
      | [] => l
      end
  end.

(** [String.prototype.trim]: the white space at the head is stripped
    reading forward, the white space at the tail reading backward. *)
Definition trim (s : string) : string :=
  let l := list_ascii_of_string s in
  let l1 := strip true (List.length l) l in
  string_of_list_ascii (rev (strip false (List.length l1) (rev l1))).

(** The largest time value of a [Date]: 8.64e15 ms either side of the
    epoch. *)
Definition max_time : Z := 8640000000000000.

End Js.
Import Js.

(* ================================================================== *)
(** ** What the platform decides *)
(* ================================================================== *)

(** Conversions made by the JavaScript engine, by the [pg] driver and by
    PostgreSQL, not by the program; the development holds for every
    choice of them. *)
Class Platform : Type := {
  (** [Date.parse]: the time value of a date string, [None] for [NaN]. *)
  Date_parse : string -> option Z;
  (** [Date.prototype.toLocaleString] of a time value. *)
  Date_toLocaleString : Z -> string;
  (** [Number.prototype.toString] of an integral number. *)
  Number_toString : Z -> string;
  (** How the driver writes a statement parameter that is an object
      ([JSON.stringify]) or an array (its array literal). *)
  pg_prepare_object : JsVal -> string;
  (** How PostgreSQL reads a statement parameter bound to the [TIMESTAMP]
      column [scheduled_at]; [None] when it rejects the text. *)
  pg_timestamp : JsVal -> option Z;
  (** A [TIMESTAMP] value as it goes out: read by the driver into a
      [Date], written by [res.json] through [toJSON]. *)
  pg_timestamp_json : Z -> JsVal
}.

Section Conversions.
Context `{Platform}.

(** [ToString], [None] where it throws a [TypeError]: an object parsed
    from JSON that has an own [toString] property has one that cannot be
    called, and [Object.prototype.valueOf] gives no primitive.  An array
    is joined with commas, [null] and [undefined] elements left empty. *)
Fixpoint to_string (v : JsVal) : option string :=
  match v with
  | JUndefined => Some "undefined"
  | JNull => Some "null"
  | JBool b => Some (if b then "true" else "false")
  | JNum n => Some (Number_toString n)
  | JStr s => Some s
  | JArr items =>
      (fix join (first : bool) (l : list JsVal) {struct l} : option string :=
         match l with
         | [] => Some ""
         | x :: l' =>
             match match x with
                   | JUndefined | JNull => Some ""
                   | _ => to_string x
                   end, join false l' with
             | Some s, Some rest =>
                 Some ((if first then "" else ",") ++ s ++ rest)
             | _, _ => None
             end
         end) true items
  | JObj fs => if has_own "toString" fs then None else Some "[object Object]"
  end.

(** Whether [new Date(v)] throws: [ToPrimitive] of an object or array
    goes through [toString]. *)
Definition Date_throws (v : JsVal) : bool :=
  match v with
  | JArr _ | JObj _ =>
      match to_string v with Some _ => false | None => true end
  | _ => false
  end.

(** [new Date(v).getTime()] where the constructor returns, [None] for
    [NaN]. *)
Definition Date_of (v : JsVal) : option Z :=
  match v with
  | JUndefined => None
  | JNull => Some 0
  | JBool b => Some (if b then 1 else 0)
  | JNum n => if Z.abs n <=? max_time then Some n else None
  | JStr s => Date_parse s
  | JArr _ | JObj _ =>
      match to_string v with Some s => Date_parse s | None => None end
  end.

(** [prepareValue] of the driver: the text a parameter is sent as, [None]
    for SQL [NULL]. *)
Definition pg_text (v : JsVal) : option string :=
  match v with
  | JUndefined | JNull => None
  | JBool b => Some (if b then "true" else "false")
  | JNum n => Some (Number_toString n)
  | JStr s => Some s
  | JArr _ | JObj _ => Some (pg_prepare_object v)
  end.

End Conversions.

(* ================================================================== *)
(** ** The datastore: [database/schema.sql] *)
(* ================================================================== *)

Module Db.

(** [CHECK (status IN ('pending', 'confirmed', 'completed', 'cancelled',
    'no_show'))] *)
Inductive Status : Type :=
| pending | confirmed | completed | cancelled | no_show.

Definition Status_eqb (a b : Status) : bool :=
  match a, b with
  | pending, pending | confirmed, confirmed | completed, completed
  | cancelled, cancelled | no_show, no_show => true
  | _, _ => false
  end.

Definition Status_name (s : Status) : string :=
  match s with
  | pending => "pending" | confirmed => "confirmed"
  | completed => "completed" | cancelled => "cancelled"
  | no_show => "no_show"
  end.

(** Rows.  The clock columns other than [created_at] of [appointments],
    which the confirm handler sends back, and the nullable profile
    columns of [users] are left out: no statement of the negotiation
    core reads them.  [content] is [TEXT]: the replies of the service and
    the sentences of the handlers are strings, kept as they are.  [meta]
    is [JSONB], read by key. *)
Record User : Type := mkUser {
  user_id : Z;
  email : string;
  password_hash : string;
  name : string
}.

Record ChatSession : Type := mkChatSession {
  session_id : Z;
  session_user_id : Z;
  session_token : option string
}.

Record Appointment : Type := mkAppointment {
  appointment_id : Z;
  appointment_user_id : Z;
  scheduled_at : Z;
  status : Status;
  appointment_type : string;
  duration_minutes : Z;
  notes : string;
  created_at : Z
}.

Record ChatMessage : Type := mkChatMessage {
  message_user_id : Z;
  message_session_token : string;
  role : string;
  content : JsVal;
  meta : JsVal
}.

(** The four tables, rows in insertion order, and the [SERIAL] counters. *)
Record DB : Type := mkDB {
  users : list User;
  users_id_seq : Z;
  chat_sessions : list ChatSession;
  chat_sessions_id_seq : Z;
  appointments : list Appointment;
  appointments_id_seq : Z;
  chat_messages : list ChatMessage
}.

(** The state [schema.sql] leaves behind: the two sample users, nothing
    else. *)
Definition schema_db : DB :=
  {| users := [ mkUser 1 "alice@example.com" "hash_demo" "Alice";
                mkUser 2 "bob@example.com" "hash_demo" "Bob" ];
     users_id_seq := 3;
     chat_sessions := [];
     chat_sessions_id_seq := 1;
     appointments := [];
     appointments_id_seq := 1;
     chat_messages := [] |}.

(** Rows of [appointments] that are confirmed at instant [t]: the rows
    both [WHERE scheduled_at = $1 AND status = 'confirmed'] and the
    partial index [uniq_confirmed_appointments] look at. *)
Definition confirmed_at (t : Z) (a : Appointment) : bool :=
  (scheduled_at a =? t) && Status_eqb (status a) confirmed.

Definition set_name (n : string) (u : User) : User :=
  {| user_id := user_id u; email := email u;
     password_hash := password_hash u; name := n |}.

Definition with_users (db : DB) (us : list User) (seq : Z) : DB :=
  {| users := us; users_id_seq := seq;
     chat_sessions := chat_sessions db;
     chat_sessions_id_seq := chat_sessions_id_seq db;
     appointments := appointments db;
     appointments_id_seq := appointments_id_seq db;
     chat_messages := chat_messages db |}.

Definition with_chat_sessions (db : DB) (ss : list ChatSession) (seq : Z) : DB :=
  {| users := users db; users_id_seq := users_id_seq db;
     chat_sessions := ss; chat_sessions_id_seq := seq;
     appointments := appointments db;
     appointments_id_seq := appointments_id_seq db;
     chat_messages := chat_messages db |}.

Definition with_appointments (db : DB) (aps : list Appointment) (seq : Z) : DB :=
  {| users := users db; users_id_seq := users_id_seq db;
     chat_sessions := chat_sessions db;
     chat_sessions_id_seq := chat_sessions_id_seq db;
     appointments := aps; appointments_id_seq := seq;
     chat_messages := chat_messages db |}.

Definition with_chat_messages (db : DB) (ms : list ChatMessage) : DB :=
  {| users := users db; users_id_seq := users_id_seq db;
     chat_sessions := chat_sessions db;
     chat_sessions_id_seq := chat_sessions_id_seq db;
     appointments := appointments db;
     appointments_id_seq := appointments_id_seq db;
     chat_messages := ms |}.

(** What a statement, or the handler around it, can raise. *)
Inductive Err : Type :=
| db_unavailable          (* the statement did not reach the datastore *)
| not_null_violation      (* SQLSTATE 23502 *)
| unique_violation        (* SQLSTATE 23505 *)
| foreign_key_violation   (* SQLSTATE 23503 *)
| invalid_datetime        (* SQLSTATE 22007 *)
| string_too_long         (* SQLSTATE 22001 *)
| invalid_text            (* SQLSTATE 22021 and 22P05: a NUL character *)
| type_error              (* a [TypeError] of the engine *)
| fetch_failed            (* [fetch] rejected *)
| bad_status (code : Z)   (* [throw new Error(`Python service returned ...`)] *)
| invalid_json.           (* [response.json()] rejected *)

(** *** Text columns

    The server encoding is UTF-8.  A text parameter that holds the NUL
    character is rejected.  [VARCHAR(n)] counts characters; a longer
    value is rejected unless the excess is all spaces, which are then cut
    off. *)
Definition has_nul (s : string) : bool :=
  existsb (fun c => byte c =? 0) (list_ascii_of_string s).

(** A byte that continues a character of several bytes. *)
Definition is_continuation (c : ascii) : bool :=
  (128 <=? byte c) && (byte c <? 192).

Fixpoint char_length (s : string) : nat :=
  match s with
  | EmptyString => O
  | String c s' =>
      if is_continuation c then char_length s' else S (char_length s')
  end.

(** The first [n] characters and what follows them. *)
Fixpoint split_chars (n : nat) (s : string) : string * string :=
  match s with
  | EmptyString => (EmptyString, EmptyString)
  | String c s' =>
      if is_continuation c
      then let '(a, b) := split_chars n s' in (String c a, b)
      else
        match n with
        | O => (EmptyString, s)
        | S n' => let '(a, b) := split_chars n' s' in (String c a, b)
        end
  end.

Definition all_spaces (s : string) : bool :=
  forallb (fun c => byte c =? 32) (list_ascii_of_string s).

(** What a [VARCHAR(n)] column stores for a text, or why it refuses. *)
Definition varchar (n : nat) (s : string) : Err + string :=
  if has_nul s then inl invalid_text
  else if (char_length s <=? n)%nat then inr s
  else
    let '(kept, excess) := split_chars n s in
    if all_spaces excess then inr kept else inl string_too_long.

(** A text that a [VARCHAR(n)] column stores as it is. *)
Definition fits (n : nat) (s : string) : bool :=
  negb (has_nul s) && (char_length s <=? n)%nat.

(** Whether a [JSONB] column takes a value: no string or key of it holds
    the NUL character. *)
Fixpoint jsonb_ok (v : JsVal) : bool :=
  match v with
  | JStr s => negb (has_nul s)
  | JArr items => forallb jsonb_ok items
  | JObj fs =>
      (fix fields_ok (l : list (string * JsVal)) {struct l} : bool :=
         match l with
         | [] => true
         | (k, x) :: l' => negb (has_nul k) && jsonb_ok x && fields_ok l'
         end) fs
  | _ => true
  end.

End Db.
Import Db.

(* ================================================================== *)
(** ** Requests as programs over the datastore *)
(* ================================================================== *)

Module Run.

(** The answer of [fetch] once the promise resolves: [response.ok],
    [response.status] and what [response.json()] yields ([None] when the
    body is not JSON). *)
Record FetchResponse : Type := mkFetchResponse {
  ok : bool;
  http_status : Z;
  json : option JsVal
}.

(** Everything a handler awaits or reads from outside: the SQL statements
    of [server.js], one constructor each, the call to the Python service
    and the clock. *)
Inductive Eff : Type -> Type :=
| UpsertUser (email name : string) : Eff Z
| SelectSession (token : JsVal) : Eff (list Z)
| InsertSession (user_id : Z) (token : JsVal) : Eff Z
| InsertMessage (user_id : Z) (token : JsVal) (role : string)
    (content meta : JsVal) : Eff unit
| SelectConflict (at_ : JsVal) : Eff nat
| InsertAppointment (user_id : Z) (at_ : JsVal) : Eff Appointment
| FetchSimulate (payload : JsVal) : Eff FetchResponse
| Now : Eff Z.

(** An [async] function body: it returns, throws, or awaits an event and
    goes on with what the event resolved or rejected with. *)
Inductive Prog (A : Type) : Type :=
| Ret (a : A)
| Throw (e : Err)
| Do {X : Type} (ev : Eff X) (k : Err + X -> Prog A).

Arguments Ret {A} a.
Arguments Throw {A} e.
Arguments Do {A X} ev k.

Fixpoint bind {A B : Type} (p : Prog A) (f : A -> Prog B) : Prog B :=
  match p with
  | Ret a => f a
  | Throw e => Throw e
  | Do ev k => Do ev (fun r => bind (k r) f)
  end.

(** [try { p } catch (error) { h error }] *)
Fixpoint try_catch {A : Type} (p : Prog A) (h : Err -> Prog A) : Prog A :=
  match p with
  | Ret a => Ret a
  | Throw e => h e
  | Do ev k => Do ev (fun r => try_catch (k r) h)
  end.

(** [await ev]: a rejection is thrown at the point of the [await]. *)
Definition await {X : Type} (ev : Eff X) : Prog X :=
  Do ev (fun r => match r with inl e => Throw e | inr x => Ret x end).

(** Which events are statements sent through [query]. *)
Definition is_statement {X : Type} (ev : Eff X) : bool :=
  match ev with
  | FetchSimulate _ | Now => false
  | _ => true
  end.

(** Names of the outbound calls, for the log of a run. *)
Inductive Label : Type :=
| upsert_user | select_session | insert_session | insert_message
| select_conflict | insert_appointment | fetch_simulate | read_clock.

Definition label {X : Type} (ev : Eff X) : Label :=
  match ev with
  | UpsertUser _ _ => upsert_user
  | SelectSession _ => select_session
  | InsertSession _ _ => insert_session
  | InsertMessage _ _ _ _ _ => insert_message
  | SelectConflict _ => select_conflict
  | InsertAppointment _ _ => insert_appointment
  | FetchSimulate _ => fetch_simulate
  | Now => read_clock
  end.

Definition Label_eqb (a b : Label) : bool :=
  match a, b with
  | upsert_user, upsert_user | select_session, select_session
  | insert_session, insert_session | insert_message, insert_message
  | select_conflict, select_conflict
  | insert_appointment, insert_appointment
  | fetch_simulate, fetch_simulate | read_clock, read_clock => true
  | _, _ => false
  end.

(** Whether a call touches the [appointments] table. *)
Definition on_appointments (l : Label) : bool :=
  match l with
  | select_conflict | insert_appointment => true
  | _ => false
  end.

(** What one request sees of the world besides the datastore: its clock,
    the clock of the datastore ([NOW()]) and how the Python service
    answers a payload ([None]: the [fetch] promise rejects). *)
Record Env : Type := mkEnv {
  now : Z;
  pg_now : Z;
  py_service : JsVal -> option FetchResponse
}.

Section Exec.
Context `{Platform}.

(** [INSERT INTO users ... ON CONFLICT (email) DO UPDATE SET
    name = EXCLUDED.name RETURNING id].  The default of [id] is taken
    from the sequence before the conflict is seen, so the counter moves
    on either way. *)
Definition upsert_user_row (e n : string) (db : DB) : Z * DB :=
  match find (fun u => String.eqb (email u) e) (users db) with
  | Some u =>
      (user_id u,
       with_users db
         (map (fun u' => if String.eqb (email u') e then set_name n u' else u')
              (users db))
         (users_id_seq db + 1))
  | None =>
      (users_id_seq db,
       with_users db
         (users db ++ [mkUser (users_id_seq db) e "hash_demo" n])
         (users_id_seq db + 1))
  end.

(** [user_id INTEGER REFERENCES users(id)] *)
Definition has_user (uid : Z) (db : DB) : bool :=
  existsb (fun u => user_id u =? uid) (users db).

(** What the [VARCHAR(255)] column [session_token] stores for a
    parameter: [NULL] ([None]) for [null] and [undefined]. *)
Definition session_text (token : JsVal) : Err + option string :=
  match pg_text token with
  | None => inr None
  | Some s =>
      match varchar 255 s with
      | inl e => inl e
      | inr s' => inr (Some s')
      end
  end.

(** [WHERE session_token = $1]: the texts are compared. *)
Definition token_is (s : string) (stored : option string) : bool :=
  match stored with
  | Some s' => String.eqb s' s
  | None => false
  end.

(** A text with the NUL character is refused when the parameter is bound,
    before the statement runs.  A text too long for its column is refused
    when the row is built, its [id] already taken from the sequence. *)
Definition id_taken (err : Err) : bool :=
  match err with
  | string_too_long => true
  | _ => false
  end.

(** The answer of the datastore, or of the service, to one event, and the
    datastore afterwards.  [role] is one of the literals ['user'] and
    ['assistant'] of the handlers.  A row refused by a key (the partial
    unique index [uniq_confirmed_appointments], a reference to [users])
    has taken its [id] from the sequence by then; the sequence of
    [chat_messages.id], which nothing reads, is left out. *)
Definition exec {X : Type} (ev : Eff X) (env : Env) (db : DB)
  : (Err + X) * DB :=
  match ev in Eff X return (Err + X) * DB with
  | UpsertUser e n =>
      if has_nul e || has_nul n then (inl invalid_text, db)
      else
        match varchar 255 e, varchar 255 n with
        | inr e', inr n' =>
            (inr (fst (upsert_user_row e' n' db)),
             snd (upsert_user_row e' n' db))
        | inl err, _ | _, inl err =>
            (inl err, with_users db (users db) (users_id_seq db + 1))
        end
  | SelectSession token =>
      match pg_text token with
      | None => (inr [], db)
      | Some s =>
          if has_nul s then (inl invalid_text, db)
          else
            (inr (map session_id
                    (filter (fun r => token_is s (session_token r))
                            (chat_sessions db))), db)
      end
  | InsertSession uid token =>
      match session_text token with
      | inl err =>
          (inl err,
           if id_taken err
           then with_chat_sessions db (chat_sessions db)
                  (chat_sessions_id_seq db + 1)
           else db)
      | inr tok =>
          if has_user uid db then
            (inr (chat_sessions_id_seq db),
             with_chat_sessions db
               (chat_sessions db
                ++ [mkChatSession (chat_sessions_id_seq db) uid tok])
               (chat_sessions_id_seq db + 1))
          else
            (inl foreign_key_violation,
             with_chat_sessions db (chat_sessions db)
               (chat_sessions_id_seq db + 1))
      end
  | InsertMessage uid token r c m =>
      match session_text token with
      | inl err => (inl err, db)
      | inr None => (inl not_null_violation, db)
      | inr (Some tok) =>
          match pg_text c with
          | None => (inl not_null_violation, db)
          | Some text =>
              if has_nul text || negb (jsonb_ok m)
              then (inl invalid_text, db)
              else if has_user uid db then
                (inr tt,
                 with_chat_messages db
                   (chat_messages db ++ [mkChatMessage uid tok r c m]))
              else (inl foreign_key_violation, db)
          end
      end
  | SelectConflict at_ =>
      match pg_timestamp at_ with
      | None => (inl invalid_datetime, db)
      | Some t =>
          (inr (List.length (firstn 1 (filter (confirmed_at t) (appointments db)))),
           db)
      end
  | InsertAppointment uid at_ =>
      match pg_timestamp at_ with
      | None => (inl invalid_datetime, db)
      | Some t =>
          if existsb (confirmed_at t) (appointments db)
          then (inl unique_violation,
                with_appointments db (appointments db)
                  (appointments_id_seq db + 1))
          else if has_user uid db then
            let a := mkAppointment (appointments_id_seq db) uid t confirmed
                       "general_checkup" 60 "Booked via AI chatbot"
                       (pg_now env) in
            (inr a,
             with_appointments db (appointments db ++ [a])
               (appointments_id_seq db + 1))
          else
            (inl foreign_key_violation,
             with_appointments db (appointments db)
               (appointments_id_seq db + 1))
      end
  | FetchSimulate payload =>
      match py_service env payload with
      | None => (inl fetch_failed, db)
      | Some r => (inr r, db)
      end
  | Now => (inr (now env), db)
  end.

(** One event of a request.  A statement first takes the next flag of
    [faults]: [true] means the statement is lost (connection down, pool
    exhausted, ...) and [query] rejects without touching the tables. *)
Definition exec_faulty {X : Type} (ev : Eff X) (env : Env)
    (faults : list bool) (db : DB) : (Err + X) * DB * list bool :=
  if is_statement ev then
    match faults with
    | true :: faults' => (inl db_unavailable, db, faults')
    | false :: faults' => (exec ev env db, faults')
    | [] => (exec ev env db, [])
    end
  else (exec ev env db, faults).

Definition failed {X : Type} (r : Err + X) : bool :=
  match r with inl _ => true | inr _ => false end.

(** A request run to its end on its own: the outcome, the datastore it
    leaves, and the log of its outbound calls, each with whether it
    failed. *)
Fixpoint run {A : Type} (p : Prog A) (env : Env) (faults : list bool)
    (db : DB) : (Err + A) * DB * list (Label * bool) :=
  match p with
  | Ret a => (inr a, db, [])
  | Throw e => (inl e, db, [])
  | Do ev k =>
      let '(r, db', faults') := exec_faulty ev env faults db in
      let '(out, db'', log) := run (k r) env faults' db' in
      (out, db'', (label ev, failed r) :: log)
  end.

End Exec.

End Run.
Import Run.

Declare Scope prog_scope.
Delimit Scope prog_scope with prog.
Notation "x <- p ;; q" := (bind p (fun x => q))
  (at level 61, p at next level, right associativity) : prog_scope.
Notation "p ;; q" := (bind p (fun _ => q))
  (at level 61, right associativity) : prog_scope.

(* ================================================================== *)
(** ** The backend: [server.js] *)
(* ================================================================== *)

Module Server.

(** A request once [legacyAuth] has let it through: the [sub] claim of the
    verified token ([req.user?.sub], in its string form) and the parsed
    JSON body ([JUndefined] when there is none). *)
Record Request : Type := mkRequest {
  user_sub : option string;
  body : JsVal
}.

Record Response : Type := mkResponse {
  res_status : Z;
  res_body : JsVal
}.

(** [res.json(b)] and [res.status(c).json(b)] *)
Definition res_json (b : JsVal) : Response := mkResponse 200 b.
Definition res_status_json (c : Z) (b : JsVal) : Response := mkResponse c b.

(** [req.user?.sub || 'user_1'] *)
Definition sub_or_default (req : Request) : string :=
  match user_sub req with
  | Some s => if String.eqb s "" then "user_1" else s
  | None => "user_1"
  end.

(** [message.trim()], reached only behind [typeof message === 'string']. *)
Definition trim_of (v : JsVal) : string :=
  match v with JStr s => trim s | _ => "" end.

Definition is_string (v : JsVal) : bool :=
  match v with JStr _ => true | _ => false end.

Section Handlers.
Context `{Platform}.
Local Open Scope prog_scope.

Definition upsertUser (sub : string) : Prog Z :=
  let email := sub ++ "@demo.local" in
  let name := "Demo User" in
  try_catch
    (id <- await (UpsertUser email name) ;; Ret id)
    (fun error => Throw error).

Definition ensureSession (userId : Z) (sessionToken : JsVal) : Prog JsVal :=
  if negb (truthy sessionToken) then Ret JNull
  else
    try_catch
      (found <- await (SelectSession sessionToken) ;;
       match found with
       | id :: _ => Ret (JNum id)
       | [] =>
           ins <- await (InsertSession userId sessionToken) ;;
           Ret (JNum ins)
       end)
      (fun error => Throw error).

(** "Don't throw - message logging shouldn't break the main flow" *)
Definition logMessage (userId : Z) (sessionToken : JsVal) (role : string)
    (content meta : JsVal) : Prog unit :=
  try_catch
    (await (InsertMessage userId sessionToken role content meta))
    (fun _ => Ret tt).

(** [app.post('/api/chatbot/message', legacyAuth, ...)] *)
Definition message_handler (req : Request) : Prog Response :=
  try_catch
    (let body := Js.or (body req) (JObj []) in
     let message := prop body "message" in
     let session_id := prop body "session_id" in
     if negb (truthy message) || negb (is_string message)
        || negb (truthy (JStr (trim_of message)))
     then
       Ret (res_status_json 400 (JObj
         [("error", JStr "Message is required and must be a non-empty string")]))
     else
       userId <- upsertUser (sub_or_default req) ;;
       _ <- ensureSession userId session_id ;;
       logMessage userId session_id "user" (JStr (trim_of message)) (JObj []) ;;
       pythonResponse <- await (FetchSimulate (JObj
         [("message", JStr (trim_of message));
          ("user_id", JStr (sub_or_default req));
          ("session_id", session_id)])) ;;
       if negb (ok pythonResponse)
       then Throw (bad_status (http_status pythonResponse))
       else
         match json pythonResponse with
         | None => Throw invalid_json
         | Some data =>
             let assistantReply :=
               Js.or (Js.or (prop data "reply") (prop (prop data "data") "reply"))
                     (JStr "I apologize, I could not process that request.") in
             let appointmentCandidate :=
               Js.or (prop data "appointment_candidate")
                     (prop (prop data "data") "appointment_candidate") in
             let intent :=
               Js.or (Js.or (prop data "intent") (prop (prop data "data") "intent"))
                     (JStr "chat") in
             let needsConfirmation :=
               nullish (nullish (prop data "needs_confirmation")
                                (prop (prop data "data") "needs_confirmation"))
                       (JBool false) in
             logMessage userId session_id "assistant" assistantReply
               (if truthy appointmentCandidate
                then JObj [("appointment_candidate", appointmentCandidate);
                           ("intent", intent);
                           ("needs_confirmation", needsConfirmation)]
                else JObj [("intent", intent)]) ;;
             Ret (res_json (JObj [("ok", JBool true); ("data", data)]))
         end)
    (fun _ =>
       Ret (res_status_json 500 (JObj
         [("error", JStr "Failed to process message");
          ("message", JStr "Unable to reach AI service. Please try again later.")]))).

(** The row [RETURNING id, scheduled_at, status, created_at] hands back, as
    it goes out in the response. *)
Definition appointment_json (a : Appointment) : list (string * JsVal) :=
  [("id", JNum (appointment_id a));
   ("scheduled_at", pg_timestamp_json (scheduled_at a));
   ("status", JStr (Status_name (status a)));
   ("created_at", pg_timestamp_json (created_at a))].

Definition bad_request (msg : string) : Response :=
  res_status_json 400 (JObj
    [("ok", JBool false); ("error", JStr "bad_request"); ("message", JStr msg)]).

Definition conflict_response : Response :=
  res_status_json 409 (JObj
    [("ok", JBool false); ("error", JStr "conflict");
     ("message",
      JStr "That time slot is already booked. Please select a different time.")]).

Definition server_error_response : Response :=
  res_status_json 500 (JObj
    [("ok", JBool false); ("error", JStr "server_error");
     ("message", JStr "Failed to process appointment confirmation")]).

Definition declined_response : Response :=
  res_json (JObj [("ok", JBool true); ("status", JStr "declined")]).

Definition declined_content : JsVal :=
  JStr "Appointment declined. Please let me know when you'd like to schedule instead.".

(** [app.post('/api/chatbot/confirm', legacyAuth, ...)] *)
Definition confirm_handler (req : Request) : Prog Response :=
  try_catch
    (let body := Js.or (body req) (JObj []) in
     let session_id := prop body "session_id" in
     let scheduled_at := prop body "scheduled_at" in
     let confirm := prop body "confirm" in
     if negb (truthy session_id) || negb (truthy scheduled_at)
     then Ret (bad_request "Both session_id and scheduled_at are required")
     else if Date_throws scheduled_at then Throw type_error
     else
       match Date_of scheduled_at with
       | None =>
           Ret (bad_request "scheduled_at must be a valid ISO8601 datetime string")
       | Some appointmentTime =>
           current <- await Now ;;
           if appointmentTime <=? current
           then Ret (bad_request "Appointment time must be in the future")
           else
             userId <- upsertUser (sub_or_default req) ;;
             _ <- ensureSession userId session_id ;;
             if negb (truthy confirm)
             then
               logMessage userId session_id "assistant" declined_content
                 (JObj [("action", JStr "declined");
                        ("proposed_time", scheduled_at)]) ;;
               Ret declined_response
             else
               conflictCheck <- await (SelectConflict scheduled_at) ;;
               if (0 <? conflictCheck)%nat
               then Ret conflict_response
               else
                 appointment <- await (InsertAppointment userId scheduled_at) ;;
                 logMessage userId session_id "assistant"
                   (JStr ("✅ Appointment confirmed for "
                          ++ Date_toLocaleString appointmentTime ++ "."))
                   (JObj [("appointment_id", JNum (appointment_id appointment));
                          ("status", JStr "confirmed");
                          ("action", JStr "confirmed")]) ;;
                 Ret (res_json (JObj
                   [("ok", JBool true);
                    ("status", JStr "confirmed");
                    ("appointment",
                     JObj (appointment_json appointment
                           ++ [("formatted_time",
                                JStr (Date_toLocaleString appointmentTime))]))]))
       end)
    (fun _ => Ret server_error_response).

End Handlers.

End Server.
Import Server.

(* ================================================================== *)
(** ** Requests in flight together *)
(* ================================================================== *)

Module Pool.

(** A request being served: what it sees of the world, which of its
    statements will be lost, and what is left of its handler. *)
Record Thread : Type := mkThread {
  th_env : Env;
  th_faults : list bool;
  th_prog : Prog Response
}.

Section Steps.
Context `{Platform}.

(** The event loop resumes one request: it performs the event the request
    awaits, as one indivisible step on the datastore, and runs the request
    up to its next [await].  A request that has answered stays as it is. *)
Definition step_thread (th : Thread) (db : DB) : Thread * DB :=
  match th_prog th with
  | Do ev k =>
      let '(r, db', faults') := exec_faulty ev (th_env th) (th_faults th) db in
      (mkThread (th_env th) faults' (k r), db')
  | _ => (th, db)
  end.

Fixpoint step_at (i : nat) (pool : list Thread) (db : DB)
  : list Thread * DB :=
  match pool, i with
  | [], _ => ([], db)
  | th :: rest, O =>
      let '(th', db') := step_thread th db in (th' :: rest, db')
  | th :: rest, S i' =>
      let '(rest', db') := step_at i' rest db in (th :: rest', db')
  end.

(** A schedule names, step after step, the request that moves. *)
Fixpoint interleave (schedule : list nat) (pool : list Thread) (db : DB)
  : list Thread * DB :=
  match schedule with
  | [] => (pool, db)
  | i :: schedule' =>
      let '(pool', db') := step_at i pool db in
      interleave schedule' pool' db'
  end.

(** The response of a request that has answered. *)
Definition answer (th : Thread) : option Response :=
  match th_prog th with
  | Ret r => Some r
  | _ => None
  end.

(** States of the running service: it starts on the schema with no
    request in flight; a message or a confirm/decline request may arrive at
    any time, with any content, clock, service behaviour and lost
    statements; and any request in flight may take its next step. *)
Inductive reachable : list Thread * DB -> Prop :=
| reach_start : reachable ([], schema_db)
| reach_message pool db env faults req :
    reachable (pool, db) ->
    reachable ((pool ++ [mkThread env faults (message_handler req)])%list, db)
| reach_confirm pool db env faults req :
    reachable (pool, db) ->
    reachable ((pool ++ [mkThread env faults (confirm_handler req)])%list, db)
| reach_step pool db i :
    reachable (pool, db) ->
    reachable (step_at i pool db).

End Steps.

End Pool.
Import Pool.

(** The confirmed appointments have pairwise distinct [scheduled_at]. *)
Definition is_confirmed (a : Appointment) : bool :=
  Status_eqb (status a) confirmed.

Definition confirmed_times (db : DB) : list Z :=
  map scheduled_at (filter is_confirmed (appointments db)).

Definition confirmed_distinct (db : DB) : Prop := NoDup (confirmed_times db).

(** The [TEXT] column [content] hands back the text of what it was given:
    the value itself when that is a string, as are the literals of the
    handlers, the trimmed message and a reply of the service that keeps
    to its contract.  A datastore that has only been given strings to
    keep as [content]: *)
Definition text_contents (db : DB) : Prop :=
  Forall (fun m => Server.is_string (content m) = true) (chat_messages db).

(** The transcript of a session, in insertion order: what
    [GET /api/chat_sessions/:session_id/messages] selects. *)
Definition transcript (db : DB) (uid : Z) (token : string) : list ChatMessage :=
  filter (fun m => (message_user_id m =? uid)
                   && String.eqb (message_session_token m) token)
         (chat_messages db).

(* ================================================================== *)
(** ** The client: [App.jsx] *)
(* ================================================================== *)

Module Client.

(** An entry of the [messages] state, [{role, content, meta}].  The
    [created_at] stamp, read from the client clock and only displayed, is
    left out. *)
Record Message : Type := mkMessage {
  msg_role : string;
  msg_content : JsVal;
  msg_meta : JsVal
}.

(** Arrays live in a store and are handled by reference, so that an
    in-place update is seen by every holder of the reference. *)
Definition Heap : Type := list (list Message).

Definition read (r : nat) (h : Heap) : list Message := nth r h [].

Fixpoint write (r : nat) (a : list Message) (h : Heap) : Heap :=
  match h, r with
  | [], _ => []
  | _ :: h', O => a :: h'
  | x :: h', S r' => x :: write r' a h'
  end.

Definition alloc (a : list Message) (h : Heap) : nat * Heap :=
  (List.length h, (h ++ [a])%list).

(** [[...a]]: a fresh array with the elements of [a]. *)
Definition spread (r : nat) (h : Heap) : nat * Heap := alloc (read r h) h.

(** [a.reverse()]: reverses [a] in place and returns [a] itself. *)
Definition reverse (r : nat) (h : Heap) : nat * Heap :=
  (r, write r (rev (read r h)) h).

(** [a.find(p)]: the first element that satisfies [p]. *)
Definition find (p : Message -> bool) (r : nat) (h : Heap) : option Message :=
  List.find p (read r h).

(** [message.role === "assistant" && message.meta?.appointment_candidate] *)
Definition is_proposal (message : Message) : bool :=
  String.eqb (msg_role message) "assistant"
  && truthy (prop (msg_meta message) "appointment_candidate").

(** [[...messages].reverse().find(...)], the scan shared by
    [confirmAppointment] and [declineAppointment]. *)
Definition latestProposal (messages : nat) (h : Heap)
  : option Message * Heap :=
  let '(copy, h1) := spread messages h in
  let '(reversed, h2) := reverse copy h1 in
  (find is_proposal reversed h2, h2).

(** The component state the negotiation reads: the token, the session id
    and the [messages] array. *)
Record State : Type := mkState {
  heap : Heap;
  messages : nat;
  token : string;
  sessionId : string
}.

Definition current (st : State) : list Message := read (messages st) (heap st).

(** [setMessages((previousMessages) => [...previousMessages, m])] *)
Definition append_message (m : Message) (st : State) : State :=
  let '(r, h) := alloc (current st ++ [m])%list (heap st) in
  mkState h r (token st) (sessionId st).

(** What [fetch] and [response.json()] come to: a rejection, or a status
    with the parsed body. *)
Inductive Reply : Type :=
| rejected
| resolved (status : Z) (data : JsVal).

(** [response.ok] *)
Definition reply_ok (status : Z) : bool := (200 <=? status) && (status <=? 299).

Definition confirm_body (st : State) (scheduledTime : JsVal) (confirm : bool)
  : JsVal :=
  JObj [("session_id", JStr (sessionId st));
        ("scheduled_at", scheduledTime);
        ("confirm", JBool confirm)].

Section Actions.
Context `{Platform}.

(** The message the [catch] of [confirmAppointment] shows. *)
Definition confirm_network_error : Message :=
  mkMessage "assistant"
    (JStr "Network error occurred while confirming your appointment. Please try again.")
    (JObj [("error", JBool true); ("type", JStr "network")]).

(** The message [confirmAppointment] builds in its [try] for an answer
    of the backend, or, where building it throws (the body is [null], or
    [new Date] of the candidate throws), the message of its [catch]. *)
Definition confirmation_shown (scheduledTime : JsVal) (r : Reply) : Message :=
  match r with
  | resolved status responseData =>
      if status =? 409 then
        match get responseData "message" with
        | Some message =>
            mkMessage "assistant"
              (Js.or message
                 (JStr "That time slot is already booked. Please select a different time."))
              (JObj [("error", JBool true); ("type", JStr "conflict")])
        | None => confirm_network_error
        end
      else if negb (reply_ok status) then
        mkMessage "assistant"
          (JStr "Sorry, I couldn't confirm your appointment. Please try again.")
          (JObj [("error", JBool true)])
      else
        match get responseData "appointment" with
        | Some appointmentInfo =>
            if Date_throws scheduledTime then confirm_network_error
            else
              mkMessage "assistant"
                (JStr ("✅ Your appointment has been confirmed for "
                       ++ match Date_of scheduledTime with
                          | Some t => Date_toLocaleString t
                          | None => "Invalid Date"
                          end ++ "."))
                (JObj [("confirmed", JBool true);
                       ("appointment", appointmentInfo)])
        | None => confirm_network_error
        end
  | rejected => confirm_network_error
  end.

(** The message [declineAppointment] shows for an answer of the backend;
    the body is not read. *)
Definition decline_shown (r : Reply) : Message :=
  match r with
  | resolved status _ =>
      if negb (reply_ok status) then
        mkMessage "assistant"
          (JStr "Sorry, I couldn't process your response. Please try again.")
          (JObj [("error", JBool true)])
      else
        mkMessage "assistant"
          (JStr "No problem! When would be a better time for your appointment?")
          (JObj [("declined", JBool true)])
  | rejected =>
      mkMessage "assistant"
        (JStr "Network error occurred. Please try again.")
        (JObj [("error", JBool true); ("type", JStr "network")])
  end.

(** How the backend answers a body POSTed to [/api/chatbot/confirm]. *)
Variable backend : JsVal -> Reply.

Definition confirmAppointment (st : State) : State :=
  if String.eqb (token st) "" then st
  else
    let '(latestProposal, h) := latestProposal (messages st) (heap st) in
    let st := mkState h (messages st) (token st) (sessionId st) in
    match latestProposal with
    | None => st
    | Some latestProposal =>
        let scheduledTime := prop (msg_meta latestProposal) "appointment_candidate" in
        append_message
          (confirmation_shown scheduledTime
             (backend (confirm_body st scheduledTime true))) st
    end.

Definition declineAppointment (st : State) : State :=
  if String.eqb (token st) "" then st
  else
    let '(latestProposal, h) := latestProposal (messages st) (heap st) in
    let st := mkState h (messages st) (token st) (sessionId st) in
    match latestProposal with
    | None => st
    | Some latestProposal =>
        let scheduledTime := prop (msg_meta latestProposal) "appointment_candidate" in
        append_message
          (decline_shown (backend (confirm_body st scheduledTime false))) st
    end.

End Actions.

(** [messages[messages.length - 1]] *)
Definition lastMessage (ms : list Message) : option Message :=
  match rev ms with
  | [] => None
  | m :: _ => Some m
  end.

(** Whether the confirm / decline bar is on screen: the last message is an
    assistant message that needs confirmation and carries a candidate. *)
Definition showConfirmationBar (ms : list Message) : bool :=
  match lastMessage ms with
  | None => false
  | Some m =>
      String.eqb (msg_role m) "assistant"
      && truthy (prop (msg_meta m) "needs_confirmation")
      && truthy (prop (msg_meta m) "appointment_candidate")
  end.

(** The Confirm and the Decline button are rendered only under the bar
    ([{showConfirmationBar && (...)}]), with the handlers of that render:
    a click runs the handler on the very array the bar was computed
    from. *)
Definition click_confirm `{Platform} (backend : JsVal -> Reply) (st : State)
  : State :=
  if showConfirmationBar (current st) then confirmAppointment backend st
  else st.

Definition click_decline `{Platform} (backend : JsVal -> Reply) (st : State)
  : State :=
  if showConfirmationBar (current st) then declineAppointment backend st
  else st.

(** [loadConversationHistory]: a stored row as the client keeps it,
    [meta: message.meta || null]. *)
Definition format_message (m : ChatMessage) : Message :=
  mkMessage (Db.role m) (Db.content m) (Js.or (Db.meta m) JNull).



End Client.

(* ================================================================== *)
(** ** The extractor behind [/simulate] *)
(* ================================================================== *)

Module Extractor.

Inductive Intent : Type := chat | propose | confirm | decline.

Definition Intent_name (i : Intent) : string :=
  match i with
  | chat => "chat" | propose => "propose"
  | confirm => "confirm" | decline => "decline"
  end.

(** Modelled from the spec: the [ExtractionResult] value object of the
    Python service, whose sources are not part of the repository files at
    hand.  The confidence is carried in hundredths. *)
Record ExtractionResult : Type := mkExtractionResult {
  reply : string;
  intent : Intent;
  candidate : option string;
  needs_confirmation : bool;
  confidence : Z
}.

(** Modelled from the spec: what the generative backend does with one
    call, an [ExtractionResult] or one of the failures the specification
    lists (timeout, malformed output, quota or other error). *)
Inductive Backend : Type :=
| answered (r : ExtractionResult)
| timed_out
| malformed_output
| backend_error.

Definition backend_failed (b : Backend) : bool :=
  match b with answered _ => false | _ => true end.

(** Modelled from the spec: the tag by which a result tells its mode. *)
Inductive Mode : Type := generative | fallback.

Definition Mode_name (m : Mode) : string :=
  match m with generative => "generative" | fallback => "fallback" end.

Section Extract.

(** The deterministic strategy, a total function of the message: "never
    throws for malformed natural language; always returns a best-effort
    result". *)
Variable deterministic : string -> ExtractionResult.

(** Modelled from the spec: [extract] of the Python service with its two
    strategies, selected per call; on a failure of the generative backend
    the call falls back to the deterministic strategy and tags the
    result. *)
Definition extract (use_generative : bool) (backend : Backend)
    (message : string) : ExtractionResult * Mode :=
  if use_generative then
    match backend with
    | answered r => (r, generative)
    | _ => (deterministic message, fallback)
    end
  else (deterministic message, fallback).

Definition to_json (r : ExtractionResult * Mode) : JsVal :=
  JObj [("reply", JStr (reply (fst r)));
        ("intent", JStr (Intent_name (intent (fst r))));
        ("appointment_candidate",
         match candidate (fst r) with Some c => JStr c | None => JNull end);
        ("needs_confirmation", JBool (needs_confirmation (fst r)));
        ("confidence", JNum (confidence (fst r)));
        ("mode", JStr (Mode_name (snd r)))].

(** Modelled from the spec: the Python service as the backend reaches it,
    [POST /simulate] answering 200 with the [ExtractionResult] of the
    message it was sent. *)
Definition simulate (use_generative : bool) (backend : Backend)
    (payload : JsVal) : option FetchResponse :=
  Some (mkFetchResponse true 200
          (Some (to_json (extract use_generative backend
                            (trim_of (prop payload "message")))))).

End Extract.

End Extractor.

(* ================================================================== *)
(** ** A concrete platform *)
(* ================================================================== *)

Module Sample.

Definition digit (c : ascii) : option Z :=
  let n := Z.of_nat (nat_of_ascii c) in
  if (48 <=? n) && (n <=? 57) then Some (n - 48) else None.

Definition digits2 (a b : ascii) : option Z :=
  match digit a, digit b with
  | Some x, Some y => Some (10 * x + y)
  | _, _ => None
  end.

Definition digits4 (a b c d : ascii) : option Z :=
  match digits2 a b, digits2 c d with
  | Some x, Some y => Some (100 * x + y)
  | _, _ => None
  end.

Definition leap (y : Z) : bool :=
  ((y mod 4 =? 0) && negb (y mod 100 =? 0)) || (y mod 400 =? 0).

Definition days_in_month (y m : Z) : Z :=
  if m =? 2 then (if leap y then 29 else 28)
  else if (m =? 4) || (m =? 6) || (m =? 9) || (m =? 11) then 30
  else 31.

(** Days from 1970-01-01 to a day of the proleptic Gregorian calendar. *)
Definition days_from_civil (y m d : Z) : Z :=
  let y' := if m <=? 2 then y - 1 else y in
  let era := y' / 400 in
  let yoe := y' - era * 400 in
  let doy := (153 * (if 2 <? m then m - 3 else m + 9) + 2) / 5 + d - 1 in
  let doe := yoe * 365 + yoe / 4 - yoe / 100 + doy in
  era * 146097 + doe - 719468.

(** The time value of [YYYY-MM-DDTHH:mm:ssZ], the one form of the
    ECMAScript date-time format read here; every other string is [NaN]. *)
Definition parse_utc (s : string) : option Z :=
  match list_ascii_of_string s with
  | [y1; y2; y3; y4; "-"; m1; m2; "-"; d1; d2; "T";
     h1; h2; ":"; n1; n2; ":"; s1; s2; "Z"]%char =>
      match digits4 y1 y2 y3 y4, digits2 m1 m2, digits2 d1 d2,
            digits2 h1 h2, digits2 n1 n2, digits2 s1 s2 with
      | Some y, Some m, Some d, Some hh, Some mm, Some ss =>
          if (1 <=? m) && (m <=? 12) && (1 <=? d) && (d <=? days_in_month y m)
             && (hh <=? 23) && (mm <=? 59) && (ss <=? 59)
          then Some (((days_from_civil y m d * 24 + hh) * 60 + mm) * 60000
                     + ss * 1000)
          else None
      | _, _, _, _, _, _ => None
      end
  | _ => None
  end.

Definition decimal (n : Z) : string := NilZero.string_of_int (Z.to_int n).

(** An engine that reads the UTC form only and writes numbers in decimal,
    a fixed-locale rendering, a driver that writes every object as
    [{}], and a datastore that takes the same strings (and no bare
    number) for a [TIMESTAMP] and hands a timestamp back as a string
    of its digits. *)
#[local] Instance platform : Platform := {|
  Date_parse := parse_utc;
  Date_toLocaleString := fun t => "@" ++ decimal t;
  Number_toString := decimal;
  pg_prepare_object := fun _ => "{}";
  pg_timestamp := fun v =>
    match v with JStr s => parse_utc s | _ => None end;
  pg_timestamp_json := fun t => JStr ("#" ++ decimal t)
|}.

(** Noon of 6 October 2025, UTC. *)
Definition noon : Z := 1759752000000.

(** A Python service that answers every message with the same proposal. *)
Definition proposal (at_ : string) : JsVal :=
  JObj [("reply", JStr "I can book you for that time. Shall I confirm?");
        ("intent", JStr "propose");
        ("appointment_candidate", JStr at_);
        ("needs_confirmation", JBool true);
        ("confidence", JNum 1)].

Definition proposing (at_ : string) : Env :=
  mkEnv noon noon
    (fun _ => Some (mkFetchResponse true 200 (Some (proposal at_)))).

(** A Python service that cannot be reached. *)
Definition unreachable : Env := mkEnv noon noon (fun _ => None).

Definition confirm_request (sub token at_ : string) (yes : bool) : Request :=
  mkRequest (Some sub)
    (JObj [("session_id", JStr token);
           ("scheduled_at", JStr at_);
           ("confirm", JBool yes)]).

Definition message_request (sub token text : string) : Request :=
  mkRequest (Some sub)
    (JObj [("message", JStr text); ("session_id", JStr token)]).

(** The slot every scenario below negotiates: 7 October 2025, 10:00 UTC,
    the day after [noon]. *)
Definition slot : string := "2025-10-07T10:00:00Z".

(** Two sessions confirm the same slot. *)
Definition race_pool : list Thread :=
  [ mkThread unreachable [] (confirm_handler (confirm_request "user_1" "s1" slot true));
    mkThread unreachable [] (confirm_handler (confirm_request "user_2" "s2" slot true)) ].

(** Both requests get past their conflict check (clock, user, session
    lookup, session insert, conflict check) before either inserts. *)
Definition race_schedule : list nat :=
  [0; 0; 0; 0; 0; 1; 1; 1; 1; 1; 0; 0; 1; 1]%nat.

(** The first request runs to its end before the second starts. *)
Definition serial_schedule : list nat :=
  [0; 0; 0; 0; 0; 0; 0; 1; 1; 1; 1; 1]%nat.

(** A confirmation whose [scheduled_at] is the JSON number 4102444800000
    (the first millisecond of the year 2100 as a time value), not a
    string. *)
Definition numeric_request : Request :=
  mkRequest (Some "user_1")
    (JObj [("session_id", JStr "s1");
           ("scheduled_at", JNum 4102444800000);
           ("confirm", JBool true)]).

(** A session that is offered the slot, and the same once it has
    declined it. *)
Definition db_proposed : DB :=
  snd (fst (run (message_handler
                   (message_request "user_1" "s1"
                      "I need a cleaning on Tuesday at 10am"))
              (proposing slot) [] schema_db)).

Definition db_declined : DB :=
  snd (fst (run (confirm_handler (confirm_request "user_1" "s1" slot false))
              unreachable [] db_proposed)).

(** The [messages] array after [loadConversationHistory]; the demo user
    has id 3. *)
Definition reloaded (db : DB) : list Client.Message :=
  map Client.format_message (transcript db 3 "s1").

(** A client that holds a token and has just been offered the slot. *)
Definition offered : Client.State :=
  Client.mkState [reloaded db_proposed] 0 "token" "s1".

(** The datastore once the slot is taken. *)
Definition db_taken : DB :=
  snd (fst (run (confirm_handler (confirm_request "user_1" "s1" slot true))
              unreachable [] schema_db)).

(** A message the handler accepts. *)
Definition greeting : Request :=
  message_request "user_1" "s1" "  I need a cleaning on Tuesday at 10am ".

(** A deterministic strategy that recognises nothing. *)
Definition small_talk (_ : string) : Extractor.ExtractionResult :=
  Extractor.mkExtractionResult "How can I help you with your appointment?"
    Extractor.chat None false 50.

End Sample.

(* ================================================================== *)
(** ** Reading a request and a run *)
(* ================================================================== *)

(** A field of the request body, as the handlers destructure it from
    [req.body || {}]. *)
Definition field (req : Request) (k : string) : JsVal :=
  prop (Js.or (body req) (JObj [])) k.

(** Whether a log holds a call of a given name, and whether it holds a
    failed one. *)
Definition calls (l : Label) (log : list (Label * bool)) : bool :=
  existsb (fun e => Label_eqb (fst e) l) log.

Definition failed_call (l : Label) (log : list (Label * bool)) : bool :=
  existsb (fun e => Label_eqb (fst e) l && snd e) log.

(** A failed call other than an append to [chat_messages]. *)
Definition failed_outside_logging (log : list (Label * bool)) : bool :=
  existsb (fun e => negb (Label_eqb (fst e) insert_message) && snd e) log.

(** The status of the response a run ends with; 0 when the handler let an
    exception escape. *)
Definition status_of (out : Err + Response) : Z :=
  match out with
  | inr res => res_status res
  | inl _ => 0
  end.

Definition no_fault (faults : list bool) : Prop := forallb negb faults = true.

(** The [session_token] of the rows a request stores: the text of its
    [session_id] as the column keeps it (the empty text where the column
    takes none, and no row is stored). *)
Definition token_of `{Platform} (req : Request) : string :=
  match session_text (field req "session_id") with
  | inr (Some tok) => tok
  | _ => ""
  end.

(** The [email] of the demo user a request runs as. *)
Definition email_of (req : Request) : string :=
  sub_or_default req ++ "@demo.local".

(** The texts a request brings to the [VARCHAR(255)] columns, its
    [session_id] and the [email] of its user, are stored as they are. *)
Definition ids_fit `{Platform} (req : Request) : bool :=
  fits 255 (email_of req)
  && match pg_text (field req "session_id") with
     | Some s => fits 255 s
     | None => false
     end.

(** A value that the [TEXT] column [content] takes, and one that the
    [JSONB] column [meta] takes. *)
Definition content_ok `{Platform} (v : JsVal) : bool :=
  match pg_text v with
  | Some s => negb (has_nul s)
  | None => false
  end.

(** A mark on a hypothesis that has been used. *)
Definition noted (P : Prop) : Prop := P.

(** The assistant turn a decline records. *)
Definition declined_turn `{Platform} (req : Request) (uid : Z)
  : ChatMessage :=
  mkChatMessage uid (token_of req) "assistant" declined_content
    (JObj [("action", JStr "declined");
           ("proposed_time", field req "scheduled_at")]).

(** What the message handler sends to [/simulate]. *)
Definition simulate_payload (req : Request) : JsVal :=
  JObj [("message", JStr (trim_of (field req "message")));
        ("user_id", JStr (sub_or_default req));
        ("session_id", field req "session_id")].

(** The two turns of a processed message. *)
Definition user_turn `{Platform} (req : Request) (uid : Z) : ChatMessage :=
  mkChatMessage uid (token_of req) "user"
    (JStr (trim_of (field req "message"))) (JObj []).

(** What the handler stores of an answer of the service: the reply, and
    the [meta] with the candidate when there is one. *)
Definition assistant_reply (data : JsVal) : JsVal :=
  Js.or (Js.or (prop data "reply") (prop (prop data "data") "reply"))
        (JStr "I apologize, I could not process that request.").

Definition assistant_meta (data : JsVal) : JsVal :=
  if truthy (Js.or (prop data "appointment_candidate")
                   (prop (prop data "data") "appointment_candidate"))
  then JObj [("appointment_candidate",
              Js.or (prop data "appointment_candidate")
                    (prop (prop data "data") "appointment_candidate"));
             ("intent",
              Js.or (Js.or (prop data "intent")
                           (prop (prop data "data") "intent"))
                    (JStr "chat"));
             ("needs_confirmation",
              nullish (nullish (prop data "needs_confirmation")
                               (prop (prop data "data") "needs_confirmation"))
                      (JBool false))]
  else JObj [("intent",
              Js.or (Js.or (prop data "intent")
                           (prop (prop data "data") "intent"))
                    (JStr "chat"))].

Definition assistant_turn `{Platform} (req : Request) (uid : Z) (data : JsVal)
  : ChatMessage :=
  mkChatMessage uid (token_of req) "assistant"
    (assistant_reply data) (assistant_meta data).

(** The message passes the guard of the handler: a string that is not
    blank. *)
Definition message_accepted (req : Request) : Prop :=
  exists s, field req "message" = JStr s /\ trim s <> "".

(** The candidate a message carries. *)
Definition candidate_of (m : Client.Message) : JsVal :=
  prop (Client.msg_meta m) "appointment_candidate".

(* ================================================================== *)
(** ** The transcript endpoints of [server.js] *)
(* ================================================================== *)

Module History.

(** [GET] and [DELETE /api/chat_sessions/:session_id/messages] once
    [legacyAuth] has let the request through: the [sub] claim and the route
    parameter, a string. *)
Record Request : Type := mkRequest {
  user_sub : option string;
  session_id : string
}.

(** [req.user?.sub || 'user_1'] *)
Definition sub_or_default (req : Request) : string :=
  match user_sub req with
  | Some s => if String.eqb s "" then "user_1" else s
  | None => "user_1"
  end.

(** A row of [SELECT role, content, meta, created_at FROM chat_messages];
    the clock column is left out, as in the table. *)
Record Row : Type := mkRow {
  row_role : string;
  row_content : JsVal;
  row_meta : JsVal
}.

Definition row_of (m : ChatMessage) : Row :=
  mkRow (role m) (content m) (meta m).

(** What the two endpoints send back: the JSON bodies hold an array of
    rows, so they are kept as a type of their own. *)
Inductive Answer : Type :=
| messages_answer (messages : list Row) (count : nat) (session_id : string)
| deleted_answer (messages_deleted : nat) (session_id : string)
| error_answer (status : Z) (error message : string).

Definition answer_status (a : Answer) : Z :=
  match a with
  | messages_answer _ _ _ | deleted_answer _ _ => 200
  | error_answer status _ _ => status
  end.

(** The statements of the handlers above, together with the two on
    [chat_messages] that only these endpoints send. *)
Inductive Eff : Type -> Type :=
| Core {X : Type} (ev : Run.Eff X) : Eff X
| SelectMessages (user_id : Z) (token : string) : Eff (list Row)
| DeleteMessages (user_id : Z) (token : string) : Eff nat.

Inductive Prog (A : Type) : Type :=
| Ret (a : A)
| Throw (e : Err)
| Do {X : Type} (ev : Eff X) (k : Err + X -> Prog A).

Arguments Ret {A} a.
Arguments Throw {A} e.
Arguments Do {A X} ev k.

Fixpoint bind {A B : Type} (p : Prog A) (f : A -> Prog B) : Prog B :=
  match p with
  | Ret a => f a
  | Throw e => Throw e
  | Do ev k => Do ev (fun r => bind (k r) f)
  end.

Fixpoint try_catch {A : Type} (p : Prog A) (h : Err -> Prog A) : Prog A :=
  match p with
  | Ret a => Ret a
  | Throw e => h e
  | Do ev k => Do ev (fun r => try_catch (k r) h)
  end.

Definition await {X : Type} (ev : Eff X) : Prog X :=
  Do ev (fun r => match r with inl e => Throw e | inr x => Ret x end).

(** A helper of [server.js] called from these endpoints. *)
Fixpoint lift {A : Type} (p : Run.Prog A) : Prog A :=
  match p with
  | Run.Ret a => Ret a
  | Run.Throw e => Throw e
  | Run.Do ev k => Do (Core ev) (fun r => lift (k r))
  end.

Inductive Label : Type :=
| core (l : Run.Label)
| select_messages
| delete_messages.

Definition label {X : Type} (ev : Eff X) : Label :=
  match ev with
  | Core ev' => core (Run.label ev')
  | SelectMessages _ _ => select_messages
  | DeleteMessages _ _ => delete_messages
  end.

Definition is_statement {X : Type} (ev : Eff X) : bool :=
  match ev with
  | Core ev' => Run.is_statement ev'
  | _ => true
  end.

(** [WHERE user_id = $1 AND session_token = $2] *)
Definition of_session (uid : Z) (token : string) (m : ChatMessage) : bool :=
  (message_user_id m =? uid) && String.eqb (message_session_token m) token.

Section Exec.
Context `{Platform}.

(** [ORDER BY created_at ASC] is the insertion order of the rows.  A
    parameter that holds the NUL character is refused. *)
Definition exec {X : Type} (ev : Eff X) (env : Env) (db : DB)
  : (Err + X) * DB :=
  match ev in Eff X return (Err + X) * DB with
  | Core ev' => Run.exec ev' env db
  | SelectMessages uid token =>
      if has_nul token then (inl invalid_text, db)
      else
        (inr (map row_of (filter (of_session uid token) (chat_messages db))),
         db)
  | DeleteMessages uid token =>
      if has_nul token then (inl invalid_text, db)
      else
        (inr (List.length (filter (of_session uid token) (chat_messages db))),
         with_chat_messages db
           (filter (fun m => negb (of_session uid token m)) (chat_messages db)))
  end.

Definition exec_faulty {X : Type} (ev : Eff X) (env : Env)
    (faults : list bool) (db : DB) : (Err + X) * DB * list bool :=
  if is_statement ev then
    match faults with
    | true :: faults' => (inl db_unavailable, db, faults')
    | false :: faults' => (exec ev env db, faults')
    | [] => (exec ev env db, [])
    end
  else (exec ev env db, faults).

Fixpoint run {A : Type} (p : Prog A) (env : Env) (faults : list bool)
    (db : DB) : (Err + A) * DB * list (Label * bool) :=
  match p with
  | Ret a => (inr a, db, [])
  | Throw e => (inl e, db, [])
  | Do ev k =>
      let '(r, db', faults') := exec_faulty ev env faults db in
      let '(out, db'', log) := run (k r) env faults' db' in
      (out, db'', (label ev, failed r) :: log)
  end.

End Exec.

(** [app.get('/api/chat_sessions/:session_id/messages', legacyAuth, ...)] *)
Definition get_messages (req : Request) : Prog Answer :=
  try_catch
    (let sessionId := session_id req in
     if String.eqb sessionId ""
     then Ret (error_answer 400 "invalid_session_id"
                 "Session ID is required and must be a valid string")
     else
       bind (lift (upsertUser (sub_or_default req))) (fun userId =>
       bind (await (SelectMessages userId sessionId)) (fun result =>
       Ret (messages_answer result (List.length result) sessionId))))
    (fun _ =>
       Ret (error_answer 500 "fetch_failed"
              "Failed to retrieve conversation history")).

(** [app.delete('/api/chat_sessions/:session_id/messages', legacyAuth, ...)] *)
Definition delete_messages_handler (req : Request) : Prog Answer :=
  try_catch
    (let sessionId := session_id req in
     if String.eqb sessionId ""
     then Ret (error_answer 400 "invalid_session_id"
                 "Session ID is required and must be a valid string")
     else
       bind (lift (upsertUser (sub_or_default req))) (fun userId =>
       bind (await (DeleteMessages userId sessionId)) (fun result =>
       Ret (deleted_answer result sessionId))))
    (fun _ =>
       Ret (error_answer 500 "deletion_failed"
              "Failed to delete conversation history")).

End History.

(* ================================================================== *)
(** ** More of the client: [sendMessage] and the history load *)
(* ================================================================== *)

Module Chat.
Import Client.

(** The body [sendMessage] posts to [/api/chatbot/message]. *)
Definition message_body (st : State) (messageText : string) : JsVal :=
  JObj [("message", JStr messageText);
        ("session_id", JStr (sessionId st))].

Definition apology : Message :=
  mkMessage "assistant"
    (JStr "I'm experiencing technical difficulties. Please try again in a moment.")
    (JObj [("error", JBool true)]).

(** The message [sendMessage] builds in its [try] for an answer of the
    backend, or, where the [try] throws (the answer is not 2xx, or its
    body is [null]), the message of its [catch]. *)
Definition shown_answer (r : Reply) : Message :=
  match r with
  | resolved status responseData =>
      if negb (reply_ok status) then apology
      else
        match get responseData "data" with
        | None => apology
        | Some data =>
            let assistantData := Js.or data (JObj []) in
            let assistantReply :=
              Js.or (prop assistantData "reply")
                    (JStr "I'm sorry, I couldn't process that request.") in
            mkMessage "assistant" assistantReply assistantData
        end
  | rejected => apology
  end.

(** [sendMessage], with the [input] and [useLLM] states passed in.
    [backend] is how the server answers the [use_llm] flag of the URL and
    the body.  The optimistic user message has no [meta] key. *)
Definition sendMessage (backend : bool -> JsVal -> Reply) (useLLM : bool)
    (input : string) (st : State) : State :=
  let messageText := trim input in
  if String.eqb messageText "" then st
  else if String.eqb (token st) "" then st
  else
    let st := append_message (mkMessage "user" (JStr messageText) JUndefined) st in
    append_message (shown_answer (backend useLLM (message_body st messageText)))
      st.

(** [meta: message.meta || null] of [loadConversationHistory]. *)
Definition format_row (r : History.Row) : Message :=
  mkMessage (History.row_role r) (History.row_content r)
    (Js.or (History.row_meta r) JNull).

(** [setMessages(formattedMessages)]: a new array takes the place of the
    old one. *)
Definition set_messages (ms : list Message) (st : State) : State :=
  let '(r, h) := alloc ms (heap st) in
  mkState h r (token st) (sessionId st).

(** The effect that loads the history once a token and a session id are
    there.  [backend] is the answer to the [GET] for a session id, [None]
    when the [fetch] rejects. *)
Definition loadConversationHistory (backend : string -> option History.Answer)
    (st : State) : State :=
  if String.eqb (token st) "" || String.eqb (sessionId st) "" then st
  else
    match backend (sessionId st) with
    | Some (History.messages_answer rows _ _) =>
        set_messages (map format_row rows) st
    | _ => st
    end.

End Chat.

(* ================================================================== *)
(** ** The client put in front of the server *)
(* ================================================================== *)

Module Wire.

(** An answer of the server as the client's [fetch] gets it: the handlers
    always send JSON, so [response.json()] resolves with the body. *)
Definition reply_of (out : Err + Response) : Client.Reply :=
  match out with
  | inr res => Client.resolved (res_status res) (res_body res)
  | inl _ => Client.rejected
  end.

Section Server.
Context `{Platform}.

(** What the client reads when a request is served by a handler. *)
Definition confirm_answer (sub : option string) (env : Env)
    (faults : list bool) (db : DB) (body : JsVal) : Client.Reply :=
  reply_of (fst (fst (run (confirm_handler (Server.mkRequest sub body))
                        env faults db))).

Definition message_answer (sub : option string) (env : Env)
    (faults : list bool) (db : DB) (body : JsVal) : Client.Reply :=
  reply_of (fst (fst (run (message_handler (Server.mkRequest sub body))
                        env faults db))).

Definition history_answer (sub : option string) (env : Env)
    (faults : list bool) (db : DB) (param : string) : option History.Answer :=
  match fst (fst (History.run
                    (History.get_messages (History.mkRequest sub param))
                    env faults db)) with
  | inr a => Some a
  | inl _ => None
  end.

(** That the POST of [body] to [/api/chatbot/confirm] gets past the rate
    limiter, the body parser and [legacyAuth] as the request of the
    subject [sub], is served by the handler with [env] and [faults] on
    [db], and that the answer of the handler is what the client reads. *)
Definition confirm_reaches (backend : JsVal -> Client.Reply)
    (sub : option string) (env : Env) (faults : list bool) (db : DB)
    (body : JsVal) : Prop :=
  backend body = confirm_answer sub env faults db body.

(** The same for [/api/chatbot/message]; the [use_llm] flag of the URL is
    not read by the handler. *)
Definition message_reaches (backend : bool -> JsVal -> Client.Reply)
    (useLLM : bool) (sub : option string) (env : Env) (faults : list bool)
    (db : DB) (body : JsVal) : Prop :=
  backend useLLM body = message_answer sub env faults db body.

(** That the [GET] whose path the client builds from [id] reaches the
    history route with [param] for [req.params.session_id], and that its
    answer is what the client reads. *)
Definition history_reaches (backend : string -> option History.Answer)
    (id : string) (sub : option string) (param : string) (env : Env)
    (faults : list bool) (db : DB) : Prop :=
  backend id = history_answer sub env faults db param.

End Server.

End Wire.

(* ================================================================== *)
(** ** Rows and messages the properties speak of *)
(* ================================================================== *)

Section Outcomes.
Context `{Platform}.

(** The id [upsertUser] hands to a request. *)
Definition user_of (req : Request) (db : DB) : Z :=
  fst (upsert_user_row (sub_or_default req ++ "@demo.local") "Demo User" db).

(** The datastore once [upsertUser] and [ensureSession] have run for a
    request whose ids fit: the user is upserted; nothing is sent for a
    falsy token; a truthy one is looked up and, when it is not found,
    inserted. *)
Definition session_ensured (req : Request) (db : DB) : DB :=
  let db1 := snd (upsert_user_row (email_of req) "Demo User" db) in
  if truthy (field req "session_id") then
    if existsb (fun r => token_is (token_of req) (session_token r))
               (chat_sessions db1)
    then db1
    else with_chat_sessions db1
           (chat_sessions db1
            ++ [mkChatSession (chat_sessions_id_seq db1) (user_of req db)
                  (Some (token_of req))])
           (chat_sessions_id_seq db1 + 1)
  else db1.

(** The row a confirmation inserts and the turn it records. *)
Definition booked (req : Request) (env : Env) (db : DB) (t : Z) : Appointment :=
  mkAppointment (appointments_id_seq db) (user_of req db) t confirmed
    "general_checkup" 60 "Booked via AI chatbot" (pg_now env).

Definition confirmed_turn (req : Request) (db : DB) (time : Z) : ChatMessage :=
  mkChatMessage (user_of req db) (token_of req) "assistant"
    (JStr ("✅ Appointment confirmed for " ++ Date_toLocaleString time ++ "."))
    (JObj [("appointment_id", JNum (appointments_id_seq db));
           ("status", JStr "confirmed");
           ("action", JStr "confirmed")]).

(** The user a transcript request runs as. *)
Definition reader (req : History.Request) (db : DB) : Z :=
  fst (upsert_user_row (History.sub_or_default req ++ "@demo.local")
         "Demo User" db).

(** The message [confirmAppointment] shows for a booking, [shown] being
    the time as the browser formats it, and for a slot that is taken. *)
Definition booked_message (shown : string) (time : Z) (a : Appointment)
  : Client.Message :=
  Client.mkMessage "assistant"
    (JStr ("✅ Your appointment has been confirmed for " ++ shown ++ "."))
    (JObj [("confirmed", JBool true);
           ("appointment",
            JObj (appointment_json a
                  ++ [("formatted_time",
                       JStr (Date_toLocaleString time))]))]).

Definition taken_message : Client.Message :=
  Client.mkMessage "assistant"
    (JStr "That time slot is already booked. Please select a different time.")
    (JObj [("error", JBool true); ("type", JStr "conflict")]).

(** The messages the two buttons show for a request the server refuses. *)
Definition confirm_refused : Client.Message :=
  Client.mkMessage "assistant"
    (JStr "Sorry, I couldn't confirm your appointment. Please try again.")
    (JObj [("error", JBool true)]).

Definition decline_refused : Client.Message :=
  Client.mkMessage "assistant"
    (JStr "Sorry, I couldn't process your response. Please try again.")
    (JObj [("error", JBool true)]).

Definition decline_accepted : Client.Message :=
  Client.mkMessage "assistant"
    (JStr "No problem! When would be a better time for your appointment?")
    (JObj [("declined", JBool true)]).

End Outcomes.

(* ================================================================== *)
(** * Properties *)
(* ================================================================== *)

(** ** Lists *)

Lemma NoDup_snoc (A : Type) (l : list A) (x : A) :
  NoDup l -> ~ In x l -> NoDup (l ++ [x])%list.
Proof.
  induction l as [|y l IH]; intros Hl Hx; cbn.
  - constructor; [intros [] | constructor].
  - inversion Hl as [|? ? Hy Hl']; subst. constructor.
    + rewrite in_app_iff. intros [Hin | [Heq | []]].
      * exact (Hy Hin).
      * apply Hx. left. symmetry. exact Heq.
    + apply IH; [assumption | intros Hin; apply Hx; right; exact Hin].
Qed.

Lemma not_confirmed_at (t : Z) (l : list Appointment) :
  existsb (confirmed_at t) l = false ->
  ~ In t (map scheduled_at (filter is_confirmed l)).
Proof.
  induction l as [|a l IH]; cbn; [tauto|].
  intros Hex. apply orb_false_elim in Hex. destruct Hex as [Ha Hl].
  unfold confirmed_at in Ha. unfold is_confirmed.
  destruct (Status_eqb (status a) confirmed); cbn.
  - rewrite andb_true_r in Ha. apply Z.eqb_neq in Ha.
    intros [Heq | Hin]; [exact (Ha Heq) | exact (IH Hl Hin)].
  - exact (IH Hl).
Qed.

Lemma confirmed_at_in (t : Z) (l : list Appointment) :
  existsb (confirmed_at t) l = true ->
  In t (map scheduled_at (filter is_confirmed l)).
Proof.
  induction l as [|a l IH]; cbn; [discriminate|].
  intros Hex. apply orb_true_iff in Hex. unfold is_confirmed.
  destruct Hex as [Ha | Hl].
  - unfold confirmed_at in Ha. apply andb_true_iff in Ha.
    destruct Ha as [Ht Hs]. rewrite Hs. left. apply Z.eqb_eq. exact Ht.
  - destruct (Status_eqb (status a) confirmed); [right|]; exact (IH Hl).
Qed.

(** ** Every statement keeps the confirmed slots apart *)

Arguments varchar : simpl never.
Arguments session_text : simpl never.
Arguments has_nul : simpl never.
Arguments jsonb_ok : simpl never.
Arguments has_user : simpl never.
Arguments pg_text : simpl never.

(** Split on everything the goal branches on. *)
Ltac split_cases :=
  repeat match goal with
         | |- context [match ?x with _ => _ end] => destruct x eqn:?
         end.

Ltac split_cases_in H :=
  repeat match type of H with
         | context [match ?x with _ => _ end] => destruct x eqn:?
         end.

Section Invariant.
Context `{Platform}.

(** The only statement that adds a confirmed slot is the insert into
    [appointments], and the partial unique index lets it add a slot only
    when no confirmed row holds it. *)
Lemma exec_confirmed_times (X : Type) (ev : Eff X) (env : Env) (db : DB) :
  confirmed_times (snd (exec ev env db)) = confirmed_times db
  \/ exists t, confirmed_times (snd (exec ev env db))
               = (confirmed_times db ++ [t])%list
               /\ ~ In t (confirmed_times db).
Proof.
  destruct ev; cbn; unfold upsert_user_row.
  1-5, 7-8: left; split_cases; reflexivity.
  destruct (pg_timestamp at_) as [t|]; [|left; reflexivity].
  destruct (existsb (confirmed_at t) (appointments db)) eqn:Hex;
    [left; reflexivity|].
  destruct (has_user user_id0 db); [|left; reflexivity].
  right. exists t. split.
  - unfold confirmed_times. cbn. rewrite filter_app, map_app. reflexivity.
  - apply not_confirmed_at. exact Hex.
Qed.

Lemma exec_distinct (X : Type) (ev : Eff X) (env : Env) (db : DB) :
  confirmed_distinct db -> confirmed_distinct (snd (exec ev env db)).
Proof.
  unfold confirmed_distinct. intros Hdb.
  destruct (exec_confirmed_times X ev env db) as [Heq | [t [Heq Hnew]]];
    rewrite Heq; [assumption | apply NoDup_snoc; assumption].
Qed.

Lemma exec_faulty_distinct (X : Type) (ev : Eff X) (env : Env)
    (faults : list bool) (db : DB) :
  confirmed_distinct db ->
  confirmed_distinct (snd (fst (exec_faulty ev env faults db))).
Proof.
  intros Hdb. unfold exec_faulty.
  destruct (is_statement ev); [destruct faults as [|[|] faults]|]; cbn;
    try assumption; apply exec_distinct; assumption.
Qed.

Lemma run_distinct (A : Type) (p : Prog A) (env : Env) (faults : list bool)
    (db : DB) :
  confirmed_distinct db ->
  confirmed_distinct (snd (fst (run p env faults db))).
Proof.
  revert faults db.
  induction p as [a | e | X ev k IH]; intros faults db Hdb; cbn;
    [assumption | assumption |].
  pose proof (exec_faulty_distinct X ev env faults db Hdb) as Hstep.
  destruct (exec_faulty ev env faults db) as [[r db1] faults1]. cbn in Hstep.
  specialize (IH r faults1 db1 Hstep).
  destruct (run (k r) env faults1 db1) as [[out db2] log]. exact IH.
Qed.

Lemma step_thread_distinct (th : Thread) (db : DB) :
  confirmed_distinct db -> confirmed_distinct (snd (step_thread th db)).
Proof.
  intros Hdb. unfold step_thread.
  destruct (th_prog th) as [a | e | X ev k]; [assumption | assumption |].
  pose proof (exec_faulty_distinct X ev (th_env th) (th_faults th) db Hdb)
    as Hstep.
  destruct (exec_faulty ev (th_env th) (th_faults th) db) as [[r db1] faults1].
  exact Hstep.
Qed.

Lemma step_at_distinct (i : nat) (pool : list Thread) (db : DB) :
  confirmed_distinct db -> confirmed_distinct (snd (step_at i pool db)).
Proof.
  revert i. induction pool as [|th pool IH]; intros i Hdb;
    [destruct i; exact Hdb|].
  destruct i as [|i]; cbn.
  - pose proof (step_thread_distinct th db Hdb) as Hstep.
    destruct (step_thread th db) as [th' db']. exact Hstep.
  - specialize (IH i Hdb). destruct (step_at i pool db) as [rest' db'].
    exact IH.
Qed.

Lemma schema_db_distinct : confirmed_distinct schema_db.
Proof. constructor. Qed.

(** C1.  In every state the running service can reach, whatever requests
    arrive and however their statements interleave or get lost, the
    confirmed appointments have pairwise distinct [scheduled_at]; and each
    operation of the negotiation core, run on a datastore where this
    holds, leaves a datastore where it holds: message processing, and the
    confirm request in both its uses, confirmation and decline. *)
Theorem confirmed_slots_stay_distinct :
  (forall pool db, reachable (pool, db) -> confirmed_distinct db)
  /\ (forall req env faults db,
        confirmed_distinct db ->
        confirmed_distinct (snd (fst (run (message_handler req) env faults db))))
  /\ (forall req env faults db,
        confirmed_distinct db ->
        confirmed_distinct (snd (fst (run (confirm_handler req) env faults db)))).
Proof.
  split; [|split; intros; apply run_distinct; assumption].
  intros pool db Hreach.
  remember (pool, db) as st eqn:Hst. revert pool db Hst.
  induction Hreach as [ | pool0 db0 env faults req _ IH
                        | pool0 db0 env faults req _ IH
                        | pool0 db0 i _ IH ];
    intros pool db Hst.
  - inversion Hst; subst. apply schema_db_distinct.
  - inversion Hst; subst. exact (IH pool0 db eq_refl).
  - inversion Hst; subst. exact (IH pool0 db eq_refl).
  - pose proof (step_at_distinct i pool0 db0 (IH pool0 db0 eq_refl)) as Hstep.
    rewrite Hst in Hstep. exact Hstep.
Qed.

End Invariant.

(* ================================================================== *)
(** ** One step of a request *)
(* ================================================================== *)

Section Steps.
Context `{Platform}.

Lemma exec_faulty_nil (X : Type) (ev : Eff X) (env : Env) (db : DB) :
  exec_faulty ev env [] db = (exec ev env db, []).
Proof. unfold exec_faulty. destruct (is_statement ev); reflexivity. Qed.

Lemma exec_faulty_no_fault (X : Type) (ev : Eff X) (env : Env)
    (faults : list bool) (db : DB) :
  no_fault faults ->
  exists faults', exec_faulty ev env faults db = (exec ev env db, faults')
                  /\ no_fault faults'.
Proof.
  unfold no_fault, exec_faulty. intros Hnf.
  destruct (is_statement ev); [|exists faults; split; trivial].
  destruct faults as [|[|] faults]; cbn in Hnf; [| discriminate |].
  - exists []. split; reflexivity.
  - exists faults. split; [reflexivity | exact Hnf].
Qed.

(** Lost statements aside, a run does not depend on the fault flags. *)
Lemma run_no_fault (A : Type) (p : Prog A) (env : Env) (faults : list bool)
    (db : DB) :
  no_fault faults -> run p env faults db = run p env [] db.
Proof.
  revert faults db.
  induction p as [a | e | X ev k IH]; intros faults db Hnf; cbn;
    [reflexivity | reflexivity |].
  destruct (exec_faulty_no_fault X ev env faults db Hnf) as [f1 [Heq Hf1]].
  rewrite Heq, exec_faulty_nil.
  destruct (exec ev env db) as [r db1]. rewrite (IH r f1 db1 Hf1).
  reflexivity.
Qed.

(** A lost statement changes nothing. *)
Lemma exec_faulty_cases (X : Type) (ev : Eff X) (env : Env)
    (faults : list bool) (db : DB) :
  (exists faults', exec_faulty ev env faults db = (exec ev env db, faults'))
  \/ (exists faults', exec_faulty ev env faults db
                      = (inl db_unavailable, db, faults')).
Proof.
  unfold exec_faulty.
  destruct (is_statement ev); [destruct faults as [|[|] faults]|]; eauto.
Qed.

(** Only the insert into [appointments] touches that table or its
    sequence. *)
Lemma step_appointments (X : Type) (ev : Eff X) (env : Env)
    (faults : list bool) (db : DB) r db1 faults1 :
  exec_faulty ev env faults db = (r, db1, faults1) ->
  Label_eqb (label ev) insert_appointment = false ->
  appointments db1 = appointments db
  /\ appointments_id_seq db1 = appointments_id_seq db.
Proof.
  intros Hstep Hl.
  destruct (exec_faulty_cases X ev env faults db) as [[f Heq] | [f Heq]];
    rewrite Heq in Hstep; [|inversion Hstep; subst; split; reflexivity].
  destruct ev; cbn in Hstep, Hl; try discriminate Hl;
    unfold upsert_user_row in Hstep;
    split_cases_in Hstep; inversion Hstep; subst; split; reflexivity.
Qed.

(** An insert into [appointments] that fails leaves the rows as they
    are. *)
Lemma step_insert_appointment_failed (uid : Z) (at_ : JsVal) (env : Env)
    (faults : list bool) (db : DB) e db1 faults1 :
  exec_faulty (InsertAppointment uid at_) env faults db = (inl e, db1, faults1) ->
  appointments db1 = appointments db.
Proof.
  intros Hstep.
  destruct (exec_faulty_cases _ (InsertAppointment uid at_) env faults db)
    as [[f Heq] | [f Heq]];
    rewrite Heq in Hstep; [|inversion Hstep; subst; reflexivity].
  cbn in Hstep. split_cases_in Hstep; inversion Hstep; subst; reflexivity.
Qed.

(** A successful insert into [appointments] adds the row it returns, a
    confirmed row at the instant the datastore reads in the parameter, and
    only where no confirmed row stood. *)
Lemma step_insert_appointment (uid : Z) (at_ : JsVal) (env : Env)
    (faults : list bool) (db : DB) a db1 faults1 :
  exec_faulty (InsertAppointment uid at_) env faults db = (inr a, db1, faults1) ->
  appointments db1 = (appointments db ++ [a])%list
  /\ status a = confirmed
  /\ pg_timestamp at_ = Some (scheduled_at a)
  /\ existsb (confirmed_at (scheduled_at a)) (appointments db) = false.
Proof.
  intros Hstep.
  destruct (exec_faulty_cases _ (InsertAppointment uid at_) env faults db)
    as [[f Heq] | [f Heq]];
    rewrite Heq in Hstep; [|discriminate Hstep].
  cbn in Hstep. destruct (pg_timestamp at_) as [t|]; [|discriminate Hstep].
  destruct (existsb (confirmed_at t) (appointments db)) eqn:Hex;
    [discriminate Hstep|].
  destruct (has_user uid db); [|discriminate Hstep].
  inversion Hstep; subst. cbn. repeat split; trivial.
Qed.

(** Only a successful insert into [chat_messages] changes that table. *)
Lemma step_messages (X : Type) (ev : Eff X) (env : Env)
    (faults : list bool) (db : DB) r db1 faults1 :
  exec_faulty ev env faults db = (r, db1, faults1) ->
  Label_eqb (label ev) insert_message && negb (failed r) = false ->
  chat_messages db1 = chat_messages db.
Proof.
  intros Hstep Hl.
  destruct (exec_faulty_cases X ev env faults db) as [[f Heq] | [f Heq]];
    rewrite Heq in Hstep; [|inversion Hstep; subst; reflexivity].
  destruct ev; cbn in Hstep, Hl; unfold upsert_user_row in Hstep;
    split_cases_in Hstep; inversion Hstep; subst; try reflexivity;
    discriminate Hl.
Qed.

(** A successful insert into [chat_messages] adds one row, under the text
    the column keeps for the token. *)
Lemma step_insert_message (uid : Z) (token : JsVal) (r : string)
    (c m : JsVal) (env : Env) (faults : list bool) (db : DB) u db1 faults1 :
  exec_faulty (InsertMessage uid token r c m) env faults db
    = (inr u, db1, faults1) ->
  exists tok,
    session_text token = inr (Some tok)
    /\ chat_messages db1
       = (chat_messages db ++ [mkChatMessage uid tok r c m])%list.
Proof.
  intros Hstep.
  destruct (exec_faulty_cases _ (InsertMessage uid token r c m) env faults db)
    as [[f Heq] | [f Heq]];
    rewrite Heq in Hstep; [|discriminate Hstep].
  cbn in Hstep. split_cases_in Hstep; inversion Hstep; subst.
  eexists. split; reflexivity.
Qed.

(** Only the upsert touches [users], and it keeps every row but for the
    [name] of the one it finds, or adds one row. *)
Lemma step_users (X : Type) (ev : Eff X) (env : Env)
    (faults : list bool) (db : DB) r db1 faults1 :
  exec_faulty ev env faults db = (r, db1, faults1) ->
  Label_eqb (label ev) upsert_user = false ->
  users db1 = users db /\ users_id_seq db1 = users_id_seq db.
Proof.
  intros Hstep Hl.
  destruct (exec_faulty_cases X ev env faults db) as [[f Heq] | [f Heq]];
    rewrite Heq in Hstep; [|inversion Hstep; subst; split; reflexivity].
  destruct ev; cbn in Hstep, Hl; try discriminate Hl;
    split_cases_in Hstep; inversion Hstep; subst; split; reflexivity.
Qed.

(** Only the insert into [chat_sessions] touches that table. *)
Lemma step_sessions (X : Type) (ev : Eff X) (env : Env)
    (faults : list bool) (db : DB) r db1 faults1 :
  exec_faulty ev env faults db = (r, db1, faults1) ->
  Label_eqb (label ev) insert_session && negb (failed r) = false ->
  chat_sessions db1 = chat_sessions db.
Proof.
  intros Hstep Hl.
  destruct (exec_faulty_cases X ev env faults db) as [[f Heq] | [f Heq]];
    rewrite Heq in Hstep; [|inversion Hstep; subst; reflexivity].
  destruct ev; cbn in Hstep, Hl; unfold upsert_user_row in Hstep;
    split_cases_in Hstep; inversion Hstep; subst; try reflexivity;
    discriminate Hl.
Qed.

Lemma step_insert_session (uid : Z) (token : JsVal) (env : Env)
    (faults : list bool) (db : DB) id db1 faults1 :
  exec_faulty (InsertSession uid token) env faults db = (inr id, db1, faults1) ->
  exists tok,
    session_text token = inr tok
    /\ chat_sessions db1 = (chat_sessions db ++ [mkChatSession id uid tok])%list.
Proof.
  intros Hstep.
  destruct (exec_faulty_cases _ (InsertSession uid token) env faults db)
    as [[f Heq] | [f Heq]];
    rewrite Heq in Hstep; [|discriminate Hstep].
  cbn in Hstep. split_cases_in Hstep; inversion Hstep; subst.
  eexists. split; reflexivity.
Qed.

(** The clock never fails. *)
Lemma step_now (env : Env) (faults : list bool) (db : DB) :
  exec_faulty Now env faults db = (inr (now env), db, faults).
Proof. reflexivity. Qed.

(** The call to the service is no statement. *)
Lemma step_fetch (payload : JsVal) (env : Env) (faults : list bool) (db : DB) :
  exec_faulty (FetchSimulate payload) env faults db
  = (match py_service env payload with
     | Some r => inr r
     | None => inl fetch_failed
     end, db, faults).
Proof.
  unfold exec_faulty. cbn. destruct (py_service env payload); reflexivity.
Qed.

End Steps.

(* ================================================================== *)
(** ** Running a handler symbolically *)
(* ================================================================== *)

Arguments exec_faulty : simpl never.

(** Perform the next event of the run in [H], with an arbitrary answer, and
    split on whether it failed. *)
Ltac step_in H :=
  cbn in H; rewrite ?step_now in H; cbn in H;
  lazymatch type of H with
  | context [@exec_faulty ?P ?X ?ev ?env ?f ?db] =>
      let r := fresh "r" in
      let d := fresh "db" in
      let fs := fresh "faults" in
      let E := fresh "Hstep" in
      destruct (@exec_faulty P X ev env f db) as [[r d] fs] eqn:E;
      destruct r; cbn in H
  end.

Ltac break_var_in H :=
  match type of H with
  | context [match ?x with _ => _ end] => is_var x; destruct x; cbn in H
  end.

Ltac run_in H := repeat (first [step_in H | break_var_in H]).

(** Collect what each performed step did to [appointments] and to
    [chat_messages]. *)
Ltac note_steps :=
  repeat match goal with
  | E : exec_faulty ?ev ?env ?f ?db = (?r, ?d, ?fs) |- _ =>
      first [ pose proof (step_appointments _ _ _ _ _ _ _ _ E eq_refl)
            | pose proof (step_insert_appointment _ _ _ _ _ _ _ _ E)
            | pose proof (step_insert_appointment_failed _ _ _ _ _ _ _ _ E)
            | idtac ];
      first [ pose proof (step_messages _ _ _ _ _ _ _ _ E eq_refl)
            | pose proof (step_insert_message _ _ _ _ _ _ _ _ _ _ _ E)
            | idtac ];
      change (noted (exec_faulty ev env f db = (r, d, fs))) in E
  end;
  repeat match goal with
  | Hc : _ /\ _ |- _ => destruct Hc
  | Hc : exists _, _ |- _ => destruct Hc
  end.

(** Open a handler in the equation [H] of its run. *)
Ltac open_handler H :=
  unfold confirm_handler, message_handler, upsertUser, ensureSession,
    logMessage in H;
  cbv zeta in H.

Ltac break_any_in H :=
  match type of H with
  | context [match ?x with _ => _ end] =>
      lazymatch x with
      | context [@exec_faulty] => fail
      | context [match _ with _ => _ end] => fail
      | _ => destruct x eqn:?; cbn in H
      end
  end.

(** Follow every path of the handler whose run is [H]. *)
Ltac explore H :=
  repeat (unfold negb, orb, andb in H;
          first [ progress (rewrite step_now in H; cbn in H)
                | step_in H | break_var_in H | break_any_in H ]).


(* ================================================================== *)
(** ** Statements that are not lost *)
(* ================================================================== *)

Section Statements.
Context `{Platform}.

Lemma fits_varchar (n : nat) (s : string) :
  fits n s = true -> varchar n s = inr s.
Proof.
  unfold fits, varchar. intros Hf. apply andb_true_iff in Hf.
  destruct Hf as [Hn Hl]. apply negb_true_iff in Hn. rewrite Hn, Hl.
  reflexivity.
Qed.

Lemma fits_no_nul (n : nat) (s : string) : fits n s = true -> has_nul s = false.
Proof.
  unfold fits. intros Hf. apply andb_true_iff in Hf.
  apply negb_true_iff. apply Hf.
Qed.

Lemma fits_session_text (token : JsVal) (tok : string) :
  pg_text token = Some tok -> fits 255 tok = true ->
  session_text token = inr (Some tok).
Proof.
  intros Ht Hf. unfold session_text. rewrite Ht, (fits_varchar _ _ Hf).
  reflexivity.
Qed.

(** What [ids_fit] gives: the email is stored as it is, and so is the
    text of the session id, which is the token of the rows. *)
Lemma ids_fit_inv (req : Request) :
  ids_fit req = true ->
  fits 255 (email_of req) = true
  /\ exists tok, pg_text (field req "session_id") = Some tok
                 /\ has_nul tok = false
                 /\ session_text (field req "session_id") = inr (Some tok)
                 /\ token_of req = tok.
Proof.
  unfold ids_fit. intros Hf. apply andb_true_iff in Hf.
  destruct Hf as [He Ht]. split; [exact He|].
  destruct (pg_text (field req "session_id")) as [tok|] eqn:Hp;
    [|discriminate Ht].
  exists tok. split; [reflexivity|]. split; [exact (fits_no_nul _ _ Ht)|].
  pose proof (fits_session_text _ _ Hp Ht) as Hs.
  split; [exact Hs|]. unfold token_of. rewrite Hs. reflexivity.
Qed.

Lemma demo_name_fits : fits 255 "Demo User" = true.
Proof. reflexivity. Qed.

Lemma exec_upsert (e n : string) (env : Env) (db : DB) :
  fits 255 e = true -> fits 255 n = true ->
  exec (UpsertUser e n) env db
  = (inr (fst (upsert_user_row e n db)), snd (upsert_user_row e n db)).
Proof.
  intros He Hn. cbn.
  rewrite (fits_no_nul _ _ He), (fits_no_nul _ _ Hn).
  rewrite (fits_varchar _ _ He), (fits_varchar _ _ Hn). reflexivity.
Qed.

Lemma upsert_keeps (e n : string) (db : DB) :
  appointments (snd (upsert_user_row e n db)) = appointments db
  /\ appointments_id_seq (snd (upsert_user_row e n db)) = appointments_id_seq db
  /\ chat_messages (snd (upsert_user_row e n db)) = chat_messages db
  /\ chat_sessions (snd (upsert_user_row e n db)) = chat_sessions db.
Proof.
  unfold upsert_user_row. destruct (List.find _ (users db)); cbn; auto.
Qed.

Lemma upsert_keeps_sessions_seq (e n : string) (db : DB) :
  chat_sessions_id_seq (snd (upsert_user_row e n db)) = chat_sessions_id_seq db.
Proof.
  unfold upsert_user_row. destruct (List.find _ (users db)); reflexivity.
Qed.

(** The id the upsert returns is the id of a row of [users]. *)
Lemma upsert_has_user (e n : string) (db : DB) :
  has_user (fst (upsert_user_row e n db)) (snd (upsert_user_row e n db)) = true.
Proof.
  unfold has_user, upsert_user_row.
  destruct (List.find _ (users db)) as [u|] eqn:Hfind; cbn.
  - apply find_some in Hfind. destruct Hfind as [Hin _].
    apply existsb_exists.
    exists (if String.eqb (email u) e then set_name n u else u).
    split; [apply in_map_iff; exists u; split; [reflexivity | exact Hin]|].
    destruct (String.eqb (email u) e); cbn; apply Z.eqb_refl.
  - rewrite existsb_app. cbn. rewrite Z.eqb_refl. apply orb_true_r.
Qed.

Lemma has_user_sessions (uid : Z) (db : DB) ss seq :
  has_user uid (with_chat_sessions db ss seq) = has_user uid db.
Proof. reflexivity. Qed.

Lemma has_user_messages (uid : Z) (db : DB) ms :
  has_user uid (with_chat_messages db ms) = has_user uid db.
Proof. reflexivity. Qed.

Lemma has_user_appointments (uid : Z) (db : DB) aps seq :
  has_user uid (with_appointments db aps seq) = has_user uid db.
Proof. reflexivity. Qed.

Lemma exec_select_session (token : JsVal) (tok : string) (env : Env) (db : DB) :
  pg_text token = Some tok -> has_nul tok = false ->
  exec (SelectSession token) env db
  = (inr (map session_id
            (filter (fun r => token_is tok (session_token r))
                    (chat_sessions db))), db).
Proof. intros Ht Hn. cbn. rewrite Ht, Hn. reflexivity. Qed.

Lemma exec_insert_session (uid : Z) (token : JsVal) (tok : option string)
    (env : Env) (db : DB) :
  session_text token = inr tok ->
  has_user uid db = true ->
  exec (InsertSession uid token) env db
  = (inr (chat_sessions_id_seq db),
     with_chat_sessions db
       (chat_sessions db ++ [mkChatSession (chat_sessions_id_seq db) uid tok])
       (chat_sessions_id_seq db + 1)).
Proof. intros Ht Hu. cbn. rewrite Ht, Hu. reflexivity. Qed.

(** A row the columns take is appended. *)
Lemma exec_insert_message (uid : Z) (token : JsVal) (tok : string) (r : string)
    (c m : JsVal) (env : Env) (db : DB) :
  session_text token = inr (Some tok) ->
  content_ok c = true ->
  jsonb_ok m = true ->
  has_user uid db = true ->
  exec (InsertMessage uid token r c m) env db
  = (inr tt,
     with_chat_messages db
       (chat_messages db ++ [mkChatMessage uid tok r c m])).
Proof.
  intros Ht Hc Hm Hu. cbn. rewrite Ht. unfold content_ok in Hc.
  destruct (pg_text c) as [text|]; [|discriminate Hc].
  apply negb_true_iff in Hc. rewrite Hc, Hm, Hu. reflexivity.
Qed.

Lemma content_ok_text (s : string) : has_nul s = false -> content_ok (JStr s) = true.
Proof. intros Hs. unfold content_ok, pg_text. rewrite Hs. reflexivity. Qed.

Lemma has_nul_app (a b : string) :
  has_nul (a ++ b) = has_nul a || has_nul b.
Proof.
  unfold has_nul. induction a as [|c a IH]; cbn; [reflexivity|].
  rewrite IH. apply orb_assoc.
Qed.

Lemma conflict_count (p : Appointment -> bool) (l : list Appointment) :
  List.length (firstn 1 (filter p l)) = if existsb p l then 1%nat else 0%nat.
Proof.
  induction l as [|a l IH]; cbn; [reflexivity|].
  destruct (p a); cbn; [reflexivity | exact IH].
Qed.

Lemma exec_select_conflict (at_ : JsVal) (t : Z) (env : Env) (db : DB) :
  pg_timestamp at_ = Some t ->
  exec (SelectConflict at_) env db
  = (inr (if existsb (confirmed_at t) (appointments db) then 1%nat else 0%nat),
     db).
Proof.
  intros Ht. cbv beta iota delta [exec]. rewrite Ht, conflict_count.
  reflexivity.
Qed.

Lemma exec_select_conflict_invalid (at_ : JsVal) (env : Env) (db : DB) :
  pg_timestamp at_ = None ->
  exec (SelectConflict at_) env db = (inl invalid_datetime, db).
Proof. intros Ht. cbv beta iota delta [exec]. rewrite Ht. reflexivity. Qed.

Lemma exec_insert_appointment_free (uid : Z) (at_ : JsVal) (t : Z)
    (env : Env) (db : DB) :
  pg_timestamp at_ = Some t ->
  existsb (confirmed_at t) (appointments db) = false ->
  has_user uid db = true ->
  exec (InsertAppointment uid at_) env db
  = (inr (mkAppointment (appointments_id_seq db) uid t confirmed
            "general_checkup" 60 "Booked via AI chatbot" (pg_now env)),
     with_appointments db
       (appointments db
        ++ [mkAppointment (appointments_id_seq db) uid t confirmed
              "general_checkup" 60 "Booked via AI chatbot" (pg_now env)])
       (appointments_id_seq db + 1)).
Proof. intros Ht Hfree Hu. cbn. rewrite Ht, Hfree, Hu. reflexivity. Qed.

Lemma exec_insert_appointment_taken (uid : Z) (at_ : JsVal) (t : Z)
    (env : Env) (db : DB) :
  pg_timestamp at_ = Some t ->
  existsb (confirmed_at t) (appointments db) = true ->
  exec (InsertAppointment uid at_) env db
  = (inl unique_violation,
     with_appointments db (appointments db) (appointments_id_seq db + 1)).
Proof. intros Ht Htaken. cbn. rewrite Ht, Htaken. reflexivity. Qed.

Lemma exec_fetch (payload : JsVal) (env : Env) (db : DB) :
  exec (FetchSimulate payload) env db
  = (match py_service env payload with
     | Some r => inr r
     | None => inl fetch_failed
     end, db).
Proof. cbn. destruct (py_service env payload); reflexivity. Qed.

End Statements.

Arguments exec : simpl never.
Arguments upsert_user_row : simpl never.
Arguments content_ok : simpl never.
Arguments token_is : simpl never.

(** The user a row refers to is there. *)
Ltac user_there :=
  rewrite ?has_user_sessions, ?has_user_messages, ?has_user_appointments;
  apply upsert_has_user.

(** Perform the next statement of the run in [H], none being lost. *)
Ltac sure_step_in H :=
  cbn in H; rewrite ?step_now in H; cbn in H;
  rewrite exec_faulty_nil in H;
  first [ rewrite exec_upsert in H by (assumption || apply demo_name_fits)
        | erewrite exec_select_session in H by eassumption
        | erewrite exec_insert_session in H by (eassumption || user_there)
        | erewrite exec_insert_message in H
            by first [ eassumption | user_there | reflexivity
                     | apply content_ok_text; assumption ]
        | erewrite exec_select_conflict in H by eassumption
        | rewrite exec_select_conflict_invalid in H by assumption
        | erewrite exec_insert_appointment_free in H
            by first [ user_there
                     | cbn; rewrite ?(proj1 (upsert_keeps _ _ _)); eassumption ]
        | erewrite exec_insert_appointment_taken in H
            by (cbn; rewrite ?(proj1 (upsert_keeps _ _ _)); eassumption)
        | rewrite exec_fetch in H ];
  cbn in H.

(* ================================================================== *)
(** ** Confirmation requests *)
(* ================================================================== *)

Section Dates.
Context `{Platform}.

Lemma Date_of_no_throw (v : JsVal) (t : Z) :
  Date_of v = Some t -> Date_throws v = false.
Proof.
  unfold Date_of, Date_throws.
  destruct v; try reflexivity; destruct (to_string _);
    first [reflexivity | discriminate].
Qed.

End Dates.

(** The head of a run of the confirm handler past its guards, for a
    request whose ids fit: the clock is read, the user is upserted and the
    session is looked up under the text of its token. *)
Ltac past_guards Hrun Hs Ha Hd Hn Hfit :=
  let Hthrow := fresh "Hthrow" in
  let Hemail := fresh "Hemail" in
  let tok := fresh "tok" in
  let Hp := fresh "Hp" in
  let Hnul := fresh "Hnul" in
  let Hsess := fresh "Hsess" in
  let Htok := fresh "Htok" in
  pose proof (Date_of_no_throw _ _ Hd) as Hthrow;
  destruct (ids_fit_inv _ Hfit) as [Hemail [tok [Hp [Hnul [Hsess Htok]]]]];
  unfold email_of, field in *;
  apply Z.leb_gt in Hn;
  open_handler Hrun;
  rewrite ?Hs, ?Ha, ?Hthrow, ?Hd in Hrun; cbn in Hrun;
  rewrite step_now in Hrun; cbn in Hrun; rewrite ?Hn in Hrun;
  do 2 sure_step_in Hrun.

Section Confirm.
Context `{Platform}.

(** The guards at the head of the confirm handler: a request that fails
    one of them is answered 400 before any statement is sent, and the
    datastore is left as it was. *)
Lemma confirm_guards req env faults db :
  truthy (field req "session_id") = false
  \/ truthy (field req "scheduled_at") = false
  \/ (Date_throws (field req "scheduled_at") = false
      /\ Date_of (field req "scheduled_at") = None)
  \/ (exists time, Date_of (field req "scheduled_at") = Some time
                   /\ time <= now env) ->
  let r := run (confirm_handler req) env faults db in
  status_of (fst (fst r)) = 400
  /\ snd (fst r) = db
  /\ existsb (fun e => negb (Label_eqb (fst e) read_clock)) (snd r) = false.
Proof.
  intros Hbad r. subst r. unfold field in *.
  destruct (run (confirm_handler req) env faults db) as [[out db'] log] eqn:Hrun.
  open_handler Hrun.
  destruct (truthy (prop (Js.or (body req) (JObj [])) "session_id")) eqn:Hs;
    cbn in Hrun; [|inversion Hrun; subst; cbn; auto].
  destruct (truthy (prop (Js.or (body req) (JObj [])) "scheduled_at")) eqn:Ha;
    cbn in Hrun; [|inversion Hrun; subst; cbn; auto].
  assert (Hthrow : Date_throws (prop (Js.or (body req) (JObj [])) "scheduled_at")
                   = false).
  { destruct Hbad as [Hb | [Hb | [[Hb _] | [time' [Hb _]]]]];
      try discriminate Hb; [exact Hb | exact (Date_of_no_throw _ _ Hb)]. }
  rewrite Hthrow in Hrun.
  destruct (Date_of (prop (Js.or (body req) (JObj [])) "scheduled_at"))
    as [time|] eqn:Hd; cbn in Hrun; [|inversion Hrun; subst; cbn; auto].
  rewrite step_now in Hrun. cbn in Hrun.
  destruct Hbad as [Hb | [Hb | [[_ Hb] | [time' [Hb Hle]]]]];
    try discriminate Hb.
  inversion Hb; subst time'. apply Z.leb_le in Hle. rewrite Hle in Hrun.
  cbn in Hrun. inversion Hrun; subst; cbn; auto.
Qed.

(** A request that passes the three guards is never answered 400, and it
    reaches the datastore. *)
Lemma confirm_past_guards req env faults db time :
  truthy (field req "session_id") = true ->
  truthy (field req "scheduled_at") = true ->
  Date_of (field req "scheduled_at") = Some time ->
  now env < time ->
  let r := run (confirm_handler req) env faults db in
  status_of (fst (fst r)) <> 400 /\ calls upsert_user (snd r) = true.
Proof.
  intros Hs Ha Hd Hn r. subst r. unfold field in *. apply Z.leb_gt in Hn.
  pose proof (Date_of_no_throw _ _ Hd) as Hthrow.
  destruct (run (confirm_handler req) env faults db) as [[out db'] log] eqn:Hrun.
  open_handler Hrun. rewrite ?Hs, ?Ha, ?Hthrow, ?Hd in Hrun. cbn in Hrun.
  rewrite step_now in Hrun. cbn in Hrun. rewrite Hn in Hrun.
  explore Hrun; inversion Hrun; subst; cbn; split;
    first [reflexivity | discriminate].
Qed.

(** C3, as amended.  The handler finds a collision with a query of its
    own, sent before the insert: when the request passes the guards, its
    ids fit their columns, no statement is lost and the datastore reads in
    [scheduled_at] a timestamp at which a confirmed appointment stands,
    the answer is the 409 conflict response, which is not the 500 one;
    the log shows the pre-check and no insert, and the [appointments]
    table is as it was. *)
Theorem conflict_found_by_precheck req env faults db time t :
  truthy (field req "session_id") = true ->
  truthy (field req "scheduled_at") = true ->
  Date_of (field req "scheduled_at") = Some time ->
  now env < time ->
  truthy (field req "confirm") = true ->
  ids_fit req = true ->
  no_fault faults ->
  pg_timestamp (field req "scheduled_at") = Some t ->
  existsb (confirmed_at t) (appointments db) = true ->
  let r := run (confirm_handler req) env faults db in
  fst (fst r) = inr conflict_response
  /\ res_status conflict_response = 409
  /\ res_status conflict_response <> res_status server_error_response
  /\ calls select_conflict (snd r) = true
  /\ calls insert_appointment (snd r) = false
  /\ appointments (snd (fst r)) = appointments db.
Proof.
  intros Hs Ha Hd Hn Hc Hfit Hnf Ht Htaken r. subst r.
  rewrite (run_no_fault _ _ _ _ _ Hnf).
  destruct (run (confirm_handler req) env [] db) as [[out db'] log] eqn:Hrun.
  past_guards Hrun Hs Ha Hd Hn Hfit. rewrite ?Hc in Hrun.
  destruct (map session_id _) as [|sid sids] in Hrun;
    repeat sure_step_in Hrun;
    rewrite ?(proj1 (upsert_keeps _ _ _)), Htaken in Hrun; cbn in Hrun;
    inversion Hrun; subst; cbn;
    rewrite ?(proj1 (upsert_keeps _ _ _));
    repeat split; try reflexivity; discriminate.
Qed.

(** C8, as amended.  A failed call other than an append to
    [chat_messages] makes either handler answer 500; and the confirm
    handler answers 200 to a confirmation only when the appointment row
    went in: a confirmed row at the requested instant, last of the
    table. *)
Theorem failures_outside_logging_are_reported :
  (forall req env faults db,
      let r := run (message_handler req) env faults db in
      failed_outside_logging (snd r) = true -> status_of (fst (fst r)) = 500)
  /\ (forall req env faults db,
        let r := run (confirm_handler req) env faults db in
        failed_outside_logging (snd r) = true -> status_of (fst (fst r)) = 500)
  /\ (forall req env faults db,
        let r := run (confirm_handler req) env faults db in
        truthy (field req "confirm") = true ->
        status_of (fst (fst r)) = 200 ->
        exists a,
          appointments (snd (fst r)) = (appointments db ++ [a])%list
          /\ status a = confirmed
          /\ pg_timestamp (field req "scheduled_at") = Some (scheduled_at a)).
Proof.
  split; [|split].
  - intros req env faults db r. subst r.
    destruct (run (message_handler req) env faults db)
      as [[out db'] log] eqn:Hrun.
    open_handler Hrun. explore Hrun.
    all: inversion Hrun; subst; cbn; intros Hf;
      first [reflexivity | discriminate Hf].
  - intros req env faults db r. subst r.
    destruct (run (confirm_handler req) env faults db)
      as [[out db'] log] eqn:Hrun.
    open_handler Hrun. explore Hrun.
    all: inversion Hrun; subst; cbn; intros Hf;
      first [reflexivity | discriminate Hf].
  - intros req env faults db r Hc. subst r. unfold field in *.
    destruct (run (confirm_handler req) env faults db)
      as [[out db'] log] eqn:Hrun.
    open_handler Hrun. rewrite ?Hc in Hrun. explore Hrun.
    all: inversion Hrun; subst; cbn; intros Hf; try discriminate Hf.
    all: note_steps.
    all: match goal with a : Appointment |- _ => exists a end.
    all: split; [congruence | split; assumption].
Qed.

End Confirm.

(* ================================================================== *)
(** ** Chat messages *)
(* ================================================================== *)

Section Message.
Context `{Platform}.

Lemma accepted_guard req :
  message_accepted req ->
  negb (truthy (field req "message")) || negb (is_string (field req "message"))
  || negb (truthy (JStr (trim_of (field req "message")))) = false.
Proof.
  intros [s [Hm Hs]]. rewrite Hm. cbn.
  destruct (String.eqb (trim s) "") eqn:Et;
    [apply String.eqb_eq in Et; contradiction|].
  destruct (String.eqb s "") eqn:Es; [|reflexivity].
  apply String.eqb_eq in Es. subst s. exfalso. apply Hs. reflexivity.
Qed.

Lemma session_ensured_keeps req db :
  chat_messages (session_ensured req db) = chat_messages db
  /\ appointments (session_ensured req db) = appointments db
  /\ appointments_id_seq (session_ensured req db) = appointments_id_seq db
  /\ has_user (user_of req db) (session_ensured req db) = true.
Proof.
  unfold session_ensured, user_of, email_of.
  destruct (upsert_keeps (sub_or_default req ++ "@demo.local") "Demo User" db)
    as [Ha [Hs [Hm _]]].
  pose proof (upsert_has_user (sub_or_default req ++ "@demo.local")
                "Demo User" db) as Hu.
  destruct (truthy _); [destruct (existsb _ _)|]; cbn;
    rewrite ?has_user_sessions; auto.
Qed.

Lemma map_filter_nil (A B : Type) (f : A -> B) (p : A -> bool) (l : list A) :
  map f (filter p l) = [] -> existsb p l = false.
Proof.
  induction l as [|x l IH]; cbn; [reflexivity|].
  destruct (p x); cbn; [discriminate | exact IH].
Qed.

Lemma map_filter_cons (A B : Type) (f : A -> B) (p : A -> bool) (l : list A)
    y ys :
  map f (filter p l) = y :: ys -> existsb p l = true.
Proof.
  induction l as [|x l IH]; cbn; [discriminate|].
  destruct (p x); cbn; [reflexivity | exact IH].
Qed.

End Message.

(** The run [Hrun] of the message handler for an accepted message whose
    ids fit, none of its statements lost, up to the point where the user
    turn is logged. *)
Ltac message_head Hrun Hacc Hfit :=
  let Hguard := fresh "Hguard" in
  let Hemail := fresh "Hemail" in
  let tok := fresh "tok" in
  let Hp := fresh "Hp" in
  let Hnul := fresh "Hnul" in
  let Hsess := fresh "Hsess" in
  let Htok := fresh "Htok" in
  let Hs := fresh "Hs" in
  let Hfound := fresh "Hfound" in
  pose proof (accepted_guard _ Hacc) as Hguard;
  destruct (ids_fit_inv _ Hfit) as [Hemail [tok [Hp [Hnul [Hsess Htok]]]]];
  unfold session_ensured, user_of;
  rewrite ?Htok;
  unfold email_of, field in *;
  open_handler Hrun; rewrite Hguard in Hrun;
  sure_step_in Hrun;
  destruct (truthy (prop (Js.or (body _) (JObj [])) "session_id")) eqn:Hs;
    cbn in Hrun;
  [ sure_step_in Hrun;
    destruct (map session_id _) as [|? ?] eqn:Hfound in Hrun;
    [ rewrite ?(map_filter_nil _ _ _ _ _ Hfound); sure_step_in Hrun
    | rewrite ?(map_filter_cons _ _ _ _ _ _ _ Hfound); cbn in Hrun ]
  | ].

Section MessageRuns.
Context `{Platform}.

(** An accepted message whose ids fit, no statement lost, the service
    answering with JSON [data]: the answer is [{ok: true, data}],
    whatever becomes of the two appends. *)
Lemma message_answered req env faults db code data :
  message_accepted req ->
  ids_fit req = true ->
  no_fault faults ->
  py_service env (simulate_payload req)
    = Some (mkFetchResponse true code (Some data)) ->
  fst (fst (run (message_handler req) env faults db))
  = inr (res_json (JObj [("ok", JBool true); ("data", data)])).
Proof.
  intros Hacc Hfit Hnf Hpy.
  rewrite (run_no_fault _ _ _ _ _ Hnf). unfold simulate_payload in Hpy.
  destruct (run (message_handler req) env [] db) as [[out db'] log] eqn:Hrun.
  message_head Hrun Hacc Hfit.
  all: step_in Hrun; rewrite step_fetch, Hpy in Hrun; cbn in Hrun.
  all: step_in Hrun; inversion Hrun; reflexivity.
Qed.

(** The same when the columns take the text of the message, the reply
    and the [meta]: the transcript gains the user turn and then the
    assistant turn, and nothing else changes but the user and the session
    of the request. *)
Lemma message_served req env faults db code data :
  message_accepted req ->
  ids_fit req = true ->
  content_ok (JStr (trim_of (field req "message"))) = true ->
  no_fault faults ->
  py_service env (simulate_payload req)
    = Some (mkFetchResponse true code (Some data)) ->
  content_ok (assistant_reply data) = true ->
  jsonb_ok (assistant_meta data) = true ->
  let r := run (message_handler req) env faults db in
  fst (fst r) = inr (res_json (JObj [("ok", JBool true); ("data", data)]))
  /\ snd (fst r)
     = with_chat_messages (session_ensured req db)
         (chat_messages db
          ++ [user_turn req (user_of req db);
              assistant_turn req (user_of req db) data])%list.
Proof.
  intros Hacc Hfit Htext Hnf Hpy Hreply Hmeta r. subst r.
  rewrite (run_no_fault _ _ _ _ _ Hnf).
  unfold simulate_payload, user_turn, assistant_turn, assistant_reply,
    assistant_meta in *.
  destruct (run (message_handler req) env [] db) as [[out db'] log] eqn:Hrun.
  message_head Hrun Hacc Hfit.
  all: do 2 sure_step_in Hrun; rewrite Hpy in Hrun; cbn in Hrun.
  all: sure_step_in Hrun; inversion Hrun; subst; cbn.
  all: split; [reflexivity|].
  all: rewrite ?(proj1 (proj2 (proj2 (upsert_keeps _ _ _)))), <- ?app_assoc.
  all: reflexivity.
Qed.

(** An accepted message, no statement lost, the service failing (the
    [fetch] rejects, the status is not a 2xx, or the body is not JSON): the
    answer is 500 and the transcript gains the user turn alone. *)
Lemma message_unserved req env faults db :
  message_accepted req ->
  ids_fit req = true ->
  content_ok (JStr (trim_of (field req "message"))) = true ->
  no_fault faults ->
  match py_service env (simulate_payload req) with
  | None => True
  | Some res => ok res = false \/ json res = None
  end ->
  let r := run (message_handler req) env faults db in
  status_of (fst (fst r)) = 500
  /\ snd (fst r)
     = with_chat_messages (session_ensured req db)
         (chat_messages db ++ [user_turn req (user_of req db)])%list.
Proof.
  intros Hacc Hfit Htext Hnf Hpy r. subst r.
  rewrite (run_no_fault _ _ _ _ _ Hnf).
  unfold simulate_payload, user_turn in *.
  destruct (run (message_handler req) env [] db) as [[out db'] log] eqn:Hrun.
  message_head Hrun Hacc Hfit.
  all: do 2 sure_step_in Hrun.
  all: destruct (py_service env _) as [[o c j]|] in Hrun, Hpy; cbn in Hrun, Hpy;
      try (destruct Hpy as [Hpy | Hpy]; subst; cbn in Hrun;
           try (destruct o; cbn in Hrun));
      inversion Hrun; subst; cbn; (split; [reflexivity|]);
      rewrite ?(proj1 (proj2 (proj2 (upsert_keeps _ _ _)))); reflexivity.
Qed.

End MessageRuns.

Section MessageClaims.
Context `{Platform}.

(** C7, as amended.  For a message that passes the guard, whose ids and
    text fit their columns, with no statement lost: when the Python
    service answers with a JSON body whose reply and [meta] the columns
    take, the handler returns that body as [{ok: true, data}] and the
    transcript gains two turns, the user turn then the assistant turn;
    when the call to the service fails, the handler answers 500 and the
    transcript gains the user turn alone. *)
Theorem message_turns req env faults db :
  message_accepted req ->
  ids_fit req = true ->
  content_ok (JStr (trim_of (field req "message"))) = true ->
  no_fault faults ->
  let r := run (message_handler req) env faults db in
  let uid := user_of req db in
  match py_service env (simulate_payload req) with
  | Some (mkFetchResponse true _ (Some data)) =>
      content_ok (assistant_reply data) = true ->
      jsonb_ok (assistant_meta data) = true ->
      fst (fst r) = inr (res_json (JObj [("ok", JBool true); ("data", data)]))
      /\ chat_messages (snd (fst r))
         = (chat_messages db
            ++ [user_turn req uid; assistant_turn req uid data])%list
  | _ =>
      status_of (fst (fst r)) = 500
      /\ chat_messages (snd (fst r))
         = (chat_messages db ++ [user_turn req uid])%list
  end.
Proof.
  intros Hacc Hfit Htext Hnf r uid. subst r uid.
  assert (Hun : match py_service env (simulate_payload req) with
                | None => True
                | Some res => ok res = false \/ json res = None
                end ->
                status_of (fst (fst (run (message_handler req) env faults db)))
                = 500
                /\ chat_messages (snd (fst (run (message_handler req) env
                                              faults db)))
                   = (chat_messages db ++ [user_turn req (user_of req db)])%list).
  { intros Hpy.
    destruct (message_unserved req env faults db Hacc Hfit Htext Hnf Hpy)
      as [Hout Hdb].
    split; [exact Hout | rewrite Hdb; reflexivity]. }
  destruct (py_service env (simulate_payload req)) as [[[|] c [data|]]|] eqn:Hpy.
  - intros Hreply Hmeta.
    destruct (message_served req env faults db c data Hacc Hfit Htext Hnf Hpy
                Hreply Hmeta) as [Hout Hdb].
    split; [exact Hout | rewrite Hdb; reflexivity].
  - apply Hun. right. reflexivity.
  - apply Hun. left. reflexivity.
  - apply Hun. left. reflexivity.
  - apply Hun. exact I.
Qed.

(** C9.  With the extractor of the Python service as the specification
    describes it behind [/simulate]: when the generative backend fails,
    whatever the failure and whichever strategy was asked for, a message
    that passes the guard (its ids fitting their columns, no statement
    lost) is answered 200 with the result of the deterministic strategy,
    tagged as the fallback; no error reaches the caller. *)
Theorem backend_failure_falls_back
    (deterministic : string -> Extractor.ExtractionResult)
    (use_generative : bool) (backend : Extractor.Backend)
    (clock pg_clock : Z) req faults db :
  message_accepted req ->
  ids_fit req = true ->
  no_fault faults ->
  Extractor.backend_failed backend = true ->
  let env := mkEnv clock pg_clock
               (Extractor.simulate deterministic use_generative backend) in
  let r := run (message_handler req) env faults db in
  fst (fst r)
  = inr (res_json (JObj
      [("ok", JBool true);
       ("data",
        Extractor.to_json
          (deterministic (trim (trim_of (field req "message"))),
           Extractor.fallback))]))
  /\ status_of (fst (fst r)) = 200.
Proof.
  intros Hacc Hfit Hnf Hfail env r.
  assert (Hpy : py_service env (simulate_payload req)
                = Some (mkFetchResponse true 200
                    (Some (Extractor.to_json
                       (deterministic (trim (trim_of (field req "message"))),
                        Extractor.fallback))))).
  { subst env. cbn. unfold Extractor.simulate, Extractor.extract. cbn.
    destruct use_generative; [|reflexivity].
    destruct backend; [discriminate Hfail | reflexivity..]. }
  pose proof (message_answered req env faults db _ _ Hacc Hfit Hnf Hpy) as Hout.
  subst r. rewrite Hout. split; reflexivity.
Qed.

End MessageClaims.

(* ================================================================== *)
(** ** Declines *)
(* ================================================================== *)

Section StepsOnIds.
Context `{Platform}.

(** What an upsert does: when it fails the rows are as they were, when
    it succeeds they are those of the upsert of the stored texts. *)
Lemma step_upsert (e n : string) (env : Env) (faults : list bool) (db : DB)
    r db1 faults1 :
  exec_faulty (UpsertUser e n) env faults db = (r, db1, faults1) ->
  (failed r = true /\ users db1 = users db)
  \/ exists e' n', varchar 255 e = inr e' /\ varchar 255 n = inr n'
                   /\ r = inr (fst (upsert_user_row e' n' db))
                   /\ db1 = snd (upsert_user_row e' n' db).
Proof.
  intros Hstep.
  destruct (exec_faulty_cases _ (UpsertUser e n) env faults db)
    as [[f Heq] | [f Heq]];
    rewrite Heq in Hstep; [|inversion Hstep; subst; left; split; reflexivity].
  unfold exec in Hstep.
  destruct (has_nul e || has_nul n);
    [inversion Hstep; subst; left; split; reflexivity|].
  destruct (varchar 255 e) as [err | e'];
    [inversion Hstep; subst; left; split; reflexivity|].
  destruct (varchar 255 n) as [err | n'];
    [inversion Hstep; subst; left; split; reflexivity|].
  inversion Hstep; subst. right. exists e', n'. auto.
Qed.

Lemma demo_name_stored (n' : string) :
  varchar 255 "Demo User" = inr n' -> n' = "Demo User".
Proof. intros Hn. vm_compute in Hn. inversion Hn. reflexivity. Qed.

(** A truthy token has a text. *)
Lemma truthy_text (v : JsVal) :
  truthy v = true -> exists s, pg_text v = Some s.
Proof. destruct v; cbn; intros Hv; try discriminate; eexists; reflexivity. Qed.

Lemma token_of_stored (req : Request) (tok : string) :
  session_text (field req "session_id") = inr (Some tok) -> token_of req = tok.
Proof. intros Hs. unfold token_of. rewrite Hs. reflexivity. Qed.

Lemma truthy_session_text (v : JsVal) (tok : option string) :
  truthy v = true -> session_text v = inr tok -> exists s, tok = Some s.
Proof.
  intros Hv Hs. destruct (truthy_text v Hv) as [s Hp].
  unfold session_text in Hs. rewrite Hp in Hs.
  destruct (varchar 255 s) as [e | s']; inversion Hs. eexists. reflexivity.
Qed.

End StepsOnIds.

(** Collect what each performed step did to the four tables. *)
Ltac note_all_steps :=
  repeat match goal with
  | E : exec_faulty ?ev ?env ?f ?db = (?r, ?d, ?fs) |- _ =>
      first [ pose proof (step_appointments _ _ _ _ _ _ _ _ E eq_refl)
            | pose proof (step_insert_appointment _ _ _ _ _ _ _ _ E)
            | pose proof (step_insert_appointment_failed _ _ _ _ _ _ _ _ E)
            | idtac ];
      first [ pose proof (step_messages _ _ _ _ _ _ _ _ E eq_refl)
            | pose proof (step_insert_message _ _ _ _ _ _ _ _ _ _ _ E)
            | idtac ];
      first [ pose proof (step_users _ _ _ _ _ _ _ _ E eq_refl)
            | pose proof (step_upsert _ _ _ _ _ _ _ _ E)
            | idtac ];
      first [ pose proof (step_sessions _ _ _ _ _ _ _ _ E eq_refl)
            | pose proof (step_insert_session _ _ _ _ _ _ _ _ E)
            | idtac ];
      change (noted (exec_faulty ev env f db = (r, d, fs))) in E
  end;
  repeat match goal with
  | Hc : _ /\ _ |- _ => destruct Hc
  | Hc : exists _, _ |- _ => destruct Hc
  | Hc : _ \/ _ |- _ => destruct Hc
  end.

Section Decline.
Context `{Platform}.

Lemma declined_meta_ok (v : JsVal) :
  jsonb_ok v = true ->
  jsonb_ok (JObj [("action", JStr "declined"); ("proposed_time", v)]) = true.
Proof.
  intros Hv. cbv beta iota delta [jsonb_ok]. fold jsonb_ok. rewrite Hv.
  reflexivity.
Qed.

(** What a decline does to the tables, whichever statements are lost. *)
Lemma decline_frame req env faults db time :
  truthy (field req "session_id") = true ->
  truthy (field req "scheduled_at") = true ->
  Date_of (field req "scheduled_at") = Some time ->
  now env < time ->
  truthy (field req "confirm") = false ->
  let r := run (confirm_handler req) env faults db in
  appointments (snd (fst r)) = appointments db
  /\ appointments_id_seq (snd (fst r)) = appointments_id_seq db
  /\ existsb (fun e => on_appointments (fst e)) (snd r) = false
  /\ (chat_messages (snd (fst r)) = chat_messages db
      \/ exists uid, chat_messages (snd (fst r))
                     = (chat_messages db ++ [declined_turn req uid])%list)
  /\ (users (snd (fst r)) = users db
      \/ exists e, varchar 255 (email_of req) = inr e
                   /\ users (snd (fst r))
                      = users (snd (upsert_user_row e "Demo User" db)))
  /\ (chat_sessions (snd (fst r)) = chat_sessions db
      \/ exists id uid, chat_sessions (snd (fst r))
                        = (chat_sessions db
                           ++ [mkChatSession id uid (Some (token_of req))])%list).
Proof.
  intros Hs Ha Hd Hn Hc r. subst r.
  pose proof (Date_of_no_throw _ _ Hd) as Hthrow.
  pose proof (token_of_stored req) as Htoken.
  pose proof (fun tok => truthy_session_text (field req "session_id") tok Hs)
    as Hsome.
  unfold email_of, declined_turn, field in *.
  apply Z.leb_gt in Hn.
  destruct (run (confirm_handler req) env faults db) as [[out db'] log] eqn:Hrun.
  open_handler Hrun.
  rewrite ?Hs, ?Ha, ?Hthrow, ?Hd, ?Hc in Hrun. cbn in Hrun.
  rewrite step_now in Hrun. cbn in Hrun. rewrite ?Hn in Hrun.
  run_in Hrun; note_all_steps; inversion Hrun; subst; cbn;
    try match goal with
        | Hf : failed (inr _) = true |- _ => discriminate Hf
        | Hf : inl _ = inr _ |- _ => discriminate Hf
        end;
    repeat match goal with
           | E : varchar 255 "Demo User" = inr _ |- _ =>
               apply demo_name_stored in E; subst
           | E : session_text _ = inr (Some _) |- _ =>
               apply Htoken in E
           | E : session_text _ = inr ?t |- _ =>
               let s := fresh "s" in
               let Es := fresh "Es" in
               destruct (Hsome _ E) as [s Es]; subst t
           end;
    repeat match goal with
           | E : token_of _ = ?x |- _ => is_var x; subst x
           end.
  all: split; [congruence | split; [congruence | split; [reflexivity|]]].
  all: split;
    [first [ left; congruence
           | match goal with
             | E : chat_messages _ = (_ ++ [mkChatMessage ?u _ _ _ _])%list |- _ =>
                 right; exists u; congruence
             end ]|].
  all: split;
    [first [ left; congruence
           | match goal with
             | E : varchar 255 _ = inr ?e0 |- _ =>
                 right; exists e0; split; [exact E | congruence]
             end ]|].
  all: first [ left; congruence
             | match goal with
               | E : chat_sessions _ = (_ ++ [mkChatSession ?i ?u _])%list |- _ =>
                   right; exists i, u; congruence
               end ].
Qed.

(** A decline whose ids and proposed time fit their columns, none of its
    statements lost: it is answered [declined], the user and the session
    are there, and the transcript has gained the one turn that records
    it. *)
Lemma decline_no_fault req env faults db time :
  truthy (field req "session_id") = true ->
  truthy (field req "scheduled_at") = true ->
  Date_of (field req "scheduled_at") = Some time ->
  now env < time ->
  truthy (field req "confirm") = false ->
  ids_fit req = true ->
  jsonb_ok (field req "scheduled_at") = true ->
  no_fault faults ->
  let r := run (confirm_handler req) env faults db in
  fst (fst r) = inr declined_response
  /\ snd (fst r)
     = with_chat_messages (session_ensured req db)
         (chat_messages db ++ [declined_turn req (user_of req db)])%list.
Proof.
  intros Hs Ha Hd Hn Hc Hfit Hjson Hnf r. subst r.
  pose proof (declined_meta_ok _ Hjson) as Hmeta.
  rewrite (run_no_fault _ _ _ _ _ Hnf).
  destruct (run (confirm_handler req) env [] db) as [[out db'] log] eqn:Hrun.
  unfold session_ensured, user_of, declined_turn.
  past_guards Hrun Hs Ha Hd Hn Hfit. rewrite ?Hc, ?Hs, ?Htok in *.
  destruct (map session_id _) as [|sid sids] eqn:Hfound in Hrun;
    [ rewrite (map_filter_nil _ _ _ _ _ Hfound)
    | rewrite (map_filter_cons _ _ _ _ _ _ _ Hfound) ];
    repeat sure_step_in Hrun; inversion Hrun; subst; cbn;
    (split; [reflexivity|]);
    rewrite ?(proj1 (proj2 (proj2 (upsert_keeps _ _ _)))); reflexivity.
Qed.

(** C10, as amended.  A decline that passes the guards sends no statement
    to the [appointments] table and leaves it, rows and counter, as it
    was.  Whichever statements are lost, [chat_messages] is as it was or
    has gained the one assistant turn that records the declined proposal;
    [users] is as it was or as the upsert of the demo user leaves it;
    [chat_sessions] is as it was or has gained one row, for the token of
    the request.  When the ids and the proposed time fit their columns
    and no statement is lost, the answer is [declined] and the datastore
    is the one the upsert and the session lookup leave, with that turn
    appended. *)
Theorem decline_leaves_appointments req env faults db time :
  truthy (field req "session_id") = true ->
  truthy (field req "scheduled_at") = true ->
  Date_of (field req "scheduled_at") = Some time ->
  now env < time ->
  truthy (field req "confirm") = false ->
  let r := run (confirm_handler req) env faults db in
  existsb (fun e => on_appointments (fst e)) (snd r) = false
  /\ appointments (snd (fst r)) = appointments db
  /\ appointments_id_seq (snd (fst r)) = appointments_id_seq db
  /\ (chat_messages (snd (fst r)) = chat_messages db
      \/ exists uid, chat_messages (snd (fst r))
                     = (chat_messages db ++ [declined_turn req uid])%list)
  /\ (users (snd (fst r)) = users db
      \/ exists e, varchar 255 (email_of req) = inr e
                   /\ users (snd (fst r))
                      = users (snd (upsert_user_row e "Demo User" db)))
  /\ (chat_sessions (snd (fst r)) = chat_sessions db
      \/ exists id uid, chat_sessions (snd (fst r))
                        = (chat_sessions db
                           ++ [mkChatSession id uid (Some (token_of req))])%list)
  /\ (ids_fit req = true ->
      jsonb_ok (field req "scheduled_at") = true ->
      no_fault faults ->
      fst (fst r) = inr declined_response
      /\ snd (fst r)
         = with_chat_messages (session_ensured req db)
             (chat_messages db ++ [declined_turn req (user_of req db)])%list).
Proof.
  intros Hs Ha Hd Hn Hc r.
  destruct (decline_frame req env faults db time Hs Ha Hd Hn Hc)
    as [Happ [Hseq [Hlog [Hmsg [Husers Hsessions]]]]].
  subst r. repeat (split; [assumption|]). intros Hfit Hjson Hnf.
  exact (decline_no_fault req env faults db time Hs Ha Hd Hn Hc Hfit Hjson Hnf).
Qed.

End Decline.

(* ================================================================== *)
(** ** The client's view of the negotiation *)
(* ================================================================== *)

Module ClientFacts.
Import Client.

Lemma write_last (h : Heap) (a x : list Message) :
  write (List.length h) x (h ++ [a])%list = (h ++ [x])%list.
Proof. induction h as [|y h IH]; cbn; [reflexivity | now rewrite IH]. Qed.

Lemma read_new (h : Heap) (a : list Message) :
  read (List.length h) (h ++ [a])%list = a.
Proof.
  unfold read. rewrite app_nth2 by apply Nat.le_refl.
  rewrite Nat.sub_diag. reflexivity.
Qed.

(** Allocating the reversed copy of an array leaves the array as it is. *)
Lemma read_after_copy (r : nat) (h : Heap) :
  read r (h ++ [rev (read r h)])%list = read r h.
Proof.
  unfold read. destruct (Nat.lt_ge_cases r (List.length h)) as [Hlt | Hge].
  - apply app_nth1. exact Hlt.
  - rewrite (nth_overflow h [] Hge). rewrite app_nth2 by exact Hge.
    destruct (r - List.length h)%nat as [|[|n]]; reflexivity.
Qed.

(** The scan is a search from the end of the array, on a copy. *)
Lemma latestProposal_eq (r : nat) (h : Heap) :
  latestProposal r h
  = (List.find is_proposal (rev (read r h)), (h ++ [rev (read r h)])%list).
Proof.
  unfold latestProposal, spread, reverse, alloc, find. cbn.
  rewrite read_new, write_last, read_new. reflexivity.
Qed.






Lemma lastMessage_snoc (l : list Message) (m : Message) :
  lastMessage (l ++ [m])%list = Some m.
Proof. unfold lastMessage. rewrite rev_app_distr. reflexivity. Qed.

(** When the bar is on screen, the last message is the proposal the scan
    finds. *)
Lemma bar_shows_last (l : list Message) :
  showConfirmationBar l = true ->
  exists m, lastMessage l = Some m
            /\ List.find is_proposal (rev l) = Some m
            /\ truthy (prop (msg_meta m) "needs_confirmation") = true.
Proof.
  unfold showConfirmationBar, lastMessage.
  destruct (rev l) as [|m rest] eqn:Hrev; [discriminate|].
  intros Hbar. apply andb_true_iff in Hbar. destruct Hbar as [Hbar Hcand].
  apply andb_true_iff in Hbar. destruct Hbar as [Hrole Hneeds].
  exists m. split; [reflexivity|]. split; [|exact Hneeds].
  cbn. unfold is_proposal. rewrite Hrole, Hcand. reflexivity.
Qed.

(** A message without a candidate, put at the end, hides the bar and is
    skipped by the scan. *)
Lemma no_candidate_appended (l : list Message) (m : Message) :
  truthy (prop (msg_meta m) "appointment_candidate") = false ->
  showConfirmationBar (l ++ [m])%list = false
  /\ List.find is_proposal (rev (l ++ [m])%list) = List.find is_proposal (rev l).
Proof.
  intros Hm. split.
  - unfold showConfirmationBar. rewrite lastMessage_snoc, Hm.
    apply andb_false_r.
  - rewrite rev_app_distr. cbn. unfold is_proposal at 1. rewrite Hm.
    rewrite andb_false_r. reflexivity.
Qed.

Lemma current_append (m : Message) (st : State) :
  current (append_message m st) = (current st ++ [m])%list.
Proof. unfold append_message, current, alloc. cbn. apply read_new. Qed.

End ClientFacts.

Section Proposals.
Context `{Platform}.
Import ClientFacts.




End Proposals.

Section Declined.
Context `{Platform}.
Import ClientFacts.

(** The transcript of the session gains a turn appended under its
    token. *)
Lemma transcript_appended (db db' : DB) (m : ChatMessage) :
  chat_messages db' = (chat_messages db ++ [m])%list ->
  transcript db' (message_user_id m) (message_session_token m)
  = (transcript db (message_user_id m) (message_session_token m) ++ [m])%list.
Proof.
  intros Hm. unfold transcript. rewrite Hm, filter_app. cbn.
  rewrite Z.eqb_refl, String.eqb_refl. reflexivity.
Qed.

(** Appending to the state the scan has left behind. *)
Lemma after_scan_append (st : Client.State) (m : Client.Message) :
  Client.current
    (Client.append_message m
       (Client.mkState (Client.heap st ++ [rev (Client.current st)])%list
          (Client.messages st) (Client.token st) (Client.sessionId st)))
  = (Client.current st ++ [m])%list.
Proof.
  rewrite current_append. f_equal. unfold Client.current. cbn.
  apply read_after_copy.
Qed.

Lemma decline_shown_plain (r : Client.Reply) :
  truthy (prop (Client.msg_meta (Client.decline_shown r))
            "appointment_candidate") = false.
Proof.
  destruct r as [|status data]; [reflexivity|]. unfold Client.decline_shown.
  destruct (negb (Client.reply_ok status)); reflexivity.
Qed.

Lemma declineAppointment_shape (backend : JsVal -> Client.Reply)
    (st : Client.State) (p : Client.Message) :
  Client.token st <> "" ->
  List.find Client.is_proposal (rev (Client.current st)) = Some p ->
  Client.declineAppointment backend st
  = Client.append_message
      (Client.decline_shown
         (backend (Client.confirm_body st (candidate_of p) false)))
      (Client.mkState (Client.heap st ++ [rev (Client.current st)])%list
         (Client.messages st) (Client.token st) (Client.sessionId st)).
Proof.
  intros Htok Hfind. unfold Client.declineAppointment.
  destruct (String.eqb (Client.token st) "") eqn:Et;
    [apply String.eqb_eq in Et; contradiction|].
  rewrite latestProposal_eq. fold (Client.current st). rewrite Hfind.
  reflexivity.
Qed.

(** Once the bar is off, it comes back only with a later message, and
    that message is then the proposal the scan finds. *)
Lemma bar_back_on (l later : list Client.Message) :
  Client.showConfirmationBar l = false ->
  Client.showConfirmationBar (l ++ later) = true ->
  exists m, In m later
            /\ Client.lastMessage (l ++ later) = Some m
            /\ List.find Client.is_proposal (rev (l ++ later)) = Some m.
Proof.
  intros Hoff Hon.
  destruct (bar_shows_last _ Hon) as [m [Hlast [Hfind _]]].
  exists m. split; [|split; assumption].
  destruct later as [|x later] using rev_ind.
  - rewrite app_nil_r in Hon. congruence.
  - rewrite app_assoc, lastMessage_snoc in Hlast. inversion Hlast; subst.
    apply in_or_app. right. left. reflexivity.
Qed.

(** C6, as amended.  A decline whose turn is stored ends the Proposed
    state.  On the client, when the bar is on screen and a token is held,
    the Decline button puts one message without a candidate at the end of
    the array, whatever the backend answers: the bar goes off, so neither
    button acts any more, and when the bar comes back it is with a later
    message, which is then the proposal found.  On the server, a decline
    that passes the guards, its ids and proposed time fitting their
    columns and no statement lost, is answered [declined] and adds to the
    transcript of the session one assistant turn without a candidate:
    reloaded, the transcript shows no bar, and the bar comes back only
    with a later turn. *)
Theorem decline_returns_to_idle :
  (forall (backend : JsVal -> Client.Reply) (st : Client.State),
      Client.token st <> "" ->
      Client.showConfirmationBar (Client.current st) = true ->
      let st' := Client.click_decline backend st in
      (exists m, Client.current st' = (Client.current st ++ [m])%list)
      /\ Client.showConfirmationBar (Client.current st') = false
      /\ (forall backend', Client.click_confirm backend' st' = st'
                           /\ Client.click_decline backend' st' = st')
      /\ (forall later,
            Client.showConfirmationBar (Client.current st' ++ later) = true ->
            exists m, In m later
                      /\ List.find Client.is_proposal
                           (rev (Client.current st' ++ later)) = Some m))
  /\ (forall req env faults db time,
        truthy (field req "session_id") = true ->
        truthy (field req "scheduled_at") = true ->
        Date_of (field req "scheduled_at") = Some time ->
        now env < time ->
        truthy (field req "confirm") = false ->
        ids_fit req = true ->
        jsonb_ok (field req "scheduled_at") = true ->
        no_fault faults ->
        let r := run (confirm_handler req) env faults db in
        let uid := user_of req db in
        let before :=
          map Client.format_message (transcript db uid (token_of req)) in
        let after :=
          map Client.format_message
            (transcript (snd (fst r)) uid (token_of req)) in
        fst (fst r) = inr declined_response
        /\ after = (before ++ [Client.format_message (declined_turn req uid)])%list
        /\ Client.showConfirmationBar after = false
        /\ (forall later,
              Client.showConfirmationBar (after ++ later) = true ->
              exists m, In m later
                        /\ List.find Client.is_proposal (rev (after ++ later))
                           = Some m)).
Proof.
  split.
  - intros backend st Htok Hbar st'. subst st'.
    destruct (bar_shows_last _ Hbar) as [p [Hlast [Hfind _]]].
    assert (Hst : Client.click_decline backend st
                  = Client.append_message
                      (Client.decline_shown
                         (backend (Client.confirm_body st (candidate_of p) false)))
                      (Client.mkState
                         (Client.heap st ++ [rev (Client.current st)])%list
                         (Client.messages st) (Client.token st)
                         (Client.sessionId st))).
    { unfold Client.click_decline. rewrite Hbar.
      exact (declineAppointment_shape backend st p Htok Hfind). }
    rewrite Hst. clear Hst. rewrite after_scan_append.
    destruct (no_candidate_appended (Client.current st) _
                (decline_shown_plain
                   (backend (Client.confirm_body st (candidate_of p) false))))
      as [Hoff _].
    split; [eexists; reflexivity|]. split; [exact Hoff|]. split.
    + intros backend'. unfold Client.click_confirm, Client.click_decline.
      rewrite after_scan_append, Hoff. split; reflexivity.
    + intros later Hon. destruct (bar_back_on _ _ Hoff Hon) as [m [Hin [_ Hf]]].
      exists m. split; assumption.
  - intros req env faults db time Hs Ha Hd Hn Hc Hfit Hjson Hnf r uid
      before after. subst r uid before after.
    destruct (decline_no_fault req env faults db time Hs Ha Hd Hn Hc Hfit
                Hjson Hnf) as [Hout Hdb].
    split; [exact Hout|]. rewrite Hdb.
    assert (Hmsgs : chat_messages
                      (with_chat_messages (session_ensured req db)
                         (chat_messages db
                          ++ [declined_turn req (user_of req db)])%list)
                    = (chat_messages db
                       ++ [declined_turn req (user_of req db)])%list)
      by reflexivity.
    pose proof (transcript_appended db _ _ Hmsgs) as Ht.
    cbn [message_user_id message_session_token declined_turn] in Ht.
    rewrite Ht, map_app. cbn [map].
    destruct (no_candidate_appended
                (map Client.format_message
                   (transcript db (user_of req db) (token_of req)))
                (Client.format_message (declined_turn req (user_of req db)))
                eq_refl) as [Hoff _].
    split; [reflexivity|]. split; [exact Hoff|].
    intros later Hon. destruct (bar_back_on _ _ Hoff Hon) as [m [Hin [_ Hf]]].
    exists m. split; assumption.
Qed.

End Declined.

(* ================================================================== *)
(** ** A timestamp that is not a string *)
(* ================================================================== *)

Section NumericTimestamp.
Context `{Platform}.

(** C4, where the code departs from it.  A confirmation whose
    [scheduled_at] is the JSON number 4102444800000 is no ISO 8601 string,
    yet [new Date] takes it for a valid date: while that date is in the
    future, the request passes the three guards on every platform, is not
    answered 400 and reaches the datastore; and where PostgreSQL refuses
    the number as a [TIMESTAMP] (no statement being lost) the answer is
    the 500 of the generic [catch]. *)
Theorem numeric_timestamp_passes_the_guards env faults db :
  now env < 4102444800000 ->
  let r := run (confirm_handler Sample.numeric_request) env faults db in
  status_of (fst (fst r)) <> 400
  /\ calls upsert_user (snd r) = true
  /\ (pg_timestamp (JNum 4102444800000) = None ->
      no_fault faults ->
      fst (fst r) = inr server_error_response).
Proof.
  intros Hn r.
  destruct (confirm_past_guards Sample.numeric_request env faults db
              4102444800000 eq_refl eq_refl eq_refl Hn) as [H400 Hcalls].
  subst r. split; [exact H400|]. split; [exact Hcalls|].
  intros Hpg Hnf. apply Z.leb_gt in Hn. rewrite (run_no_fault _ _ _ _ _ Hnf).
  destruct (run (confirm_handler Sample.numeric_request) env [] db)
    as [[out db'] log] eqn:Hrun.
  assert (Hemail : fits 255 "user_1@demo.local" = true) by reflexivity.
  assert (Hp : pg_text (JStr "s1") = Some "s1") by reflexivity.
  assert (Hnul : has_nul "s1" = false) by reflexivity.
  assert (Hsess : session_text (JStr "s1") = inr (Some "s1")) by reflexivity.
  open_handler Hrun. cbn in Hrun. rewrite step_now in Hrun. cbn in Hrun.
  rewrite Hn in Hrun. do 2 sure_step_in Hrun.
  destruct (map session_id _) as [|sid sids] in Hrun;
    repeat sure_step_in Hrun; inversion Hrun; reflexivity.
Qed.

End NumericTimestamp.

(* ================================================================== *)
(** ** Scenarios on the concrete platform *)
(* ================================================================== *)

Section Reach.
Context `{Platform}.

Lemma reachable_interleave (schedule : list nat) (pool : list Thread) (db : DB) :
  reachable (pool, db) -> reachable (interleave schedule pool db).
Proof.
  revert pool db. induction schedule as [|i schedule IH]; intros pool db Hr;
    [exact Hr|].
  cbn. pose proof (reach_step pool db i Hr) as Hstep.
  destruct (step_at i pool db) as [pool' db']. exact (IH pool' db' Hstep).
Qed.

End Reach.

Section Scenarios.
Import Sample.
#[local] Existing Instance Sample.platform.

(** Two sessions confirming the same slot one after the other: the second
    is told of the conflict. *)
Example serial_confirmations :
  let '(pool, db) := interleave serial_schedule race_pool schema_db in
  map answer (tl pool) = [Some conflict_response]
  /\ confirmed_times db = [1759831200000].
Proof. vm_compute. split; reflexivity. Qed.

(** C2, where the code departs from it.  Two sessions confirm the same
    slot and both conflict checks run before either insert: one request is
    answered 200 confirmed and the slot is confirmed once, but the other,
    stopped by the unique index, is answered with the 500 server error of
    the generic [catch], not with the 409 conflict response. *)
Theorem race_loser_gets_server_error :
  let '(pool, db) := interleave race_schedule race_pool schema_db in
  map (fun th => option_map res_status (answer th)) pool = [Some 200; Some 500]
  /\ map answer (tl pool) = [Some server_error_response]
  /\ map answer (tl pool) <> [Some conflict_response]
  /\ confirmed_times db = [1759831200000].
Proof.
  vm_compute. repeat split; try reflexivity. discriminate.
Qed.

(** C1, on a run: the state the race leaves is reachable, and its one
    confirmed slot is distinct. *)
Lemma confirmed_slots_stay_distinct_witness :
  reachable (interleave race_schedule race_pool schema_db)
  /\ confirmed_distinct (snd (interleave race_schedule race_pool schema_db))
  /\ confirmed_distinct
       (snd (fst (run (confirm_handler (confirm_request "user_1" "s1" slot true))
                    unreachable [] schema_db))).
Proof.
  assert (Hr : reachable (interleave race_schedule race_pool schema_db)).
  { apply reachable_interleave.
    apply (reach_confirm [_] schema_db). apply (reach_confirm [] schema_db).
    apply reach_start. }
  split; [exact Hr|]. split.
  - apply (proj1 confirmed_slots_stay_distinct
             (fst (interleave race_schedule race_pool schema_db))).
    rewrite <- surjective_pairing. exact Hr.
  - apply (proj2 (proj2 confirmed_slots_stay_distinct)).
    apply schema_db_distinct.
Defined.

(** C3 as stated fails: the collision is found by a query sent ahead of
    the insert, and no insert is attempted. *)
Lemma collision_is_found_by_a_query :
  let r := run (confirm_handler (confirm_request "user_2" "s2" slot true))
             unreachable [] db_taken in
  status_of (fst (fst r)) = 409
  /\ calls select_conflict (snd r) = true
  /\ calls insert_appointment (snd r) = false.
Proof. vm_compute. repeat split; reflexivity. Qed.

Lemma conflict_found_by_precheck_witness :
  let req := confirm_request "user_2" "s2" slot true in
  let r := run (confirm_handler req) unreachable [] db_taken in
  (truthy (field req "session_id") = true
   /\ truthy (field req "scheduled_at") = true
   /\ Date_of (field req "scheduled_at") = Some 1759831200000
   /\ now unreachable < 1759831200000
   /\ truthy (field req "confirm") = true
   /\ ids_fit req = true
   /\ no_fault []
   /\ pg_timestamp (field req "scheduled_at") = Some 1759831200000
   /\ existsb (confirmed_at 1759831200000) (appointments db_taken) = true)
  /\ fst (fst r) = inr conflict_response
  /\ appointments (snd (fst r)) = appointments db_taken.
Proof.
  intros req r.
  assert (Hs : truthy (field req "session_id") = true) by reflexivity.
  assert (Ha : truthy (field req "scheduled_at") = true) by reflexivity.
  assert (Hd : Date_of (field req "scheduled_at") = Some 1759831200000)
    by reflexivity.
  assert (Hn : now unreachable < 1759831200000) by reflexivity.
  assert (Hc : truthy (field req "confirm") = true) by reflexivity.
  assert (Hi : ids_fit req = true) by reflexivity.
  assert (Hf : no_fault []) by reflexivity.
  assert (Hp : pg_timestamp (field req "scheduled_at") = Some 1759831200000)
    by reflexivity.
  assert (Ht : existsb (confirmed_at 1759831200000) (appointments db_taken)
               = true) by reflexivity.
  split; [repeat split; assumption|].
  destruct (conflict_found_by_precheck req unreachable [] db_taken
              1759831200000 1759831200000 Hs Ha Hd Hn Hc Hi Hf Hp Ht)
    as [Hout [_ [_ [_ [_ Happ]]]]].
  split; [exact Hout | exact Happ].
Defined.

Lemma numeric_timestamp_passes_the_guards_witness :
  let r := run (confirm_handler numeric_request) unreachable [] schema_db in
  (now unreachable < 4102444800000
   /\ pg_timestamp (JNum 4102444800000) = None
   /\ no_fault [])
  /\ status_of (fst (fst r)) <> 400
  /\ fst (fst r) = inr server_error_response.
Proof.
  intros r.
  assert (Hn : now unreachable < 4102444800000) by reflexivity.
  assert (Hp : pg_timestamp (JNum 4102444800000) = None) by reflexivity.
  assert (Hf : no_fault []) by reflexivity.
  split; [repeat split; assumption|].
  destruct (numeric_timestamp_passes_the_guards unreachable [] schema_db Hn)
    as [H400 [_ H500]].
  split; [exact H400 | exact (H500 Hp Hf)].
Defined.


(** C6 as stated fails.  The session is offered the slot and declines it;
    the append of the declined turn is lost, which [logMessage] swallows:
    the decline is answered [declined] all the same and the bar goes off.
    When the history is loaded again, the transcript ends with the
    proposal, the bar is back on screen and the scan finds the slot that
    was declined. *)
Lemma lost_decline_comes_back :
  let lost := run (confirm_handler (confirm_request "user_1" "s1" slot false))
                unreachable [false; false; true] db_proposed in
  let st' := Client.click_decline
               (Wire.confirm_answer (Some "user_1") unreachable
                  [false; false; true] db_proposed) offered in
  let st'' := Chat.loadConversationHistory
                (Wire.history_answer (Some "user_1") unreachable []
                   (snd (fst lost)))
                (Client.mkState [[]] 0 "token" "s1") in
  Client.showConfirmationBar (Client.current offered) = true
  /\ fst (fst lost) = inr declined_response
  /\ failed_call insert_message (snd lost) = true
  /\ Client.showConfirmationBar (Client.current st') = false
  /\ Client.showConfirmationBar (Client.current st'') = true
  /\ option_map candidate_of
       (fst (Client.latestProposal (Client.messages st'') (Client.heap st'')))
     = Some (JStr slot).
Proof. vm_compute. repeat split; reflexivity. Qed.

Lemma decline_returns_to_idle_witness :
  let backend := Wire.confirm_answer (Some "user_1") unreachable []
                   db_proposed in
  let st' := Client.click_decline backend offered in
  let req := confirm_request "user_1" "s1" slot false in
  (Client.token offered <> ""
   /\ Client.showConfirmationBar (Client.current offered) = true
   /\ truthy (field req "session_id") = true
   /\ truthy (field req "scheduled_at") = true
   /\ Date_of (field req "scheduled_at") = Some 1759831200000
   /\ now unreachable < 1759831200000
   /\ truthy (field req "confirm") = false
   /\ ids_fit req = true
   /\ jsonb_ok (field req "scheduled_at") = true
   /\ no_fault [])
  /\ Client.showConfirmationBar (Client.current st') = false
  /\ Client.click_confirm backend st' = st'
  /\ Client.showConfirmationBar (reloaded db_declined) = false.
Proof.
  intros backend st' req.
  assert (Ht : Client.token offered <> "") by discriminate.
  assert (Hb : Client.showConfirmationBar (Client.current offered) = true)
    by reflexivity.
  assert (Hs : truthy (field req "session_id") = true) by reflexivity.
  assert (Ha : truthy (field req "scheduled_at") = true) by reflexivity.
  assert (Hd : Date_of (field req "scheduled_at") = Some 1759831200000)
    by reflexivity.
  assert (Hn : now unreachable < 1759831200000) by reflexivity.
  assert (Hc : truthy (field req "confirm") = false) by reflexivity.
  assert (Hi : ids_fit req = true) by reflexivity.
  assert (Hj : jsonb_ok (field req "scheduled_at") = true) by reflexivity.
  assert (Hf : no_fault []) by reflexivity.
  split; [repeat split; assumption|].
  destruct decline_returns_to_idle as [Hclient Hserver].
  destruct (Hclient backend offered Ht Hb) as [_ [Hoff [Hidle _]]].
  split; [exact Hoff|]. split; [exact (proj1 (Hidle backend))|].
  destruct (Hserver req unreachable [] db_proposed 1759831200000
              Hs Ha Hd Hn Hc Hi Hj Hf) as [_ [_ [Hgone _]]].
  exact Hgone.
Defined.

End Scenarios.

Section MoreScenarios.
Import Sample.
#[local] Existing Instance Sample.platform.

Lemma greeting_accepted : message_accepted greeting.
Proof.
  exists "  I need a cleaning on Tuesday at 10am ". split; [reflexivity|].
  vm_compute. discriminate.
Qed.

(** C7 as stated fails: with the Python service out of reach, the message
    is accepted and its user turn goes into the transcript, but the answer
    is 500 and no assistant turn follows. *)
Lemma service_failure_leaves_user_turn_alone :
  let r := run (message_handler greeting) unreachable [] schema_db in
  status_of (fst (fst r)) = 500
  /\ map role (chat_messages (snd (fst r))) = ["user"].
Proof. vm_compute. split; reflexivity. Qed.

Lemma message_turns_witness :
  let r := run (message_handler greeting) (proposing slot) [] schema_db in
  (message_accepted greeting
   /\ ids_fit greeting = true
   /\ content_ok (JStr (trim_of (field greeting "message"))) = true
   /\ no_fault []
   /\ content_ok (assistant_reply (proposal slot)) = true
   /\ jsonb_ok (assistant_meta (proposal slot)) = true)
  /\ fst (fst r)
     = inr (res_json (JObj [("ok", JBool true); ("data", proposal slot)]))
  /\ map role (chat_messages (snd (fst r))) = ["user"; "assistant"].
Proof.
  intros r.
  assert (Hi : ids_fit greeting = true) by reflexivity.
  assert (Ht : content_ok (JStr (trim_of (field greeting "message"))) = true)
    by reflexivity.
  assert (Hf : no_fault []) by reflexivity.
  assert (Hr : content_ok (assistant_reply (proposal slot)) = true)
    by reflexivity.
  assert (Hm : jsonb_ok (assistant_meta (proposal slot)) = true)
    by reflexivity.
  split; [repeat split; solve [exact greeting_accepted | assumption]|].
  pose proof (message_turns greeting (proposing slot) [] schema_db
                greeting_accepted Hi Ht Hf) as Hturns.
  cbv zeta in Hturns.
  change (py_service (proposing slot) (simulate_payload greeting))
    with (Some (mkFetchResponse true 200 (Some (proposal slot)))) in Hturns.
  cbv beta iota in Hturns. destruct (Hturns Hr Hm) as [Hout Hmsgs].
  split; [exact Hout|]. subst r. rewrite Hmsgs. reflexivity.
Defined.

(** C8 as stated fails: the append of the declined turn is lost, and the
    request still answers 200 declined, with nothing appended. *)
Lemma lost_append_still_answers_ok :
  let r := run (confirm_handler (confirm_request "user_1" "s1" slot false))
             unreachable [false; false; false; true] schema_db in
  fst (fst r) = inr declined_response
  /\ failed_call insert_message (snd r) = true
  /\ chat_messages (snd (fst r)) = [].
Proof. vm_compute. repeat split; reflexivity. Qed.

Lemma failures_outside_logging_are_reported_witness :
  let lost := run (confirm_handler (confirm_request "user_1" "s1" slot true))
                unreachable [false; false; false; false; true] schema_db in
  let kept := run (confirm_handler (confirm_request "user_1" "s1" slot true))
                unreachable [] schema_db in
  (failed_outside_logging (snd lost) = true
   /\ truthy (field (confirm_request "user_1" "s1" slot true) "confirm") = true
   /\ status_of (fst (fst kept)) = 200)
  /\ status_of (fst (fst lost)) = 500
  /\ exists a, appointments (snd (fst kept)) = [a] /\ status a = confirmed.
Proof.
  intros lost kept.
  assert (Hl : failed_outside_logging (snd lost) = true) by reflexivity.
  assert (Hc : truthy (field (confirm_request "user_1" "s1" slot true) "confirm")
               = true) by reflexivity.
  assert (Hk : status_of (fst (fst kept)) = 200) by reflexivity.
  split; [repeat split; assumption|]. split.
  - exact (proj1 (proj2 failures_outside_logging_are_reported)
             _ unreachable _ schema_db Hl).
  - destruct (proj2 (proj2 failures_outside_logging_are_reported)
                _ unreachable [] schema_db Hc Hk) as [a [Happ [Hst _]]].
    exists a. split; [exact Happ | exact Hst].
Defined.

Lemma backend_failure_falls_back_witness :
  let env := mkEnv noon noon
               (Extractor.simulate small_talk true Extractor.timed_out) in
  let r := run (message_handler greeting) env [] schema_db in
  (message_accepted greeting
   /\ ids_fit greeting = true
   /\ no_fault []
   /\ Extractor.backend_failed Extractor.timed_out = true)
  /\ status_of (fst (fst r)) = 200.
Proof.
  intros env r.
  assert (Hi : ids_fit greeting = true) by reflexivity.
  assert (Hf : no_fault []) by reflexivity.
  assert (Hb : Extractor.backend_failed Extractor.timed_out = true)
    by reflexivity.
  split; [repeat split; try assumption; exact greeting_accepted|].
  exact (proj2 (backend_failure_falls_back small_talk true Extractor.timed_out
                  noon noon greeting [] schema_db greeting_accepted Hi Hf Hb)).
Defined.

(** C10 as stated fails: a decline on a fresh datastore leaves more behind
    than one chat message, namely the demo user and the chat session. *)
Lemma decline_creates_user_and_session :
  let db' := snd (fst (run (confirm_handler
                              (confirm_request "user_1" "s1" slot false))
                         unreachable [] schema_db)) in
  ~ (exists m, db' = with_chat_messages schema_db
                       (chat_messages schema_db ++ [m])%list)
  /\ List.length (chat_sessions db') = 1%nat
  /\ List.length (users db') = 3%nat.
Proof.
  cbv zeta. split; [|split; reflexivity].
  intros [m Hm]. apply (f_equal chat_sessions) in Hm. vm_compute in Hm.
  discriminate Hm.
Qed.

Lemma decline_leaves_appointments_witness :
  let req := confirm_request "user_2" "s2" slot false in
  let r := run (confirm_handler req) unreachable [] db_taken in
  (truthy (field req "session_id") = true
   /\ truthy (field req "scheduled_at") = true
   /\ Date_of (field req "scheduled_at") = Some 1759831200000
   /\ now unreachable < 1759831200000
   /\ truthy (field req "confirm") = false
   /\ ids_fit req = true
   /\ jsonb_ok (field req "scheduled_at") = true
   /\ no_fault [])
  /\ appointments (snd (fst r)) = appointments db_taken
  /\ fst (fst r) = inr declined_response
  /\ List.length (chat_sessions (snd (fst r))) = 2%nat.
Proof.
  intros req r.
  assert (Hs : truthy (field req "session_id") = true) by reflexivity.
  assert (Ha : truthy (field req "scheduled_at") = true) by reflexivity.
  assert (Hd : Date_of (field req "scheduled_at") = Some 1759831200000)
    by reflexivity.
  assert (Hn : now unreachable < 1759831200000) by reflexivity.
  assert (Hc : truthy (field req "confirm") = false) by reflexivity.
  assert (Hi : ids_fit req = true) by reflexivity.
  assert (Hj : jsonb_ok (field req "scheduled_at") = true) by reflexivity.
  assert (Hf : no_fault []) by reflexivity.
  split; [repeat split; assumption|].
  destruct (decline_leaves_appointments req unreachable [] db_taken
              1759831200000 Hs Ha Hd Hn Hc)
    as [_ [Happ [_ [_ [_ [_ Hsure]]]]]].
  destruct (Hsure Hi Hj Hf) as [Hout Hdb].
  split; [exact Happ|]. split; [exact Hout|].
  subst r. rewrite Hdb. reflexivity.
Defined.

End MoreScenarios.

(* ================================================================== *)
(** * Further properties of the code *)
(* ================================================================== *)

(** ** The handlers as a whole *)

Section Answers.
Context `{Platform}.

(** The message guard: a message that is missing, not a string, or blank
    is answered 400 on the spot; nothing is sent to the datastore or to
    the Python service. *)
Theorem message_guard req env faults db :
  truthy (field req "message") = false
  \/ Server.is_string (field req "message") = false
  \/ trim_of (field req "message") = "" ->
  run (message_handler req) env faults db
  = (inr (res_status_json 400 (JObj
       [("error", JStr "Message is required and must be a non-empty string")])),
     db, []).
Proof.
  intros Hbad. unfold field in Hbad. unfold message_handler. cbv zeta.
  assert (Hg : negb (truthy (prop (Js.or (body req) (JObj [])) "message"))
               || negb (Server.is_string (prop (Js.or (body req) (JObj [])) "message"))
               || negb (truthy (JStr (trim_of (prop (Js.or (body req) (JObj [])) "message"))))
               = true).
  { destruct Hbad as [Hb | [Hb | Hb]]; rewrite Hb; cbn;
      rewrite ?orb_true_r; reflexivity. }
  rewrite Hg. reflexivity.
Qed.

(** Every request is answered: whatever the body, the clock, the service
    and the lost statements, no exception escapes a handler, and the
    status is 200, 400 or 500 for a message and 200, 400, 409 or 500 for a
    confirmation. *)
Theorem every_request_is_answered :
  (forall req env faults db,
      exists res, fst (fst (run (message_handler req) env faults db)) = inr res
                  /\ In (res_status res) [200; 400; 500])
  /\ (forall req env faults db,
        exists res, fst (fst (run (confirm_handler req) env faults db)) = inr res
                    /\ In (res_status res) [200; 400; 409; 500]).
Proof.
  split; intros req env faults db.
  - destruct (run (message_handler req) env faults db)
      as [[out db'] log] eqn:Hrun.
    open_handler Hrun. explore Hrun.
    all: inversion Hrun; subst; eexists; (split; [reflexivity|]); cbn; auto.
  - destruct (run (confirm_handler req) env faults db)
      as [[out db'] log] eqn:Hrun.
    open_handler Hrun. explore Hrun.
    all: inversion Hrun; subst; eexists; (split; [reflexivity|]); cbn; tauto.
Qed.

End Answers.

(** ** Booking *)

Section Booking.
Context `{Platform}.

Lemma confirm_free req env faults db time t :
  truthy (field req "session_id") = true ->
  truthy (field req "scheduled_at") = true ->
  Date_of (field req "scheduled_at") = Some time ->
  now env < time ->
  truthy (field req "confirm") = true ->
  ids_fit req = true ->
  has_nul (Date_toLocaleString time) = false ->
  no_fault faults ->
  pg_timestamp (field req "scheduled_at") = Some t ->
  existsb (confirmed_at t) (appointments db) = false ->
  let r := run (confirm_handler req) env faults db in
  fst (fst r)
  = inr (res_json (JObj
      [("ok", JBool true);
       ("status", JStr "confirmed");
       ("appointment",
        JObj [("id", JNum (appointments_id_seq db));
              ("scheduled_at", pg_timestamp_json t);
              ("status", JStr "confirmed");
              ("created_at", pg_timestamp_json (pg_now env));
              ("formatted_time", JStr (Date_toLocaleString time))])]))
  /\ appointments (snd (fst r)) = (appointments db ++ [booked req env db t])%list
  /\ chat_messages (snd (fst r))
     = (chat_messages db ++ [confirmed_turn req db time])%list.
Proof.
  intros Hs Ha Hd Hn Hc Hfit Hloc Hnf Ht Hfree r. subst r.
  assert (Hcontent : has_nul ("✅ Appointment confirmed for "
                              ++ Date_toLocaleString time ++ ".") = false).
  { rewrite !has_nul_app, Hloc. reflexivity. }
  rewrite (run_no_fault _ _ _ _ _ Hnf).
  destruct (run (confirm_handler req) env [] db) as [[out db'] log] eqn:Hrun.
  unfold booked, confirmed_turn, user_of.
  past_guards Hrun Hs Ha Hd Hn Hfit. rewrite ?Hc, ?Htok in *.
  destruct (upsert_keeps (sub_or_default req ++ "@demo.local") "Demo User" db)
    as [Kapp [Kseq [Kmsg Kses]]].
  destruct (map session_id _) as [|sid sids] in Hrun;
    repeat sure_step_in Hrun;
    rewrite ?Kapp, ?Hfree in Hrun; cbn in Hrun;
    repeat sure_step_in Hrun;
    inversion Hrun; subst; cbn; rewrite ?Kapp, ?Kseq, ?Kmsg;
    repeat split; reflexivity.
Qed.

Lemma confirm_taken req env faults db time t :
  truthy (field req "session_id") = true ->
  truthy (field req "scheduled_at") = true ->
  Date_of (field req "scheduled_at") = Some time ->
  now env < time ->
  truthy (field req "confirm") = true ->
  ids_fit req = true ->
  no_fault faults ->
  pg_timestamp (field req "scheduled_at") = Some t ->
  existsb (confirmed_at t) (appointments db) = true ->
  let r := run (confirm_handler req) env faults db in
  fst (fst r) = inr conflict_response
  /\ appointments (snd (fst r)) = appointments db
  /\ chat_messages (snd (fst r)) = chat_messages db.
Proof.
  intros Hs Ha Hd Hn Hc Hfit Hnf Ht Htaken r. subst r.
  rewrite (run_no_fault _ _ _ _ _ Hnf).
  destruct (run (confirm_handler req) env [] db) as [[out db'] log] eqn:Hrun.
  past_guards Hrun Hs Ha Hd Hn Hfit. rewrite ?Hc in Hrun.
  destruct (upsert_keeps (sub_or_default req ++ "@demo.local") "Demo User" db)
    as [Kapp [Kseq [Kmsg Kses]]].
  destruct (map session_id _) as [|sid sids] in Hrun;
    repeat sure_step_in Hrun;
    rewrite ?Kapp, Htaken in Hrun; cbn in Hrun;
    inversion Hrun; subst; cbn; rewrite ?Kapp, ?Kmsg;
    repeat split; reflexivity.
Qed.

(** A confirmation of a free slot books it: when the request passes the
    guards, its ids fit their columns, the formatted time holds no NUL
    character, no statement is lost and no confirmed appointment stands at
    the timestamp the datastore reads in [scheduled_at], the answer is 200
    confirmed with the row as [RETURNING] hands it back (id, stored
    timestamp, status and creation time, the two times as the driver and
    [res.json] render them) and the formatted time; the [appointments]
    table gains exactly that row (confirmed, at that timestamp, owned by
    the requesting user, with the next id, created at the time of the
    datastore) and the transcript gains the confirmation turn that names
    it. *)
Theorem confirmation_books_free_slot req env faults db time t :
  truthy (field req "session_id") = true ->
  truthy (field req "scheduled_at") = true ->
  Date_of (field req "scheduled_at") = Some time ->
  now env < time ->
  truthy (field req "confirm") = true ->
  ids_fit req = true ->
  has_nul (Date_toLocaleString time) = false ->
  no_fault faults ->
  pg_timestamp (field req "scheduled_at") = Some t ->
  existsb (confirmed_at t) (appointments db) = false ->
  let r := run (confirm_handler req) env faults db in
  fst (fst r)
  = inr (res_json (JObj
      [("ok", JBool true);
       ("status", JStr "confirmed");
       ("appointment",
        JObj [("id", JNum (appointments_id_seq db));
              ("scheduled_at", pg_timestamp_json t);
              ("status", JStr "confirmed");
              ("created_at", pg_timestamp_json (pg_now env));
              ("formatted_time", JStr (Date_toLocaleString time))])]))
  /\ appointments (snd (fst r)) = (appointments db ++ [booked req env db t])%list
  /\ chat_messages (snd (fst r))
     = (chat_messages db ++ [confirmed_turn req db time])%list.
Proof. exact (confirm_free req env faults db time t). Qed.

(** No double booking, one request after the other: once a confirmation
    has booked a slot, a later confirmation whose [scheduled_at] the
    datastore reads as the same stored timestamp, from any user and
    session whose ids fit and under any spelling of the time that is read
    so, is answered 409; it adds no appointment and no turn.  (What the
    datastore reads in a text is the platform's [pg_timestamp]: two
    spellings of one instant with different zone offsets are read as
    different timestamps by a [TIMESTAMP] column, and are not covered.) *)
Theorem second_confirmation_conflicts req1 env1 faults1 req2 env2 faults2
    db time1 time2 t :
  truthy (field req1 "session_id") = true ->
  truthy (field req1 "scheduled_at") = true ->
  Date_of (field req1 "scheduled_at") = Some time1 ->
  now env1 < time1 ->
  truthy (field req1 "confirm") = true ->
  ids_fit req1 = true ->
  has_nul (Date_toLocaleString time1) = false ->
  no_fault faults1 ->
  pg_timestamp (field req1 "scheduled_at") = Some t ->
  existsb (confirmed_at t) (appointments db) = false ->
  truthy (field req2 "session_id") = true ->
  truthy (field req2 "scheduled_at") = true ->
  Date_of (field req2 "scheduled_at") = Some time2 ->
  now env2 < time2 ->
  truthy (field req2 "confirm") = true ->
  ids_fit req2 = true ->
  no_fault faults2 ->
  pg_timestamp (field req2 "scheduled_at") = Some t ->
  let db1 := snd (fst (run (confirm_handler req1) env1 faults1 db)) in
  let r2 := run (confirm_handler req2) env2 faults2 db1 in
  fst (fst r2) = inr conflict_response
  /\ appointments (snd (fst r2))
     = (appointments db ++ [booked req1 env1 db t])%list
  /\ chat_messages (snd (fst r2)) = chat_messages db1.
Proof.
  intros Hs1 Ha1 Hd1 Hn1 Hc1 Hi1 Hl1 Hf1 Ht1 Hfree
         Hs2 Ha2 Hd2 Hn2 Hc2 Hi2 Hf2 Ht2 db1 r2.
  destruct (confirm_free req1 env1 faults1 db time1 t
              Hs1 Ha1 Hd1 Hn1 Hc1 Hi1 Hl1 Hf1 Ht1 Hfree) as [_ [Happ1 _]].
  fold db1 in Happ1.
  assert (Htaken : existsb (confirmed_at t) (appointments db1) = true).
  { rewrite Happ1, existsb_app. cbn. unfold confirmed_at. cbn.
    rewrite Z.eqb_refl. cbn. apply orb_true_r. }
  destruct (confirm_taken req2 env2 faults2 db1 time2 t
              Hs2 Ha2 Hd2 Hn2 Hc2 Hi2 Hf2 Ht2 Htaken) as [Hout [Happ2 Hmsg2]].
  subst r2. rewrite Hout, Happ2, Hmsg2, Happ1. repeat split; reflexivity.
Qed.

End Booking.

(** ** Sessions and transcripts *)

Section Sessions.
Context `{Platform}.

Lemma map_nil_inv (A B : Type) (f : A -> B) (l : list A) :
  map f l = [] -> l = [].
Proof. destruct l; [reflexivity | discriminate]. Qed.

(** [ensureSession] looks a token up before it inserts it.  Without a
    token it answers [null] and sends nothing.  With one whose text fits
    the column, for a user that is in [users] (no statement lost), it
    answers a session id, and from then on every call with a token of the
    same text, by whichever user, finds that same id with a single
    [SELECT] and leaves the datastore as it is. *)
Theorem ensureSession_finds_what_it_made uid token tok env faults db :
  (truthy token = false ->
   run (ensureSession uid token) env faults db = (inr JNull, db, []))
  /\ (truthy token = true ->
      pg_text token = Some tok ->
      fits 255 tok = true ->
      has_user uid db = true ->
      no_fault faults ->
      let r := run (ensureSession uid token) env faults db in
      exists id,
        fst (fst r) = inr (JNum id)
        /\ forall uid' token' env' faults',
             truthy token' = true ->
             pg_text token' = Some tok ->
             no_fault faults' ->
             run (ensureSession uid' token') env' faults' (snd (fst r))
             = (inr (JNum id), snd (fst r), [(select_session, false)])).
Proof.
  split.
  - intros Ht. unfold ensureSession. rewrite Ht. reflexivity.
  - intros Ht Hp Hfit Hu Hnf r. subst r. rewrite (run_no_fault _ _ _ _ _ Hnf).
    pose proof (fits_no_nul _ _ Hfit) as Hnul.
    pose proof (fits_session_text _ _ Hp Hfit) as Hsess.
    assert (Hagain : forall d id rest uid' token' env' faults',
      map session_id (filter (fun s => token_is tok (session_token s))
                             (chat_sessions d)) = id :: rest ->
      truthy token' = true ->
      pg_text token' = Some tok ->
      no_fault faults' ->
      run (ensureSession uid' token') env' faults' d
      = (inr (JNum id), d, [(select_session, false)])).
    { intros d id rest uid' token' env' faults' Hfound Ht' Hp' Hnf'.
      rewrite (run_no_fault _ _ _ _ _ Hnf').
      unfold ensureSession. rewrite Ht'. cbn.
      rewrite exec_faulty_nil, (exec_select_session _ _ _ _ Hp' Hnul), Hfound.
      reflexivity. }
    destruct (run (ensureSession uid token) env [] db)
      as [[out db'] log] eqn:Hrun.
    unfold ensureSession in Hrun. rewrite Ht in Hrun.
    cbn in Hrun.
    rewrite exec_faulty_nil, (exec_select_session _ _ _ _ Hp Hnul) in Hrun.
    cbn in Hrun.
    destruct (map session_id _) as [|id rest] eqn:Hfound in Hrun.
    + cbn in Hrun.
      rewrite exec_faulty_nil, (exec_insert_session _ _ _ _ _ Hsess Hu) in Hrun.
      cbn in Hrun. inversion Hrun; subst. cbn [fst snd].
      exists (chat_sessions_id_seq db). split; [reflexivity|].
      intros uid' token' env' faults' Ht' Hp' Hnf'.
      apply (Hagain _ (chat_sessions_id_seq db) []); try assumption.
      cbn. rewrite filter_app, map_app, (map_nil_inv _ _ _ _ Hfound). cbn.
      unfold token_is. rewrite String.eqb_refl. reflexivity.
    + cbn in Hrun. inversion Hrun; subst. cbn [fst snd].
      exists id. split; [reflexivity|].
      intros uid' token' env' faults' Ht' Hp' Hnf'.
      apply (Hagain _ id rest); assumption.
Qed.

(** A handler writes only into the transcript of its own session: the
    turns a message or a confirm request appends all carry the text the
    datastore stores for the session id of the request, so the transcript
    under every other token, of any user, is left as it was, whichever
    statements are lost. *)
Theorem other_transcripts_untouched :
  (forall req env faults db uid token,
      session_text (field req "session_id") <> inr (Some token) ->
      transcript (snd (fst (run (message_handler req) env faults db))) uid token
      = transcript db uid token)
  /\ (forall req env faults db uid token,
        session_text (field req "session_id") <> inr (Some token) ->
        transcript (snd (fst (run (confirm_handler req) env faults db))) uid token
        = transcript db uid token).
Proof.
  assert (Hother : forall (v : JsVal) (tok token : string),
             session_text v <> inr (Some token) ->
             session_text v = inr (Some tok) ->
             String.eqb tok token = false).
  { intros v tok token Hne Hs. apply String.eqb_neq. intros ->.
    exact (Hne Hs). }
  split; intros req env faults db uid token Hne; unfold field in Hne.
  - destruct (run (message_handler req) env faults db)
      as [[out db'] log] eqn:Hrun.
    open_handler Hrun. explore Hrun.
    all: inversion Hrun; subst; cbn [fst snd]; note_steps; unfold transcript.
    all: repeat match goal with
                | E : session_text _ = inr (Some ?tok) |- _ =>
                    pose proof (Hother _ _ _ Hne E); clear E
                end.
    all: repeat match goal with
                | E : chat_messages ?d = _ |- _ => rewrite E; clear E
                end.
    all: rewrite ?filter_app; cbn [filter message_session_token message_user_id].
    all: repeat match goal with
                | E : String.eqb _ _ = false |- _ => rewrite E; clear E
                end.
    all: rewrite ?andb_false_r, ?app_nil_r; reflexivity.
  - destruct (run (confirm_handler req) env faults db)
      as [[out db'] log] eqn:Hrun.
    open_handler Hrun. explore Hrun.
    all: inversion Hrun; subst; cbn [fst snd]; note_steps; unfold transcript.
    all: repeat match goal with
                | E : session_text _ = inr (Some ?tok) |- _ =>
                    pose proof (Hother _ _ _ Hne E); clear E
                end.
    all: repeat match goal with
                | E : chat_messages ?d = _ |- _ => rewrite E; clear E
                end.
    all: rewrite ?filter_app; cbn [filter message_session_token message_user_id].
    all: repeat match goal with
                | E : String.eqb _ _ = false |- _ => rewrite E; clear E
                end.
    all: rewrite ?andb_false_r, ?app_nil_r; reflexivity.
Qed.

(** The handlers only ever append to [chat_messages]: the rows that were
    there stay, in place and unchanged, and a message request adds at
    most two turns and a confirm request at most one, all of them under
    the text the datastore stores for the session id of the request,
    whichever statements are lost. *)
Theorem transcripts_only_grow :
  (forall req env faults db,
      exists added,
        chat_messages (snd (fst (run (message_handler req) env faults db)))
        = (chat_messages db ++ added)%list
        /\ (List.length added <= 2)%nat
        /\ Forall (fun m => session_text (field req "session_id")
                            = inr (Some (message_session_token m))) added)
  /\ (forall req env faults db,
        exists added,
          chat_messages (snd (fst (run (confirm_handler req) env faults db)))
          = (chat_messages db ++ added)%list
          /\ (List.length added <= 1)%nat
          /\ Forall (fun m => session_text (field req "session_id")
                              = inr (Some (message_session_token m))) added).
Proof.
  split; intros req env faults db; unfold field.
  - destruct (run (message_handler req) env faults db)
      as [[out db'] log] eqn:Hrun.
    open_handler Hrun. explore Hrun.
    all: inversion Hrun; subst; cbn [fst snd]; note_steps.
    all: repeat match goal with
                | E : chat_messages ?d = _ |- _ => rewrite E; clear E
                end.
    all: rewrite <- ?app_assoc; cbn [app].
    all: first
      [ exists []; rewrite app_nil_r; split; [reflexivity|];
        split; [cbn; lia | constructor]
      | eexists; split; [reflexivity|];
        split; [cbn; lia | repeat constructor; cbn; assumption] ].
  - destruct (run (confirm_handler req) env faults db)
      as [[out db'] log] eqn:Hrun.
    open_handler Hrun. explore Hrun.
    all: inversion Hrun; subst; cbn [fst snd]; note_steps.
    all: repeat match goal with
                | E : chat_messages ?d = _ |- _ => rewrite E; clear E
                end.
    all: rewrite <- ?app_assoc; cbn [app].
    all: first
      [ exists []; rewrite app_nil_r; split; [reflexivity|];
        split; [cbn; lia | constructor]
      | eexists; split; [reflexivity|];
        split; [cbn; lia | repeat constructor; cbn; assumption] ].
Qed.

(** Processing a chat message never reads or writes the [appointments]
    table: its rows and its counter are as before, whichever statements
    are lost and whatever the service proposes. *)
Theorem message_leaves_appointments req env faults db :
  let r := run (message_handler req) env faults db in
  existsb (fun e => on_appointments (fst e)) (snd r) = false
  /\ appointments (snd (fst r)) = appointments db
  /\ appointments_id_seq (snd (fst r)) = appointments_id_seq db.
Proof.
  intros r. subst r.
  destruct (run (message_handler req) env faults db)
    as [[out db'] log] eqn:Hrun.
  open_handler Hrun. explore Hrun.
  all: inversion Hrun; subst; cbn [fst snd]; note_steps.
  all: split; [reflexivity|]; split; congruence.
Qed.

End Sessions.

(** ** Users *)

Section Users.
Context `{Platform}.

Lemma find_renamed (e n : string) (l : list User) :
  List.find (fun u => String.eqb (email u) e)
    (map (fun u' => if String.eqb (email u') e then set_name n u' else u') l)
  = option_map (set_name n) (List.find (fun u => String.eqb (email u) e) l).
Proof.
  induction l as [|u l IH]; [reflexivity|]. cbn.
  destruct (String.eqb (email u) e) eqn:He; cbn; rewrite He;
    [reflexivity | exact IH].
Qed.

Lemma rename_twice (e n : string) (l : list User) :
  map (fun u' => if String.eqb (email u') e then set_name n u' else u')
    (map (fun u' => if String.eqb (email u') e then set_name n u' else u') l)
  = map (fun u' => if String.eqb (email u') e then set_name n u' else u') l.
Proof.
  induction l as [|u l IH]; [reflexivity|]. cbn. rewrite IH. f_equal.
  destruct (String.eqb (email u) e) eqn:He; cbn; rewrite He; reflexivity.
Qed.

Lemma rename_none (e n : string) (l : list User) :
  List.find (fun u => String.eqb (email u) e) l = None ->
  map (fun u' => if String.eqb (email u') e then set_name n u' else u') l = l.
Proof.
  induction l as [|u l IH]; [reflexivity|]. cbn.
  destruct (String.eqb (email u) e); [discriminate|].
  intros Hn. rewrite (IH Hn). reflexivity.
Qed.

Lemma find_after (e : string) (l : list User) (x : User) :
  List.find (fun u => String.eqb (email u) e) l = None ->
  List.find (fun u => String.eqb (email u) e) (l ++ [x])
  = if String.eqb (email x) e then Some x else None.
Proof.
  induction l as [|u l IH]; [reflexivity|]. cbn.
  destruct (String.eqb (email u) e); [discriminate | exact IH].
Qed.

(** The upsert settles after one run: a second upsert of the same email
    and name returns the same id and leaves the rows as they are; it takes
    one more value from the sequence. *)
Lemma upsert_again (e n : string) (db : DB) :
  upsert_user_row e n (snd (upsert_user_row e n db))
  = (fst (upsert_user_row e n db),
     with_users (snd (upsert_user_row e n db))
       (users (snd (upsert_user_row e n db)))
       (users_id_seq (snd (upsert_user_row e n db)) + 1)).
Proof.
  unfold upsert_user_row.
  destruct (List.find (fun u => String.eqb (email u) e) (users db))
    as [u|] eqn:Hfind; cbn.
  - rewrite find_renamed, Hfind. cbn. rewrite rename_twice. reflexivity.
  - rewrite (find_after e (users db) _ Hfind). cbn. rewrite String.eqb_refl.
    cbn. rewrite map_app, (rename_none e n _ Hfind). cbn.
    rewrite String.eqb_refl. reflexivity.
Qed.




End Users.

(** ** Reading and clearing a transcript *)

Section Transcripts.
Context `{Platform}.

Lemma history_exec_faulty_nil (X : Type) (ev : History.Eff X) env db :
  History.exec_faulty ev env [] db = (History.exec ev env db, []).
Proof.
  unfold History.exec_faulty. destruct (History.is_statement ev); reflexivity.
Qed.

Lemma history_exec_faulty_no_fault (X : Type) (ev : History.Eff X) env
    faults db :
  no_fault faults ->
  exists faults',
    History.exec_faulty ev env faults db = (History.exec ev env db, faults')
    /\ no_fault faults'.
Proof.
  unfold no_fault, History.exec_faulty. intros Hnf.
  destruct (History.is_statement ev); [|exists faults; split; trivial].
  destruct faults as [|[|] faults]; cbn in Hnf; [| discriminate |].
  - exists []. split; reflexivity.
  - exists faults. split; [reflexivity | exact Hnf].
Qed.

Lemma history_run_no_fault (A : Type) (p : History.Prog A) env faults db :
  no_fault faults -> History.run p env faults db = History.run p env [] db.
Proof.
  revert faults db.
  induction p as [a | e | X ev k IH]; intros faults db Hnf; cbn;
    [reflexivity | reflexivity |].
  destruct (history_exec_faulty_no_fault X ev env faults db Hnf)
    as [f1 [Heq Hf1]].
  rewrite Heq, history_exec_faulty_nil.
  destruct (History.exec ev env db) as [r db1]. rewrite (IH r f1 db1 Hf1).
  reflexivity.
Qed.

Lemma get_messages_run req env faults db :
  History.session_id req <> "" ->
  has_nul (History.session_id req) = false ->
  fits 255 (History.sub_or_default req ++ "@demo.local") = true ->
  no_fault faults ->
  let rows := map History.row_of
                (transcript db (reader req db) (History.session_id req)) in
  History.run (History.get_messages req) env faults db
  = (inr (History.messages_answer rows (List.length rows)
            (History.session_id req)),
     snd (upsert_user_row (History.sub_or_default req ++ "@demo.local")
            "Demo User" db),
     [(History.core upsert_user, false); (History.select_messages, false)]).
Proof.
  intros Hsid Hnul Hfit Hnf rows. subst rows. unfold reader.
  rewrite (history_run_no_fault _ _ _ _ _ Hnf).
  unfold History.get_messages, upsertUser. cbv zeta.
  destruct (String.eqb (History.session_id req) "") eqn:Es;
    [apply String.eqb_eq in Es; contradiction|].
  cbn. rewrite (exec_upsert _ _ _ _ Hfit demo_name_fits). cbn.
  rewrite Hnul. unfold transcript, History.of_session.
  rewrite (proj1 (proj2 (proj2 (upsert_keeps _ _ _)))). reflexivity.
Qed.

(** Reading a transcript.  Called without a session id, the handler
    answers 400 and sends nothing.  With one that holds no NUL character,
    for a subject whose demo email fits its column, on a datastore whose
    contents are strings, and no statement lost, the answer lists the
    turns stored for that user under that token, in the order they were
    appended, with their count; the [chat_messages] table is not changed.
    And when a statement is lost the answer is 500. *)
Theorem history_is_the_transcript req env faults db :
  (History.session_id req = "" ->
   History.run (History.get_messages req) env faults db
   = (inr (History.error_answer 400 "invalid_session_id"
             "Session ID is required and must be a valid string"), db, []))
  /\ (History.session_id req <> "" ->
      has_nul (History.session_id req) = false ->
      fits 255 (History.sub_or_default req ++ "@demo.local") = true ->
      text_contents db ->
      no_fault faults ->
      let r := History.run (History.get_messages req) env faults db in
      let rows := map History.row_of
                    (transcript db (reader req db) (History.session_id req)) in
      fst (fst r)
      = inr (History.messages_answer rows (List.length rows)
               (History.session_id req))
      /\ chat_messages (snd (fst r)) = chat_messages db)
  /\ (History.session_id req <> "" ->
      fits 255 (History.sub_or_default req ++ "@demo.local") = true ->
      (exists rest, faults = true :: rest)
      \/ (exists rest, faults = false :: true :: rest) ->
      let r := History.run (History.get_messages req) env faults db in
      fst (fst r)
      = inr (History.error_answer 500 "fetch_failed"
               "Failed to retrieve conversation history")
      /\ chat_messages (snd (fst r)) = chat_messages db).
Proof.
  split; [|split].
  - intros Hsid. unfold History.get_messages. rewrite Hsid. reflexivity.
  - intros Hsid Hnul Hfit _ Hnf r rows. subst r rows.
    rewrite (get_messages_run req env faults db Hsid Hnul Hfit Hnf).
    cbn [fst snd]. split; [reflexivity|]. apply upsert_keeps.
  - intros Hsid Hfit Hlost r. subst r.
    unfold History.get_messages, upsertUser. cbv zeta.
    destruct (String.eqb (History.session_id req) "") eqn:Es;
      [apply String.eqb_eq in Es; contradiction|].
    destruct Hlost as [[rest Hf] | [rest Hf]]; subst faults; cbn.
    + split; reflexivity.
    + unfold History.exec_faulty. cbn.
      rewrite (exec_upsert _ _ _ _ Hfit demo_name_fits). cbn.
      split; [reflexivity|]. apply upsert_keeps.
Qed.

End Transcripts.

Section Clearing.
Context `{Platform}.

Lemma filter_out_same (A : Type) (p : A -> bool) (l : list A) :
  filter p (filter (fun x => negb (p x)) l) = [].
Proof.
  induction l as [|x l IH]; [reflexivity|]. cbn.
  destruct (p x) eqn:Hp; cbn; [exact IH | rewrite Hp; exact IH].
Qed.

Lemma filter_out_other (A : Type) (p q : A -> bool) (l : list A) :
  (forall x, q x = true -> p x = false) ->
  filter q (filter (fun x => negb (p x)) l) = filter q l.
Proof.
  intros Hpq. induction l as [|x l IH]; [reflexivity|]. cbn.
  destruct (p x) eqn:Hp; cbn.
  - destruct (q x) eqn:Hq; [|exact IH].
    rewrite (Hpq x Hq) in Hp. discriminate Hp.
  - rewrite IH. reflexivity.
Qed.

(** The upsert does not look at the transcripts. *)
Lemma upsert_with_chat_messages (e n : string) (db : DB)
    (ms : list ChatMessage) :
  upsert_user_row e n (with_chat_messages db ms)
  = (fst (upsert_user_row e n db),
     with_chat_messages (snd (upsert_user_row e n db)) ms).
Proof.
  unfold upsert_user_row. cbn.
  destruct (List.find _ (users db)); reflexivity.
Qed.

Lemma delete_messages_run req env faults db :
  History.session_id req <> "" ->
  has_nul (History.session_id req) = false ->
  fits 255 (History.sub_or_default req ++ "@demo.local") = true ->
  no_fault faults ->
  let mine := History.of_session (reader req db) (History.session_id req) in
  History.run (History.delete_messages_handler req) env faults db
  = (inr (History.deleted_answer
            (List.length (filter mine (chat_messages db)))
            (History.session_id req)),
     with_chat_messages
       (snd (upsert_user_row (History.sub_or_default req ++ "@demo.local")
               "Demo User" db))
       (filter (fun m => negb (mine m)) (chat_messages db)),
     [(History.core upsert_user, false); (History.delete_messages, false)]).
Proof.
  intros Hsid Hnul Hfit Hnf mine. subst mine. unfold reader.
  rewrite (history_run_no_fault _ _ _ _ _ Hnf).
  unfold History.delete_messages_handler, upsertUser. cbv zeta.
  destruct (String.eqb (History.session_id req) "") eqn:Es;
    [apply String.eqb_eq in Es; contradiction|].
  cbn. rewrite (exec_upsert _ _ _ _ Hfit demo_name_fits). cbn.
  rewrite Hnul.
  rewrite (proj1 (proj2 (proj2 (upsert_keeps _ _ _)))). reflexivity.
Qed.

(** Clearing a transcript (a session id given that holds no NUL
    character, a subject whose demo email fits its column, no statement
    lost).  The answer counts the turns stored for that user under that
    token; afterwards their transcript is empty, and reading it back
    answers an empty list with count 0; the transcript of every other
    user or token, and the [appointments] table, are as they were. *)
Theorem clearing_a_transcript req env faults db :
  History.session_id req <> "" ->
  has_nul (History.session_id req) = false ->
  fits 255 (History.sub_or_default req ++ "@demo.local") = true ->
  no_fault faults ->
  let r := History.run (History.delete_messages_handler req) env faults db in
  let uid := reader req db in
  let sid := History.session_id req in
  fst (fst r)
  = inr (History.deleted_answer (List.length (transcript db uid sid)) sid)
  /\ transcript (snd (fst r)) uid sid = []
  /\ (forall uid' token',
        uid' <> uid \/ token' <> sid ->
        transcript (snd (fst r)) uid' token' = transcript db uid' token')
  /\ appointments (snd (fst r)) = appointments db
  /\ (forall env' faults', no_fault faults' ->
        fst (fst (History.run (History.get_messages req) env' faults'
                    (snd (fst r))))
        = inr (History.messages_answer [] 0 sid)).
Proof.
  intros Hsid Hnul Hfit Hnf r uid sid. subst r uid sid.
  rewrite (delete_messages_run req env faults db Hsid Hnul Hfit Hnf).
  cbn [fst snd].
  assert (Hempty :
    transcript
      (with_chat_messages
         (snd (upsert_user_row (History.sub_or_default req ++ "@demo.local")
                 "Demo User" db))
         (filter (fun m => negb (History.of_session (reader req db)
                                   (History.session_id req) m))
                 (chat_messages db)))
      (reader req db) (History.session_id req) = []).
  { unfold transcript. cbn. apply (filter_out_same _ (History.of_session _ _)). }
  split; [reflexivity|]. split; [exact Hempty|]. split; [|split].
  - intros uid' token' Hother. unfold transcript. cbn.
    apply filter_out_other. intros m Hq.
    apply andb_true_iff in Hq. destruct Hq as [Hu Ht].
    apply Z.eqb_eq in Hu. apply String.eqb_eq in Ht.
    unfold History.of_session.
    destruct (message_user_id m =? reader req db) eqn:Hu2; [|reflexivity].
    destruct (String.eqb (message_session_token m) (History.session_id req))
      eqn:Ht2; [|reflexivity].
    apply Z.eqb_eq in Hu2. apply String.eqb_eq in Ht2.
    destruct Hother as [Hne | Hne]; exfalso; apply Hne; congruence.
  - cbn. apply upsert_keeps.
  - intros env' faults' Hnf'.
    rewrite (get_messages_run req env' faults' _ Hsid Hnul Hfit Hnf').
    cbn [fst].
    assert (Hreader :
      reader req
        (with_chat_messages
           (snd (upsert_user_row (History.sub_or_default req ++ "@demo.local")
                   "Demo User" db))
           (filter (fun m => negb (History.of_session (reader req db)
                                     (History.session_id req) m))
                   (chat_messages db)))
      = reader req db).
    { unfold reader. rewrite upsert_with_chat_messages. cbn [fst].
      rewrite upsert_again. reflexivity. }
    rewrite Hreader, Hempty. reflexivity.
Qed.

End Clearing.

Section Replay.
Context `{Platform}.

(** The upsert reads the [users] table and its counter only. *)
Lemma upsert_reads_users (e n : string) (d1 d2 : DB) :
  users d1 = users d2 -> users_id_seq d1 = users_id_seq d2 ->
  fst (upsert_user_row e n d1) = fst (upsert_user_row e n d2).
Proof.
  intros Hu Hs. unfold upsert_user_row. rewrite Hu, Hs.
  destruct (List.find _ (users d2)); reflexivity.
Qed.

Lemma session_ensured_users req db :
  users (session_ensured req db)
  = users (snd (upsert_user_row (email_of req) "Demo User" db))
  /\ users_id_seq (session_ensured req db)
     = users_id_seq (snd (upsert_user_row (email_of req) "Demo User" db)).
Proof.
  unfold session_ensured.
  destruct (truthy _); [destruct (existsb _ _)|]; split; reflexivity.
Qed.

(** What is said can be read back: after a message has been processed
    (accepted, its ids and its texts taken by their columns, the service
    answering with JSON whose reply is a string, no statement lost), on a
    datastore whose contents are strings, a read by the same subject of
    the token the datastore stores for its session id answers the
    transcript as it was before, followed by the user turn and the
    assistant turn of the message. *)
Theorem processed_message_is_read_back req env faults db code data sid
    env' faults' :
  message_accepted req ->
  ids_fit req = true ->
  pg_text (field req "session_id") = Some sid ->
  sid <> "" ->
  content_ok (JStr (trim_of (field req "message"))) = true ->
  no_fault faults ->
  py_service env (simulate_payload req)
    = Some (mkFetchResponse true code (Some data)) ->
  Server.is_string (assistant_reply data) = true ->
  content_ok (assistant_reply data) = true ->
  jsonb_ok (assistant_meta data) = true ->
  text_contents db ->
  no_fault faults' ->
  let db' := snd (fst (run (message_handler req) env faults db)) in
  let uid := user_of req db in
  let rows :=
    map History.row_of
      (transcript db uid sid
       ++ [user_turn req uid; assistant_turn req uid data])%list in
  fst (fst (History.run
              (History.get_messages (History.mkRequest (Server.user_sub req) sid))
              env' faults' db'))
  = inr (History.messages_answer rows (List.length rows) sid).
Proof.
  intros Hacc Hfit Hsid Hne Htext Hnf Hpy _ Hreply Hmeta _ Hnf' db' uid rows.
  destruct (message_served req env faults db code data
              Hacc Hfit Htext Hnf Hpy Hreply Hmeta) as [_ Hdb].
  fold db' in Hdb.
  destruct (ids_fit_inv _ Hfit) as [Hemail [tok [Hp [Hnul [Hsess Htok]]]]].
  assert (Hts : tok = sid) by congruence.
  rewrite Hts in Hnul, Hsess, Htok. clear Hts Hp tok.
  destruct (session_ensured_users req db) as [Husers Hseq].
  rewrite (get_messages_run (History.mkRequest (Server.user_sub req) sid)
             env' faults' db' Hne Hnul Hemail Hnf'). cbn [fst].
  assert (Hreader : reader (History.mkRequest (Server.user_sub req) sid) db'
                    = uid).
  { unfold reader, uid, user_of.
    change (History.sub_or_default (History.mkRequest (Server.user_sub req) sid))
      with (sub_or_default req).
    rewrite (upsert_reads_users _ _ db'
               (snd (upsert_user_row (email_of req) "Demo User" db))).
    - unfold email_of. rewrite upsert_again. reflexivity.
    - rewrite Hdb. exact Husers.
    - rewrite Hdb. exact Hseq. }
  cbn [History.session_id]. rewrite Hreader.
  assert (Htr : transcript db' uid sid
                = (transcript db uid sid
                   ++ [user_turn req uid; assistant_turn req uid data])%list).
  { unfold transcript. rewrite Hdb. cbn [chat_messages with_chat_messages].
    rewrite filter_app. f_equal.
    unfold user_turn, assistant_turn. cbn [filter message_user_id
      message_session_token]. rewrite Htok, Z.eqb_refl, String.eqb_refl.
    reflexivity. }
  subst rows. rewrite Htr. reflexivity.
Qed.

End Replay.

(** ** The client *)

Section Chatting.
Import ClientFacts.

Lemma current_append_twice (a b : Client.Message) (st : Client.State) :
  Client.current (Client.append_message b (Client.append_message a st))
  = (Client.current st ++ [a; b])%list.
Proof. rewrite !current_append, <- app_assoc. reflexivity. Qed.

(** [sendMessage] either does nothing or appends two messages.  A blank
    input (blank as [String.prototype.trim] has it), or a missing token,
    leaves the state as it is.  Otherwise the array gains the user
    message, with the trimmed input, and right after it one assistant
    message: the reply with the data of the backend as its [meta] when
    the backend answers a 2xx with a body that can be read, and the
    apology, marked as an error, when it answers anything else, when the
    body is [null], or when it cannot be reached. *)
Theorem sendMessage_appends_user_then_assistant
    (backend : bool -> JsVal -> Client.Reply) (useLLM : bool)
    (input : string) (st : Client.State) :
  (trim input = "" \/ Client.token st = "" ->
   Chat.sendMessage backend useLLM input st = st)
  /\ (trim input <> "" -> Client.token st <> "" ->
      let answer := backend useLLM (Chat.message_body st (trim input)) in
      Client.current (Chat.sendMessage backend useLLM input st)
      = (Client.current st
         ++ [Client.mkMessage "user" (JStr (trim input)) JUndefined;
             Chat.shown_answer answer])%list
      /\ Client.msg_role (Chat.shown_answer answer) = "assistant"
      /\ match answer with
         | Client.resolved status responseData =>
             if Client.reply_ok status then
               match responseData with
               | JUndefined | JNull =>
                   Chat.shown_answer answer = Chat.apology
               | _ =>
                   Client.msg_meta (Chat.shown_answer answer)
                   = Js.or (prop responseData "data") (JObj [])
               end
             else Chat.shown_answer answer = Chat.apology
         | Client.rejected => Chat.shown_answer answer = Chat.apology
         end).
Proof.
  split.
  - unfold Chat.sendMessage. intros [Hblank | Htok].
    + rewrite Hblank. reflexivity.
    + rewrite Htok. destruct (String.eqb (trim input) ""); reflexivity.
  - intros Hinput Htok answer. unfold Chat.sendMessage.
    destruct (String.eqb (trim input) "") eqn:Ei;
      [apply String.eqb_eq in Ei; contradiction|].
    destruct (String.eqb (Client.token st) "") eqn:Et;
      [apply String.eqb_eq in Et; contradiction|].
    change (Chat.message_body
              (Client.append_message
                 (Client.mkMessage "user" (JStr (trim input)) JUndefined) st)
              (trim input))
      with (Chat.message_body st (trim input)).
    fold answer. rewrite current_append_twice.
    split; [reflexivity|].
    destruct answer as [|status data]; cbn [Chat.shown_answer].
    + split; reflexivity.
    + destruct (Client.reply_ok status); cbn [negb]; [|split; reflexivity].
      destruct data; cbn; split; reflexivity.
Qed.

(** The confirmation bar after a message is sent: it is on screen exactly
    when the backend answered a 2xx with a body that can be read and
    whose [data] carries both a truthy [needs_confirmation] and a truthy
    [appointment_candidate]; an error answer, or a [null] body, never
    brings it up. *)
Theorem bar_after_sending
    (backend : bool -> JsVal -> Client.Reply) (useLLM : bool)
    (input : string) (st : Client.State) :
  trim input <> "" -> Client.token st <> "" ->
  Client.showConfirmationBar
    (Client.current (Chat.sendMessage backend useLLM input st))
  = match backend useLLM (Chat.message_body st (trim input)) with
    | Client.resolved status responseData =>
        match get responseData "data" with
        | Some data =>
            Client.reply_ok status
            && truthy (prop (Js.or data (JObj [])) "needs_confirmation")
            && truthy (prop (Js.or data (JObj [])) "appointment_candidate")
        | None => false
        end
    | Client.rejected => false
    end.
Proof.
  intros Hinput Htok. unfold Chat.sendMessage.
  destruct (String.eqb (trim input) "") eqn:Ei;
    [apply String.eqb_eq in Ei; contradiction|].
  destruct (String.eqb (Client.token st) "") eqn:Et;
    [apply String.eqb_eq in Et; contradiction|].
  change (Chat.message_body
            (Client.append_message
               (Client.mkMessage "user" (JStr (trim input)) JUndefined) st)
            (trim input))
    with (Chat.message_body st (trim input)).
  rewrite current_append. unfold Client.showConfirmationBar.
  rewrite lastMessage_snoc.
  destruct (backend useLLM (Chat.message_body st (trim input)))
    as [|status data]; cbn [Chat.shown_answer]; [reflexivity|].
  destruct (Client.reply_ok status); cbn [negb andb];
    destruct (get data "data"); reflexivity.
Qed.

End Chatting.

Section Confirming.
Context `{Platform}.
Import ClientFacts.

Lemma confirmation_shown_plain (c : JsVal) (r : Client.Reply) :
  Client.msg_role (Client.confirmation_shown c r) = "assistant"
  /\ truthy (prop (Client.msg_meta (Client.confirmation_shown c r))
                  "appointment_candidate") = false.
Proof.
  unfold Client.confirmation_shown, Client.confirm_network_error.
  destruct r as [|status data]; [split; reflexivity|].
  destruct (status =? 409).
  - destruct (get data "message"); split; reflexivity.
  - destruct (negb (Client.reply_ok status)); [split; reflexivity|].
    destruct (get data "appointment"); [|split; reflexivity].
    destruct (Date_throws c); split; reflexivity.
Qed.

Lemma confirmAppointment_shape (backend : JsVal -> Client.Reply)
    (st : Client.State) (p : Client.Message) :
  Client.token st <> "" ->
  List.find Client.is_proposal (rev (Client.current st)) = Some p ->
  Client.confirmAppointment backend st
  = Client.append_message
      (Client.confirmation_shown (candidate_of p)
         (backend (Client.confirm_body st (candidate_of p) true)))
      (Client.mkState (Client.heap st ++ [rev (Client.current st)])%list
         (Client.messages st) (Client.token st) (Client.sessionId st)).
Proof.
  intros Htok Hfind. unfold Client.confirmAppointment.
  destruct (String.eqb (Client.token st) "") eqn:Et;
    [apply String.eqb_eq in Et; contradiction|].
  rewrite latestProposal_eq. fold (Client.current st). rewrite Hfind.
  reflexivity.
Qed.

(** [confirmAppointment] acts on the latest proposal only, and once.
    Without a token, or with no proposal in the array, the array is left
    as it is.  Otherwise the backend is asked to confirm, for this
    session, the candidate of the latest proposal and nothing else; the
    array gains exactly one assistant message, whatever the answer, and
    that message takes the confirmation bar off the screen. *)
Theorem confirmAppointment_acts_once (backend : JsVal -> Client.Reply)
    (st : Client.State) :
  (Client.token st = ""
   \/ List.find Client.is_proposal (rev (Client.current st)) = None ->
   Client.current (Client.confirmAppointment backend st) = Client.current st)
  /\ (forall p,
        Client.token st <> "" ->
        List.find Client.is_proposal (rev (Client.current st)) = Some p ->
        (exists m,
           Client.current (Client.confirmAppointment backend st)
           = (Client.current st ++ [m])%list
           /\ Client.msg_role m = "assistant")
        /\ Client.showConfirmationBar
             (Client.current (Client.confirmAppointment backend st)) = false
        /\ Client.confirmAppointment backend st
           = Client.confirmAppointment
               (fun _ => backend (Client.confirm_body st (candidate_of p) true))
               st).
Proof.
  split.
  - intros Hno. unfold Client.confirmAppointment.
    destruct (String.eqb (Client.token st) "") eqn:Et; [reflexivity|].
    destruct Hno as [Htok | Hnone];
      [rewrite Htok in Et; discriminate Et|].
    rewrite latestProposal_eq. fold (Client.current st). rewrite Hnone.
    unfold Client.current. cbn. apply read_after_copy.
  - intros p Htok Hfind.
    rewrite (confirmAppointment_shape backend st p Htok Hfind).
    rewrite (confirmAppointment_shape _ st p Htok Hfind).
    rewrite after_scan_append.
    destruct (confirmation_shown_plain (candidate_of p)
                (backend (Client.confirm_body st (candidate_of p) true)))
      as [Hrole Hplain].
    split; [eexists; split; [reflexivity | exact Hrole]|].
    split; [|reflexivity].
    apply no_candidate_appended. exact Hplain.
Qed.

Lemma session_field (sub : option string) (st : Client.State) (c : JsVal)
    (yes : bool) :
  Client.sessionId st <> "" ->
  truthy (field (Server.mkRequest sub (Client.confirm_body st c yes))
            "session_id") = true.
Proof.
  intros Hsid. cbn.
  destruct (String.eqb (Client.sessionId st) "") eqn:E;
    [apply String.eqb_eq in E; contradiction | reflexivity].
Qed.

End Confirming.

(** The buttons in front of the server.  The browser and the server are
    two platforms: each reads and formats dates in its own way. *)
Section Buttons.
Variables server browser : Platform.
Import ClientFacts.

(** The Confirm button, end to end.  The client shows the bar, holds a
    token and a session id, and its request reaches the confirm handler.
    The candidate of its last message is a future date for the server,
    which the datastore reads as the timestamp [t]; the ids fit their
    columns and no statement is lost.  If no confirmed appointment stands
    at [t], pressing Confirm books it: the table gains the confirmed row
    at [t] and the client shows the confirmation, with the time as the
    browser formats it and the row as the server sent it.  If one stands
    there, the table is unchanged and the client shows the server's
    "already booked" message.  Either way the bar goes off. *)
Theorem confirm_button_end_to_end (backend : JsVal -> Client.Reply)
    sub env faults db (st : Client.State) (p : Client.Message) time t :
  Client.token st <> "" ->
  Client.sessionId st <> "" ->
  Client.showConfirmationBar (Client.current st) = true ->
  Client.lastMessage (Client.current st) = Some p ->
  Wire.confirm_reaches (H := server) backend sub env faults db
    (Client.confirm_body st (candidate_of p) true) ->
  Date_of (H := server) (candidate_of p) = Some time ->
  now env < time ->
  ids_fit (H := server)
    (Server.mkRequest sub (Client.confirm_body st (candidate_of p) true))
  = true ->
  has_nul (Date_toLocaleString (Platform := server) time) = false ->
  no_fault faults ->
  pg_timestamp (Platform := server) (candidate_of p) = Some t ->
  Date_throws (H := browser) (candidate_of p) = false ->
  let req := Server.mkRequest sub (Client.confirm_body st (candidate_of p) true) in
  let db' := snd (fst (run (H := server) (confirm_handler (H := server) req)
                         env faults db)) in
  let st' := Client.click_confirm (H := browser) backend st in
  let shown := match Date_of (H := browser) (candidate_of p) with
               | Some at_ => Date_toLocaleString (Platform := browser) at_
               | None => "Invalid Date"
               end in
  Client.showConfirmationBar (Client.current st') = false
  /\ if existsb (confirmed_at t) (appointments db)
     then appointments db' = appointments db
          /\ Client.current st' = (Client.current st ++ [taken_message])%list
     else appointments db'
          = (appointments db ++ [booked req env db t])%list
          /\ Client.current st'
             = (Client.current st
                ++ [booked_message (H := server) shown time
                      (booked req env db t)])%list.
Proof.
  intros Htok Hsid Hbar Hlast Hwire Hd Hn Hfit Hloc Hnf Ht Hthrow
         req db' st' shown.
  destruct (bar_shows_last _ Hbar) as [p' [Hlast' [Hfind _]]].
  rewrite Hlast in Hlast'. inversion Hlast'; subst p'. clear Hlast'.
  assert (Hst : st' = Client.confirmAppointment (H := browser) backend st).
  { subst st'. unfold Client.click_confirm. rewrite Hbar. reflexivity. }
  pose proof (confirmAppointment_shape (H := browser) backend st p Htok Hfind)
    as Hshape.
  rewrite <- Hst in Hshape.
  assert (Hcur : Client.current st'
                 = (Client.current st
                    ++ [Client.confirmation_shown (H := browser) (candidate_of p)
                          (backend
                             (Client.confirm_body st (candidate_of p) true))])%list).
  { rewrite Hshape. apply after_scan_append. }
  split.
  { rewrite Hcur. apply no_candidate_appended. apply confirmation_shown_plain. }
  assert (Hcand : truthy (candidate_of p) = true).
  { apply find_some in Hfind. destruct Hfind as [_ Hp].
    unfold Client.is_proposal in Hp. apply andb_true_iff in Hp. apply Hp. }
  assert (Hs : truthy (field req "session_id") = true)
    by exact (session_field sub st (candidate_of p) true Hsid).
  assert (Ha : truthy (field req "scheduled_at") = true) by exact Hcand.
  assert (Hc : truthy (field req "confirm") = true) by reflexivity.
  rewrite Hcur, Hwire. unfold Wire.confirm_answer. fold req.
  destruct (existsb (confirmed_at t) (appointments db)) eqn:Hex.
  - destruct (confirm_taken (H := server) req env faults db time t
                Hs Ha Hd Hn Hc Hfit Hnf Ht Hex) as [Hout [Happ _]].
    fold db' in Happ. rewrite Hout. split; [exact Happ | reflexivity].
  - destruct (confirm_free (H := server) req env faults db time t
                Hs Ha Hd Hn Hc Hfit Hloc Hnf Ht Hex) as [Hout [Happ _]].
    fold db' in Happ. rewrite Hout. split; [exact Happ|].
    cbn. rewrite Hthrow. reflexivity.
Qed.

(** The Decline button, end to end.  The client shows the bar and holds a
    token and a session id, and its request reaches the confirm handler;
    the candidate of its last message is a future date for the server;
    the ids and the candidate fit their columns and no statement is lost.
    Pressing Decline appends the "No problem!" message, which takes the
    bar off; on the server the appointments are untouched and the
    transcript gains the one declined turn, which is no proposal when it
    is loaded again. *)
Theorem decline_button_end_to_end (backend : JsVal -> Client.Reply)
    sub env faults db (st : Client.State) (p : Client.Message) time :
  Client.token st <> "" ->
  Client.sessionId st <> "" ->
  Client.showConfirmationBar (Client.current st) = true ->
  Client.lastMessage (Client.current st) = Some p ->
  Wire.confirm_reaches (H := server) backend sub env faults db
    (Client.confirm_body st (candidate_of p) false) ->
  Date_of (H := server) (candidate_of p) = Some time ->
  now env < time ->
  ids_fit (H := server)
    (Server.mkRequest sub (Client.confirm_body st (candidate_of p) false))
  = true ->
  jsonb_ok (candidate_of p) = true ->
  no_fault faults ->
  let req := Server.mkRequest sub (Client.confirm_body st (candidate_of p) false) in
  let db' := snd (fst (run (H := server) (confirm_handler (H := server) req)
                         env faults db)) in
  let st' := Client.click_decline (H := browser) backend st in
  let turn := declined_turn (H := server) req (user_of req db) in
  Client.current st' = (Client.current st ++ [decline_accepted])%list
  /\ Client.showConfirmationBar (Client.current st') = false
  /\ appointments db' = appointments db
  /\ chat_messages db' = (chat_messages db ++ [turn])%list
  /\ Client.is_proposal (Client.format_message turn) = false.
Proof.
  intros Htok Hsid Hbar Hlast Hwire Hd Hn Hfit Hjson Hnf req db' st' turn.
  destruct (bar_shows_last _ Hbar) as [p' [Hlast' [Hfind _]]].
  rewrite Hlast in Hlast'. inversion Hlast'; subst p'. clear Hlast'.
  assert (Hst : st' = Client.declineAppointment backend st).
  { subst st'. unfold Client.click_decline. rewrite Hbar. reflexivity. }
  pose proof (declineAppointment_shape backend st p Htok Hfind) as Hshape.
  rewrite <- Hst in Hshape.
  assert (Hcur : Client.current st'
                 = (Client.current st
                    ++ [Client.decline_shown
                          (backend
                             (Client.confirm_body st (candidate_of p) false))])%list).
  { rewrite Hshape. apply after_scan_append. }
  assert (Hcand : truthy (candidate_of p) = true).
  { apply find_some in Hfind. destruct Hfind as [_ Hp].
    unfold Client.is_proposal in Hp. apply andb_true_iff in Hp. apply Hp. }
  assert (Hs : truthy (field req "session_id") = true)
    by exact (session_field sub st (candidate_of p) false Hsid).
  assert (Ha : truthy (field req "scheduled_at") = true) by exact Hcand.
  assert (Hc : truthy (field req "confirm") = false) by reflexivity.
  destruct (decline_no_fault (H := server) req env faults db time
              Hs Ha Hd Hn Hc Hfit Hjson Hnf) as [Hout Hdb].
  fold db' in Hdb.
  assert (Hshown : Client.current st'
                   = (Client.current st ++ [decline_accepted])%list).
  { rewrite Hcur, Hwire. unfold Wire.confirm_answer. fold req. rewrite Hout.
    reflexivity. }
  split; [exact Hshown|]. split.
  { rewrite Hshown. apply no_candidate_appended. reflexivity. }
  rewrite Hdb. cbn [appointments chat_messages with_chat_messages].
  split; [apply (session_ensured_keeps (H := server))|].
  split; reflexivity.
Qed.

(** A proposal that has run out.  The bar is on screen, but the candidate
    of the last message is, for the server, no date or not a future one
    ([new Date] of it returning).  Then neither button gets through: the
    server answers 400 to the confirmation and to the decline alike and
    leaves the datastore as it was, and the client, which reads that
    answer, shows its "try again" message and takes the bar off. *)
Theorem expired_proposal_buttons_fail (backend : JsVal -> Client.Reply)
    sub env faults db (st : Client.State) (p : Client.Message) :
  Client.token st <> "" ->
  Client.showConfirmationBar (Client.current st) = true ->
  Client.lastMessage (Client.current st) = Some p ->
  (Date_throws (H := server) (candidate_of p) = false
   /\ Date_of (H := server) (candidate_of p) = None)
  \/ (exists time, Date_of (H := server) (candidate_of p) = Some time
                   /\ time <= now env) ->
  forall yes : bool,
    Wire.confirm_reaches (H := server) backend sub env faults db
      (Client.confirm_body st (candidate_of p) yes) ->
    let req := Server.mkRequest sub (Client.confirm_body st (candidate_of p) yes) in
    let r := run (H := server) (confirm_handler (H := server) req)
               env faults db in
    let st' := if yes then Client.click_confirm (H := browser) backend st
               else Client.click_decline (H := browser) backend st in
    status_of (fst (fst r)) = 400
    /\ snd (fst r) = db
    /\ Client.current st'
       = (Client.current st
          ++ [if yes then confirm_refused else decline_refused])%list
    /\ Client.showConfirmationBar (Client.current st') = false.
Proof.
  intros Htok Hbar Hlast Hexp yes Hwire req r st'.
  destruct (bar_shows_last _ Hbar) as [p' [Hlast' [Hfind _]]].
  rewrite Hlast in Hlast'. inversion Hlast'; subst p'. clear Hlast'.
  assert (Hbad : truthy (field req "session_id") = false
                 \/ truthy (field req "scheduled_at") = false
                 \/ (Date_throws (H := server) (field req "scheduled_at") = false
                     /\ Date_of (H := server) (field req "scheduled_at") = None)
                 \/ (exists time,
                       Date_of (H := server) (field req "scheduled_at") = Some time
                       /\ time <= now env)).
  { right. right. destruct Hexp as [Hnone | Hpast]; [left | right]; assumption. }
  destruct (confirm_guards (H := server) req env faults db Hbad)
    as [Hstatus [Hdb _]].
  fold r in Hstatus, Hdb.
  assert (Hreply : exists body, backend (Client.confirm_body st (candidate_of p) yes)
                                = Client.resolved 400 body).
  { rewrite Hwire. unfold Wire.confirm_answer. fold req. fold r.
    destruct (fst (fst r)) as [e | res]; [discriminate Hstatus|].
    exists (res_body res). cbn in Hstatus. cbn. rewrite Hstatus. reflexivity. }
  destruct Hreply as [body Hreply].
  assert (Hcur : Client.current st'
                 = (Client.current st
                    ++ [if yes then confirm_refused else decline_refused])%list).
  { subst st'. unfold Client.click_confirm, Client.click_decline.
    rewrite Hbar. destruct yes.
    - rewrite (confirmAppointment_shape (H := browser) backend st p Htok Hfind),
        Hreply.
      apply after_scan_append.
    - rewrite (declineAppointment_shape backend st p Htok Hfind), Hreply.
      apply after_scan_append. }
  split; [exact Hstatus|]. split; [exact Hdb|]. split; [exact Hcur|].
  rewrite Hcur. apply no_candidate_appended. destruct yes; reflexivity.
Qed.

End Buttons.

Section Reloading.
Context `{Platform}.
Import ClientFacts.
Import Chat.

(** The history load, end to end.  Without a token or a session id the
    client asks nothing and keeps its array.  With both, when the request
    reaches the history route with [param] as its session id (the session
    id of the client itself when the path is built from characters a URL
    leaves alone), [param] is not empty and holds no NUL character, the
    demo email of the subject fits its column, the contents of the
    datastore are strings and no statement is lost on the server, the
    array is replaced by the transcript stored for that subject under
    [param], each turn with its role, content and [meta] (an absent
    [meta] read as [null]), in the order of the transcript.
    When the first statement of the server is lost the client keeps its
    array. *)
Theorem history_load_end_to_end
    (backend : string -> option History.Answer) sub param env faults db
    (st : Client.State) :
  (Client.token st = "" \/ Client.sessionId st = "" ->
   Chat.loadConversationHistory backend st = st)
  /\ (Client.token st <> "" -> Client.sessionId st <> "" ->
      Wire.history_reaches backend (Client.sessionId st) sub param
        env faults db ->
      param <> "" ->
      has_nul param = false ->
      fits 255 (History.sub_or_default (History.mkRequest sub param)
                ++ "@demo.local") = true ->
      text_contents db ->
      no_fault faults ->
      Client.current (Chat.loadConversationHistory backend st)
      = map Client.format_message
          (transcript db (reader (History.mkRequest sub param) db) param))
  /\ (Client.token st <> "" -> Client.sessionId st <> "" ->
      Wire.history_reaches backend (Client.sessionId st) sub param
        env faults db ->
      (exists rest, faults = true :: rest) ->
      Chat.loadConversationHistory backend st = st).
Proof.
  unfold Chat.loadConversationHistory, Wire.history_reaches.
  split; [|split].
  - intros [Ht | Hs]; [rewrite Ht | rewrite Hs]; cbn;
      rewrite ?orb_true_r; reflexivity.
  - intros Htok Hsid Hwire Hparam Hnul Hfit _ Hnf.
    destruct (String.eqb (Client.token st) "") eqn:Et;
      [apply String.eqb_eq in Et; contradiction|].
    destruct (String.eqb (Client.sessionId st) "") eqn:Es;
      [apply String.eqb_eq in Es; contradiction|].
    cbn [orb]. rewrite Hwire. unfold Wire.history_answer.
    rewrite (get_messages_run (History.mkRequest sub param)
               env faults db Hparam Hnul Hfit Hnf).
    cbn [fst]. unfold Chat.set_messages, Client.alloc, Client.current.
    cbn [Client.heap Client.messages History.session_id].
    rewrite read_new, map_map. reflexivity.
  - intros Htok Hsid Hwire [rest Hf]. subst faults.
    destruct (String.eqb (Client.token st) "") eqn:Et;
      [apply String.eqb_eq in Et; contradiction|].
    destruct (String.eqb (Client.sessionId st) "") eqn:Es;
      [apply String.eqb_eq in Es; contradiction|].
    cbn [orb]. rewrite Hwire.
    unfold Wire.history_answer, History.get_messages, upsertUser.
    cbv zeta. cbn [History.session_id].
    destruct (String.eqb param ""); reflexivity.
Qed.

Lemma prop_or_empty (d : JsVal) (k : string) :
  prop (Js.or d (JObj [])) k = prop d k.
Proof.
  destruct d as [| | [|] | n | s | items | fs]; unfold Js.or; cbn;
    try reflexivity; [destruct (n =? 0) | destruct (String.eqb s "")];
    reflexivity.
Qed.

Lemma truthy_nullish_false (v : JsVal) :
  truthy (Js.nullish (Js.nullish v JUndefined) (JBool false)) = truthy v.
Proof. destruct v; reflexivity. Qed.

(** What the client shows for a proposal when it arrives and what it
    shows for it after a reload agree, for a flat answer of the service
    (no nested [data] object): the live message, whose [meta] is the
    answer itself, and the stored assistant turn as reloaded are both
    proposals or both not, carry the same candidate, bring the
    confirmation bar up in the same cases, and have the same content when
    the answer has a reply.  Without a reply the two differ: each side
    has its own fallback sentence. *)
Theorem live_and_reloaded_proposal_agree req uid data
    (history : list Client.Message) :
  prop data "data" = JUndefined ->
  let live := shown_answer
                (Client.resolved 200 (JObj [("ok", JBool true); ("data", data)])) in
  let stored := Client.format_message (assistant_turn req uid data) in
  Client.is_proposal live = Client.is_proposal stored
  /\ (Client.is_proposal live = true -> candidate_of live = candidate_of stored)
  /\ Client.showConfirmationBar (history ++ [live])
     = Client.showConfirmationBar (history ++ [stored])
  /\ (truthy (prop data "reply") = true ->
      Client.msg_content live = Client.msg_content stored)
  /\ (truthy (prop data "reply") = false ->
      Client.msg_content live <> Client.msg_content stored).
Proof.
  intros Hflat live stored. subst live stored.
  unfold Client.showConfirmationBar. rewrite !lastMessage_snoc.
  unfold assistant_turn, assistant_reply, assistant_meta,
    Client.format_message, Client.is_proposal, candidate_of, shown_answer.
  change (Client.reply_ok 200) with true. change (negb true) with false.
  cbv iota.
  change (get (JObj [("ok", JBool true); ("data", data)]) "data")
    with (Some data).
  cbv beta iota zeta.
  cbn [Client.msg_role Client.msg_meta Client.msg_content
       Db.role Db.content Db.meta].
  rewrite Hflat, !prop_or_empty.
  change (prop JUndefined "appointment_candidate") with JUndefined.
  change (prop JUndefined "needs_confirmation") with JUndefined.
  change (prop JUndefined "intent") with JUndefined.
  change (prop JUndefined "reply") with JUndefined.
  change (String.eqb "assistant" "assistant") with true. cbn [andb].
  generalize (prop data "appointment_candidate") as c.
  generalize (prop data "needs_confirmation") as n.
  generalize (prop data "reply") as r.
  generalize (prop data "intent") as i.
  intros i r n c.
  assert (Hobj : forall fs v, Js.or (JObj fs) v = JObj fs) by reflexivity.
  assert (Hr : truthy r = true ->
               Js.or r (JStr "I'm sorry, I couldn't process that request.")
               = Js.or (Js.or r JUndefined)
                   (JStr "I apologize, I could not process that request.")).
  { intros Hr. unfold Js.or. rewrite Hr. cbn. rewrite Hr. reflexivity. }
  assert (Hn : truthy r = false ->
               Js.or r (JStr "I'm sorry, I couldn't process that request.")
               <> Js.or (Js.or r JUndefined)
                    (JStr "I apologize, I could not process that request.")).
  { intros Hn. unfold Js.or. rewrite Hn. cbn. intros Heq. discriminate Heq. }
  assert (Hc : truthy (Js.or c JUndefined) = truthy c
               /\ (truthy c = true -> Js.or c JUndefined = c)).
  { unfold Js.or. destruct (truthy c) eqn:Ec; split;
      solve [reflexivity | exact Ec | intros Hfalse; discriminate Hfalse]. }
  destruct Hc as [Hc1 Hc2]. rewrite Hc1.
  destruct (truthy c) eqn:Ec.
  - rewrite (Hc2 eq_refl), !Hobj.
    cbn [prop lookup String.eqb Ascii.eqb Bool.eqb].
    rewrite truthy_nullish_false, Ec.
    repeat split; solve [reflexivity | exact Hr | exact Hn].
  - rewrite !Hobj.
    cbn [prop lookup String.eqb Ascii.eqb Bool.eqb truthy].
    rewrite andb_false_r.
    repeat split;
      solve [reflexivity | intros Hfalse; discriminate Hfalse | exact Hr
            | exact Hn].
Qed.

End Reloading.

(* ================================================================== *)
(** * The further properties at work *)
(* ================================================================== *)

Section FurtherScenarios.
Import Sample.
#[local] Existing Instance Sample.platform.

(** A message of blanks, a no-break space among them, is turned away. *)
Lemma message_guard_witness :
  let req := message_request "user_1" "s1" "   " in
  (truthy (field req "message") = false
   \/ Server.is_string (field req "message") = false
   \/ trim_of (field req "message") = "")
  /\ fst (run (message_handler req) (proposing slot) [] schema_db)
     = (inr (res_status_json 400 (JObj
          [("error", JStr "Message is required and must be a non-empty string")])),
        schema_db).
Proof.
  intros req.
  assert (Hblank : truthy (field req "message") = false
                   \/ Server.is_string (field req "message") = false
                   \/ trim_of (field req "message") = "")
    by (right; right; reflexivity).
  split; [exact Hblank|].
  rewrite (message_guard req (proposing slot) [] schema_db Hblank).
  reflexivity.
Defined.

(** The session that was offered the slot books it. *)
Lemma confirmation_books_free_slot_witness :
  let req := confirm_request "user_1" "s1" slot true in
  let r := run (confirm_handler req) unreachable [] db_proposed in
  (truthy (field req "session_id") = true
   /\ truthy (field req "scheduled_at") = true
   /\ Date_of (field req "scheduled_at") = Some 1759831200000
   /\ now unreachable < 1759831200000
   /\ truthy (field req "confirm") = true
   /\ ids_fit req = true
   /\ has_nul (Date_toLocaleString 1759831200000) = false
   /\ no_fault []
   /\ pg_timestamp (field req "scheduled_at") = Some 1759831200000
   /\ existsb (confirmed_at 1759831200000) (appointments db_proposed) = false)
  /\ appointments (snd (fst r))
     = [booked req unreachable db_proposed 1759831200000].
Proof.
  intros req r.
  assert (Hs : truthy (field req "session_id") = true) by reflexivity.
  assert (Ha : truthy (field req "scheduled_at") = true) by reflexivity.
  assert (Hd : Date_of (field req "scheduled_at") = Some 1759831200000)
    by reflexivity.
  assert (Hn : now unreachable < 1759831200000) by reflexivity.
  assert (Hc : truthy (field req "confirm") = true) by reflexivity.
  assert (Hi : ids_fit req = true) by reflexivity.
  assert (Hl : has_nul (Date_toLocaleString 1759831200000) = false)
    by reflexivity.
  assert (Hf : no_fault []) by reflexivity.
  assert (Hp : pg_timestamp (field req "scheduled_at") = Some 1759831200000)
    by reflexivity.
  assert (Ht : existsb (confirmed_at 1759831200000) (appointments db_proposed)
               = false) by reflexivity.
  split; [repeat split; assumption|].
  destruct (confirmation_books_free_slot req unreachable [] db_proposed
              1759831200000 1759831200000 Hs Ha Hd Hn Hc Hi Hl Hf Hp Ht)
    as [_ [Happ _]].
  exact Happ.
Defined.

(** A second session asks for the slot the first one has just booked. *)
Lemma second_confirmation_conflicts_witness :
  let req1 := confirm_request "user_1" "s1" slot true in
  let req2 := confirm_request "user_2" "s2" slot true in
  let db1 := snd (fst (run (confirm_handler req1) unreachable [] schema_db)) in
  let r2 := run (confirm_handler req2) unreachable [] db1 in
  (truthy (field req1 "session_id") = true
   /\ truthy (field req1 "scheduled_at") = true
   /\ Date_of (field req1 "scheduled_at") = Some 1759831200000
   /\ now unreachable < 1759831200000
   /\ truthy (field req1 "confirm") = true
   /\ ids_fit req1 = true
   /\ has_nul (Date_toLocaleString 1759831200000) = false
   /\ no_fault []
   /\ pg_timestamp (field req1 "scheduled_at") = Some 1759831200000
   /\ existsb (confirmed_at 1759831200000) (appointments schema_db) = false
   /\ truthy (field req2 "session_id") = true
   /\ truthy (field req2 "scheduled_at") = true
   /\ Date_of (field req2 "scheduled_at") = Some 1759831200000
   /\ truthy (field req2 "confirm") = true
   /\ ids_fit req2 = true
   /\ pg_timestamp (field req2 "scheduled_at") = Some 1759831200000)
  /\ fst (fst r2) = inr conflict_response
  /\ appointments (snd (fst r2))
     = [booked req1 unreachable schema_db 1759831200000].
Proof.
  intros req1 req2 db1 r2.
  assert (Hs : truthy (field req1 "session_id") = true) by reflexivity.
  assert (Ha : truthy (field req1 "scheduled_at") = true) by reflexivity.
  assert (Hd : Date_of (field req1 "scheduled_at") = Some 1759831200000)
    by reflexivity.
  assert (Hn : now unreachable < 1759831200000) by reflexivity.
  assert (Hc : truthy (field req1 "confirm") = true) by reflexivity.
  assert (Hi : ids_fit req1 = true) by reflexivity.
  assert (Hl : has_nul (Date_toLocaleString 1759831200000) = false)
    by reflexivity.
  assert (Hf : no_fault []) by reflexivity.
  assert (Hp : pg_timestamp (field req1 "scheduled_at") = Some 1759831200000)
    by reflexivity.
  assert (Ht : existsb (confirmed_at 1759831200000) (appointments schema_db)
               = false) by reflexivity.
  assert (Hs2 : truthy (field req2 "session_id") = true) by reflexivity.
  assert (Ha2 : truthy (field req2 "scheduled_at") = true) by reflexivity.
  assert (Hd2 : Date_of (field req2 "scheduled_at") = Some 1759831200000)
    by reflexivity.
  assert (Hc2 : truthy (field req2 "confirm") = true) by reflexivity.
  assert (Hi2 : ids_fit req2 = true) by reflexivity.
  assert (Hp2 : pg_timestamp (field req2 "scheduled_at") = Some 1759831200000)
    by reflexivity.
  split; [repeat split; assumption|].
  destruct (second_confirmation_conflicts req1 unreachable [] req2 unreachable []
              schema_db 1759831200000 1759831200000 1759831200000
              Hs Ha Hd Hn Hc Hi Hl Hf Hp Ht Hs2 Ha2 Hd2 Hn Hc2 Hi2 Hf Hp2)
    as [Hout [Happ _]].
  split; [exact Hout | exact Happ].
Defined.

(** A session token seen for the first time gets a session id, and any
    later request with a token of that text, here the number 5 after the
    string of its digit, is handed the same id. *)
Lemma ensureSession_finds_what_it_made_witness :
  let db := snd (fst (run (upsertUser "user_1") unreachable [] schema_db)) in
  let r := run (ensureSession 3 (JStr "5")) unreachable [] db in
  (truthy (JStr "5") = true
   /\ pg_text (JStr "5") = Some "5"
   /\ fits 255 "5" = true
   /\ has_user 3 db = true
   /\ no_fault []
   /\ truthy (JNum 5) = true
   /\ pg_text (JNum 5) = Some "5")
  /\ exists id,
       fst (fst r) = inr (JNum id)
       /\ run (ensureSession 4 (JNum 5)) (proposing slot) [false]
            (snd (fst r))
          = (inr (JNum id), snd (fst r), [(select_session, false)]).
Proof.
  intros db r.
  assert (Ht : truthy (JStr "5") = true) by reflexivity.
  assert (Hp : pg_text (JStr "5") = Some "5") by reflexivity.
  assert (Hfit : fits 255 "5" = true) by reflexivity.
  assert (Hu : has_user 3 db = true) by reflexivity.
  assert (Hf : no_fault []) by reflexivity.
  assert (Ht' : truthy (JNum 5) = true) by reflexivity.
  assert (Hp' : pg_text (JNum 5) = Some "5") by reflexivity.
  assert (Hf' : no_fault [false]) by reflexivity.
  split; [repeat split; assumption|].
  destruct (proj2 (ensureSession_finds_what_it_made 3 (JStr "5") "5"
                     unreachable [] db) Ht Hp Hfit Hu Hf)
    as [id [Hid Hagain]].
  exists id. split; [exact Hid|].
  exact (Hagain 4 (JNum 5) (proposing slot) [false] Ht' Hp' Hf').
Defined.

(** A message in session [s1] leaves the transcript of [s2] alone. *)
Lemma other_transcripts_untouched_witness :
  session_text (field greeting "session_id") <> inr (Some "s2")
  /\ transcript
       (snd (fst (run (message_handler greeting) (proposing slot) [] db_taken)))
       3 "s2"
     = transcript db_taken 3 "s2".
Proof.
  assert (Hne : session_text (field greeting "session_id") <> inr (Some "s2"))
    by (vm_compute; discriminate).
  split; [exact Hne|].
  exact (proj1 other_transcripts_untouched greeting (proposing slot) []
           db_taken 3 "s2" Hne).
Defined.


(** The transcript of the session that was offered the slot. *)
Lemma history_is_the_transcript_witness :
  let req := History.mkRequest (Some "user_1") "s1" in
  let r := History.run (History.get_messages req) unreachable [] db_proposed in
  (History.session_id req <> ""
   /\ has_nul (History.session_id req) = false
   /\ fits 255 (History.sub_or_default req ++ "@demo.local") = true
   /\ text_contents db_proposed
   /\ no_fault [])
  /\ option_map History.answer_status
       (match fst (fst r) with inr a => Some a | inl _ => None end)
     = Some 200
  /\ chat_messages (snd (fst r)) = chat_messages db_proposed.
Proof.
  intros req r.
  assert (Hsid : History.session_id req <> "") by discriminate.
  assert (Hnul : has_nul (History.session_id req) = false) by reflexivity.
  assert (Hfit : fits 255 (History.sub_or_default req ++ "@demo.local") = true)
    by reflexivity.
  assert (Htx : text_contents db_proposed) by (repeat constructor).
  assert (Hf : no_fault []) by reflexivity.
  split; [repeat split; assumption|].
  pose proof (proj1 (proj2 (history_is_the_transcript req unreachable []
                              db_proposed)) Hsid Hnul Hfit Htx Hf) as Hread.
  cbv zeta in Hread. destruct Hread as [Hout Hsame].
  split; [subst r; rewrite Hout; reflexivity | exact Hsame].
Defined.

(** Clearing the transcript of that session. *)
Lemma clearing_a_transcript_witness :
  let req := History.mkRequest (Some "user_1") "s1" in
  let r := History.run (History.delete_messages_handler req) unreachable []
             db_proposed in
  (History.session_id req <> ""
   /\ has_nul (History.session_id req) = false
   /\ fits 255 (History.sub_or_default req ++ "@demo.local") = true
   /\ no_fault [])
  /\ fst (fst r) = inr (History.deleted_answer 2 "s1")
  /\ transcript (snd (fst r)) 3 "s1" = [].
Proof.
  intros req r.
  assert (Hsid : History.session_id req <> "") by discriminate.
  assert (Hnul : has_nul (History.session_id req) = false) by reflexivity.
  assert (Hfit : fits 255 (History.sub_or_default req ++ "@demo.local") = true)
    by reflexivity.
  assert (Hf : no_fault []) by reflexivity.
  split; [repeat split; assumption|].
  pose proof (clearing_a_transcript req unreachable [] db_proposed
                Hsid Hnul Hfit Hf) as Hclear.
  cbv zeta in Hclear. destruct Hclear as [Hout [Hgone _]].
  split; [exact Hout | exact Hgone].
Defined.

(** A processed message is read back with its two turns. *)
Lemma processed_message_is_read_back_witness :
  let db' := snd (fst (run (message_handler greeting) (proposing slot) []
                         schema_db)) in
  (message_accepted greeting
   /\ ids_fit greeting = true
   /\ pg_text (field greeting "session_id") = Some "s1"
   /\ "s1" <> ""
   /\ content_ok (JStr (trim_of (field greeting "message"))) = true
   /\ no_fault []
   /\ py_service (proposing slot) (simulate_payload greeting)
      = Some (mkFetchResponse true 200 (Some (proposal slot)))
   /\ Server.is_string (assistant_reply (proposal slot)) = true
   /\ content_ok (assistant_reply (proposal slot)) = true
   /\ jsonb_ok (assistant_meta (proposal slot)) = true
   /\ text_contents schema_db)
  /\ fst (fst (History.run
                 (History.get_messages (History.mkRequest (Some "user_1") "s1"))
                 unreachable [] db'))
     = inr (History.messages_answer
              (map History.row_of
                 [user_turn greeting 3; assistant_turn greeting 3 (proposal slot)])
              2 "s1").
Proof.
  intros db'.
  assert (Hi : ids_fit greeting = true) by reflexivity.
  assert (Hs : pg_text (field greeting "session_id") = Some "s1")
    by reflexivity.
  assert (Hne : "s1" <> "") by discriminate.
  assert (Ht : content_ok (JStr (trim_of (field greeting "message"))) = true)
    by reflexivity.
  assert (Hf : no_fault []) by reflexivity.
  assert (Hpy : py_service (proposing slot) (simulate_payload greeting)
                = Some (mkFetchResponse true 200 (Some (proposal slot))))
    by reflexivity.
  assert (Hr : content_ok (assistant_reply (proposal slot)) = true)
    by reflexivity.
  assert (Hm : jsonb_ok (assistant_meta (proposal slot)) = true)
    by reflexivity.
  assert (Hst : Server.is_string (assistant_reply (proposal slot)) = true)
    by reflexivity.
  assert (Htx : text_contents schema_db) by (repeat constructor).
  split; [repeat split; solve [exact greeting_accepted | assumption]|].
  exact (processed_message_is_read_back greeting (proposing slot) [] schema_db
           200 (proposal slot) "s1" unreachable []
           greeting_accepted Hi Hs Hne Ht Hf Hpy Hst Hr Hm Htx Hf).
Defined.

(** A client with a token sends a greeting to a server whose service
    proposes the slot: two messages are appended and the bar comes up. *)
Lemma sendMessage_appends_user_then_assistant_witness :
  let backend := fun (_ : bool) (body : JsVal) =>
                   Wire.message_answer (Some "user_1") (proposing slot) []
                     schema_db body in
  let st := Client.mkState [[]] 0 "token" "s1" in
  (trim " hello " <> "" /\ Client.token st <> "")
  /\ List.length (Client.current (Chat.sendMessage backend true " hello " st))
     = 2%nat.
Proof.
  intros backend st.
  assert (Hin : trim " hello " <> "") by (vm_compute; discriminate).
  assert (Htok : Client.token st <> "") by discriminate.
  split; [split; assumption|].
  pose proof (proj2 (sendMessage_appends_user_then_assistant backend true
                       " hello " st) Hin Htok) as Hsent.
  cbv zeta in Hsent. destruct Hsent as [Hcur _].
  rewrite Hcur. reflexivity.
Defined.

Lemma bar_after_sending_witness :
  let backend := fun (_ : bool) (body : JsVal) =>
                   Wire.message_answer (Some "user_1") (proposing slot) []
                     schema_db body in
  let st := Client.mkState [[]] 0 "token" "s1" in
  (trim " hello " <> "" /\ Client.token st <> "")
  /\ Client.showConfirmationBar
       (Client.current (Chat.sendMessage backend true " hello " st)) = true.
Proof.
  intros backend st.
  assert (Hin : trim " hello " <> "") by (vm_compute; discriminate).
  assert (Htok : Client.token st <> "") by discriminate.
  split; [split; assumption|].
  rewrite (bar_after_sending backend true " hello " st Hin Htok).
  reflexivity.
Defined.

(** Pressing Confirm with a backend that answers 200 appends one
    assistant message and takes the bar off. *)
Lemma confirmAppointment_acts_once_witness :
  let backend := fun _ : JsVal => Client.resolved 200 (JObj []) in
  let p := Client.format_message (assistant_turn greeting 3 (proposal slot)) in
  (Client.token offered <> ""
   /\ List.find Client.is_proposal (rev (Client.current offered)) = Some p)
  /\ Client.showConfirmationBar
       (Client.current (Client.confirmAppointment backend offered)) = false.
Proof.
  intros backend p.
  assert (Htok : Client.token offered <> "") by discriminate.
  assert (Hfind : List.find Client.is_proposal (rev (Client.current offered))
                  = Some p) by reflexivity.
  split; [split; assumption|].
  destruct (proj2 (confirmAppointment_acts_once backend offered) p Htok Hfind)
    as [_ [Hoff _]].
  exact Hoff.
Defined.

(** The offered client presses Confirm while the slot is free: the row is
    inserted and the bar goes off. *)
Lemma confirm_button_end_to_end_witness :
  let backend := Wire.confirm_answer (Some "user_1") unreachable []
                   db_proposed in
  let p := Client.format_message (assistant_turn greeting 3 (proposal slot)) in
  let body := Client.confirm_body offered (candidate_of p) true in
  let req := Server.mkRequest (Some "user_1") body in
  let db' := snd (fst (run (confirm_handler req) unreachable [] db_proposed)) in
  let st' := Client.click_confirm backend offered in
  (Client.token offered <> ""
   /\ Client.sessionId offered <> ""
   /\ Client.showConfirmationBar (Client.current offered) = true
   /\ Client.lastMessage (Client.current offered) = Some p
   /\ Wire.confirm_reaches backend (Some "user_1") unreachable [] db_proposed
        body
   /\ Date_of (candidate_of p) = Some 1759831200000
   /\ now unreachable < 1759831200000
   /\ ids_fit req = true
   /\ has_nul (Date_toLocaleString 1759831200000) = false
   /\ no_fault []
   /\ pg_timestamp (candidate_of p) = Some 1759831200000
   /\ Date_throws (candidate_of p) = false)
  /\ Client.showConfirmationBar (Client.current st') = false
  /\ appointments db' = [booked req unreachable db_proposed 1759831200000].
Proof.
  intros backend p body req db' st'.
  assert (Htok : Client.token offered <> "") by discriminate.
  assert (Hsid : Client.sessionId offered <> "") by discriminate.
  assert (Hbar : Client.showConfirmationBar (Client.current offered) = true)
    by reflexivity.
  assert (Hlast : Client.lastMessage (Client.current offered) = Some p)
    by reflexivity.
  assert (Hw : Wire.confirm_reaches backend (Some "user_1") unreachable []
                 db_proposed body) by reflexivity.
  assert (Hd : Date_of (candidate_of p) = Some 1759831200000) by reflexivity.
  assert (Hn : now unreachable < 1759831200000) by reflexivity.
  assert (Hi : ids_fit req = true) by reflexivity.
  assert (Hl : has_nul (Date_toLocaleString 1759831200000) = false)
    by reflexivity.
  assert (Hf : no_fault []) by reflexivity.
  assert (Hp : pg_timestamp (candidate_of p) = Some 1759831200000)
    by reflexivity.
  assert (Hth : Date_throws (candidate_of p) = false) by reflexivity.
  split; [repeat split; assumption|].
  pose proof (confirm_button_end_to_end platform platform backend
                (Some "user_1") unreachable [] db_proposed offered p
                1759831200000 1759831200000
                Htok Hsid Hbar Hlast Hw Hd Hn Hi Hl Hf Hp Hth) as Hpress.
  cbv zeta in Hpress. destruct Hpress as [Hoff Hrest].
  split; [exact Hoff|].
  assert (Hfree : existsb (confirmed_at 1759831200000)
                    (appointments db_proposed) = false) by reflexivity.
  rewrite Hfree in Hrest. destruct Hrest as [Happ _]. exact Happ.
Defined.

(** A client that starts empty loads the transcript of its session. *)
Lemma history_load_end_to_end_witness :
  let backend := Wire.history_answer (Some "user_1") unreachable []
                   db_proposed in
  let st := Client.mkState [[]] 0 "token" "s1" in
  (Client.token st <> ""
   /\ Client.sessionId st <> ""
   /\ Wire.history_reaches backend (Client.sessionId st) (Some "user_1") "s1"
        unreachable [] db_proposed
   /\ "s1" <> ""
   /\ has_nul "s1" = false
   /\ fits 255 (History.sub_or_default (History.mkRequest (Some "user_1") "s1")
                ++ "@demo.local") = true
   /\ text_contents db_proposed
   /\ no_fault [])
  /\ Client.current (Chat.loadConversationHistory backend st)
     = reloaded db_proposed.
Proof.
  intros backend st.
  assert (Htok : Client.token st <> "") by discriminate.
  assert (Hsid : Client.sessionId st <> "") by discriminate.
  assert (Hw : Wire.history_reaches backend (Client.sessionId st)
                 (Some "user_1") "s1" unreachable [] db_proposed)
    by reflexivity.
  assert (Hparam : "s1" <> "") by discriminate.
  assert (Hnul : has_nul "s1" = false) by reflexivity.
  assert (Hfit : fits 255 (History.sub_or_default
                             (History.mkRequest (Some "user_1") "s1")
                           ++ "@demo.local") = true) by reflexivity.
  assert (Htx : text_contents db_proposed) by (repeat constructor).
  assert (Hf : no_fault []) by reflexivity.
  split; [repeat split; assumption|].
  rewrite (proj1 (proj2 (history_load_end_to_end backend (Some "user_1") "s1"
                           unreachable [] db_proposed st))
             Htok Hsid Hw Hparam Hnul Hfit Htx Hf).
  reflexivity.
Defined.

(** The proposal of the slot, as it arrives and as it is reloaded. *)
Lemma live_and_reloaded_proposal_agree_witness :
  let live := Chat.shown_answer
                (Client.resolved 200
                   (JObj [("ok", JBool true); ("data", proposal slot)])) in
  let stored := Client.format_message
                  (assistant_turn greeting 3 (proposal slot)) in
  prop (proposal slot) "data" = JUndefined
  /\ Client.is_proposal live = Client.is_proposal stored
  /\ Client.showConfirmationBar [live] = Client.showConfirmationBar [stored].
Proof.
  intros live stored.
  assert (Hflat : prop (proposal slot) "data" = JUndefined) by reflexivity.
  split; [exact Hflat|].
  destruct (live_and_reloaded_proposal_agree greeting 3 (proposal slot) []
              Hflat) as [Hsame [_ [Hbar _]]].
  split; [exact Hsame | exact Hbar].
Defined.

(** The offered client presses Decline. *)
Lemma decline_button_end_to_end_witness :
  let backend := Wire.confirm_answer (Some "user_1") unreachable []
                   db_proposed in
  let p := Client.format_message (assistant_turn greeting 3 (proposal slot)) in
  let body := Client.confirm_body offered (candidate_of p) false in
  let req := Server.mkRequest (Some "user_1") body in
  let db' := snd (fst (run (confirm_handler req) unreachable [] db_proposed)) in
  let st' := Client.click_decline backend offered in
  (Client.token offered <> ""
   /\ Client.sessionId offered <> ""
   /\ Client.showConfirmationBar (Client.current offered) = true
   /\ Client.lastMessage (Client.current offered) = Some p
   /\ Wire.confirm_reaches backend (Some "user_1") unreachable [] db_proposed
        body
   /\ Date_of (candidate_of p) = Some 1759831200000
   /\ now unreachable < 1759831200000
   /\ ids_fit req = true
   /\ jsonb_ok (candidate_of p) = true
   /\ no_fault [])
  /\ Client.current st' = (Client.current offered ++ [decline_accepted])%list
  /\ appointments db' = appointments db_proposed.
Proof.
  intros backend p body req db' st'.
  assert (Htok : Client.token offered <> "") by discriminate.
  assert (Hsid : Client.sessionId offered <> "") by discriminate.
  assert (Hbar : Client.showConfirmationBar (Client.current offered) = true)
    by reflexivity.
  assert (Hlast : Client.lastMessage (Client.current offered) = Some p)
    by reflexivity.
  assert (Hw : Wire.confirm_reaches backend (Some "user_1") unreachable []
                 db_proposed body) by reflexivity.
  assert (Hd : Date_of (candidate_of p) = Some 1759831200000) by reflexivity.
  assert (Hn : now unreachable < 1759831200000) by reflexivity.
  assert (Hi : ids_fit req = true) by reflexivity.
  assert (Hj : jsonb_ok (candidate_of p) = true) by reflexivity.
  assert (Hf : no_fault []) by reflexivity.
  split; [repeat split; assumption|].
  pose proof (decline_button_end_to_end platform platform backend
                (Some "user_1") unreachable [] db_proposed offered p
                1759831200000 Htok Hsid Hbar Hlast Hw Hd Hn Hi Hj Hf)
    as Hpress.
  cbv zeta in Hpress. destruct Hpress as [Hcur [_ [Happ _]]].
  split; [exact Hcur | exact Happ].
Defined.

(** A client that still shows a proposal for ten o'clock of the morning
    that has passed: both buttons are refused. *)
Lemma expired_proposal_buttons_fail_witness :
  let p := Client.mkMessage "assistant" (JStr "Shall I book today at 10?")
             (JObj [("appointment_candidate", JStr "2025-10-06T10:00:00Z");
                    ("needs_confirmation", JBool true)]) in
  let st := Client.mkState [[p]] 0 "token" "s1" in
  let backend := Wire.confirm_answer (Some "user_1") unreachable []
                   schema_db in
  (Client.token st <> ""
   /\ Client.showConfirmationBar (Client.current st) = true
   /\ Client.lastMessage (Client.current st) = Some p
   /\ ((Date_throws (candidate_of p) = false
        /\ Date_of (candidate_of p) = None)
       \/ exists time, Date_of (candidate_of p) = Some time
                       /\ time <= now unreachable)
   /\ forall yes,
        Wire.confirm_reaches backend (Some "user_1") unreachable [] schema_db
          (Client.confirm_body st (candidate_of p) yes))
  /\ Client.current (Client.click_confirm backend st)
     = [p; confirm_refused]
  /\ Client.current (Client.click_decline backend st)
     = [p; decline_refused].
Proof.
  intros p st backend.
  assert (Htok : Client.token st <> "") by discriminate.
  assert (Hbar : Client.showConfirmationBar (Client.current st) = true)
    by reflexivity.
  assert (Hlast : Client.lastMessage (Client.current st) = Some p)
    by reflexivity.
  assert (Hexp : (Date_throws (candidate_of p) = false
                  /\ Date_of (candidate_of p) = None)
                 \/ exists time, Date_of (candidate_of p) = Some time
                                 /\ time <= now unreachable).
  { right. exists 1759744800000. split; [reflexivity|]. vm_compute.
    discriminate. }
  assert (Hw : forall yes,
             Wire.confirm_reaches backend (Some "user_1") unreachable []
               schema_db (Client.confirm_body st (candidate_of p) yes))
    by (intros yes; reflexivity).
  split; [repeat split; assumption|].
  pose proof (expired_proposal_buttons_fail platform platform backend
                (Some "user_1") unreachable [] schema_db st p
                Htok Hbar Hlast Hexp) as Hfail.
  split.
  - destruct (Hfail true (Hw true)) as [_ [_ [Hcur _]]]. exact Hcur.
  - destruct (Hfail false (Hw false)) as [_ [_ [Hcur _]]]. exact Hcur.
Defined.

End FurtherScenarios.
